(** * PM4 command-stream interpreter of the Xenos command processor

    A shallow embedding of [src/xenia/gpu/pm4_command_processor_implement.h]:
    the packet decoder ([ExecutePacket]), the Type-0/1/2/3 executors, the
    Type-3 opcode handlers and the indirect-buffer driver
    ([ExecuteIndirectBuffer]).

    Machine integers are [Z] with the wrap-around written out; guest/host
    memory is a byte map; the register file is a map from register index to
    its 32-bit value; the trace writer and the rendering backend are
    append-only logs of the calls made to them ([trace] records every call
    to the trace writer, whether or not a trace file is open).

    Logging ([XELOGE], [XELOGW], [XELOGGPU]), profiling scopes and prefetch
    hints have no effect on the state and are left out.  The [assert_*]
    macros are checks that do not change the control flow; the model follows
    the code around them, and the condition of the assertion that ends
    [ExecutePacketType3] is kept as [type3_offset_assertion]. *)

From Stdlib Require Import ZArith List Bool Lia.
Import ListNotations.
Local Open Scope Z_scope.

(* ================================================================= *)
(** ** Machine integers *)

Definition u32 (x : Z) : Z := x mod 2 ^ 32.
Definition u64 (x : Z) : Z := x mod 2 ^ 64.

(** [x & ~0x3] on a [uint32_t]. *)
Definition clear_low2 (x : Z) : Z := Z.land x 0xFFFFFFFC.

(** Modelled from the spec: [xe::byte_swap] is defined elsewhere in the
    emulator; it is the byte-swapping primitive of sections 1 and 4.1,
    which reverses the order of the bytes of a value. *)
Definition byte_swap (v : Z) : Z :=
  Z.lor (Z.lor (Z.shiftl (Z.land v 0xFF) 24)
               (Z.shiftl (Z.land (Z.shiftr v 8) 0xFF) 16))
        (Z.lor (Z.shiftl (Z.land (Z.shiftr v 16) 0xFF) 8)
               (Z.land (Z.shiftr v 24) 0xFF)).

(** Modelled from the spec: [byte_swap<unsigned short>], the same
    primitive on a 16-bit value. *)
Definition byte_swap16 (v : Z) : Z :=
  Z.lor (Z.shiftl (Z.land v 0xFF) 8) (Z.land (Z.shiftr v 8) 0xFF).

(* ================================================================= *)
(** ** Memory: a byte map indexed by host address *)

Definition Memory := Z -> Z.

Definition store8 (m : Memory) (a v : Z) : Memory :=
  fun x => if x =? a then v mod 256 else m x.

(** Modelled from the spec: [xe::load<uint32_t>] and [xe::store<uint32_t>]
    are defined elsewhere in the emulator; they are the unswapped host
    accesses under the memory gateway of section 4.3, little-endian on the
    hosts the emulator runs on. *)
Definition load32 (m : Memory) (a : Z) : Z :=
  (m a) mod 256 + (m (a + 1)) mod 256 * 2 ^ 8
  + (m (a + 2)) mod 256 * 2 ^ 16 + (m (a + 3)) mod 256 * 2 ^ 24.

Definition store32 (m : Memory) (a v : Z) : Memory :=
  store8 (store8 (store8 (store8 m a v) (a + 1) (Z.shiftr v 8))
                 (a + 2) (Z.shiftr v 16))
         (a + 3) (Z.shiftr v 24).

Definition store16 (m : Memory) (a v : Z) : Memory :=
  store8 (store8 m a v) (a + 1) (Z.shiftr v 8).

(** A big-endian (guest order) 32-bit read: the host load followed by
    [byte_swap]. *)
Definition load_and_swap32 (m : Memory) (a : Z) : Z :=
  (m a) mod 256 * 2 ^ 24 + (m (a + 1)) mod 256 * 2 ^ 16
  + (m (a + 2)) mod 256 * 2 ^ 8 + (m (a + 3)) mod 256.

(** [std::memset(p, 0, n)]. *)
Fixpoint memset0 (m : Memory) (p : Z) (n : nat) : Memory :=
  match n with
  | O => m
  | S k => memset0 (store8 m (p + Z.of_nat k) 0) p k
  end.

(* ================================================================= *)
(** ** Ring reader *)

Record RingBuffer := mkRing {
  buffer : Z;
  capacity : Z;
  read_offset : Z;
  write_offset : Z
}.

(** Modelled from the spec: the [RingBuffer] class and its methods
    ([read_count], [AdvanceRead], [ReadAndSwap], [read_ptr]) are declared
    elsewhere in the emulator.  Section 3 gives its fields and the amount of readable
    data, [(write_offset - read_offset) mod capacity]; section 4.1 gives
    [advance(n)], which advances the read cursor by [n] modulo [capacity],
    and the swapped 32-bit read, which reads the four bytes at
    [read_offset] and advances by 4 modulo [capacity]. *)
Definition read_count (r : RingBuffer) : Z :=
  (write_offset r - read_offset r) mod capacity r.

(** Modelled from the spec: [RingBuffer::AdvanceRead], section 4.1:
    "advances read cursor by [n_bytes] mod [capacity]". *)
Definition rb_AdvanceRead (n : Z) (r : RingBuffer) : RingBuffer :=
  mkRing (buffer r) (capacity r) ((read_offset r + n) mod capacity r)
         (write_offset r).

(** Modelled from the spec: [RingBuffer::read_ptr], the host address of
    the byte at [read_offset]. *)
Definition read_ptr (r : RingBuffer) : Z := buffer r + read_offset r.

(** Modelled from the spec: the constructor of [RingBuffer] from a buffer
    and a capacity is declared elsewhere; a new reader has both offsets
    at 0. *)
Definition RingBuffer_new (buf cap : Z) : RingBuffer := mkRing buf cap 0 0.

(** Modelled from the spec: [RingBuffer::set_write_offset] is declared
    elsewhere; it keeps the invariant [write_offset < capacity] of
    section 3 by reducing the offset modulo [capacity]. *)
Definition set_write_offset (off : Z) (r : RingBuffer) : RingBuffer :=
  mkRing (buffer r) (capacity r) (read_offset r) (off mod capacity r).

(* ================================================================= *)
(** ** Trace writer and backend, as logs of the calls made to them *)

Inductive TraceRecord :=
| PacketStart (ptr count : Z)
| PacketEnd
| MemoryRead (ptr len : Z)
| MemoryWrite (ptr len : Z)
| IndirectBufferStart (ptr len : Z)
| IndirectBufferEnd
| EventSwap
| TraceFlush
| TraceClose
| TraceOpen (title_id seq : Z).

Inductive TraceState := kDisabled | kStreaming | kSingleFrame.

Inductive IndexFormat := kInt16 | kInt32.

Record IndexBufferInfo := mkIndexBufferInfo {
  ibi_format : IndexFormat;
  ibi_endianness : Z;
  ibi_count : Z;
  ibi_guest_base : Z;
  ibi_length : Z
}.

Inductive BackendCall :=
| CallIssueSwap (frontbuffer_ptr width height : Z)
| CallIssueDraw (prim_type num_indices : Z)
                (index_buffer_info : option IndexBufferInfo)
                (major_mode_explicit : bool)
| CallDispatchInterrupt (source cpu : Z)
| CallLoadShader (shader_type guest_address host_address dword_count : Z)
| CallMakeCoherent
| CallPrepareForWait
| CallReturnFromWait
| CallInitializeTrace
| CallRegisterHook (index value : Z).

(* ================================================================= *)
(** ** State of the command processor *)

Record CP := mkCP {
  reader : RingBuffer;
  mem : Memory;
  regs : Z -> Z;                        (* register_file_->values[i].u32 *)
  trace : list TraceRecord;             (* trace_writer_ *)
  trace_is_open : bool;
  trace_state : TraceState;
  backend : list BackendCall;
  bin_mask : Z;
  bin_select : Z;
  counter : Z;
  me_bin : list Z;
  active_vertex_shader : option Z;
  active_pixel_shader : option Z;
  worker_running : bool
}.

Definition set_reader (r : RingBuffer) (s : CP) : CP :=
  mkCP r (mem s) (regs s) (trace s) (trace_is_open s) (trace_state s)
       (backend s) (bin_mask s) (bin_select s) (counter s) (me_bin s)
       (active_vertex_shader s) (active_pixel_shader s) (worker_running s).

Definition set_mem (m : Memory) (s : CP) : CP :=
  mkCP (reader s) m (regs s) (trace s) (trace_is_open s) (trace_state s)
       (backend s) (bin_mask s) (bin_select s) (counter s) (me_bin s)
       (active_vertex_shader s) (active_pixel_shader s) (worker_running s).

Definition set_regs (f : Z -> Z) (s : CP) : CP :=
  mkCP (reader s) (mem s) f (trace s) (trace_is_open s) (trace_state s)
       (backend s) (bin_mask s) (bin_select s) (counter s) (me_bin s)
       (active_vertex_shader s) (active_pixel_shader s) (worker_running s).

Definition set_trace (t : list TraceRecord) (s : CP) : CP :=
  mkCP (reader s) (mem s) (regs s) t (trace_is_open s) (trace_state s)
       (backend s) (bin_mask s) (bin_select s) (counter s) (me_bin s)
       (active_vertex_shader s) (active_pixel_shader s) (worker_running s).

Definition set_trace_is_open (b : bool) (s : CP) : CP :=
  mkCP (reader s) (mem s) (regs s) (trace s) b (trace_state s)
       (backend s) (bin_mask s) (bin_select s) (counter s) (me_bin s)
       (active_vertex_shader s) (active_pixel_shader s) (worker_running s).

Definition set_trace_state (t : TraceState) (s : CP) : CP :=
  mkCP (reader s) (mem s) (regs s) (trace s) (trace_is_open s) t
       (backend s) (bin_mask s) (bin_select s) (counter s) (me_bin s)
       (active_vertex_shader s) (active_pixel_shader s) (worker_running s).

Definition set_backend (b : list BackendCall) (s : CP) : CP :=
  mkCP (reader s) (mem s) (regs s) (trace s) (trace_is_open s) (trace_state s)
       b (bin_mask s) (bin_select s) (counter s) (me_bin s)
       (active_vertex_shader s) (active_pixel_shader s) (worker_running s).

Definition set_bin_mask (v : Z) (s : CP) : CP :=
  mkCP (reader s) (mem s) (regs s) (trace s) (trace_is_open s) (trace_state s)
       (backend s) v (bin_select s) (counter s) (me_bin s)
       (active_vertex_shader s) (active_pixel_shader s) (worker_running s).

Definition set_bin_select (v : Z) (s : CP) : CP :=
  mkCP (reader s) (mem s) (regs s) (trace s) (trace_is_open s) (trace_state s)
       (backend s) (bin_mask s) v (counter s) (me_bin s)
       (active_vertex_shader s) (active_pixel_shader s) (worker_running s).

Definition set_counter (v : Z) (s : CP) : CP :=
  mkCP (reader s) (mem s) (regs s) (trace s) (trace_is_open s) (trace_state s)
       (backend s) (bin_mask s) (bin_select s) v (me_bin s)
       (active_vertex_shader s) (active_pixel_shader s) (worker_running s).

Definition set_me_bin (l : list Z) (s : CP) : CP :=
  mkCP (reader s) (mem s) (regs s) (trace s) (trace_is_open s) (trace_state s)
       (backend s) (bin_mask s) (bin_select s) (counter s) l
       (active_vertex_shader s) (active_pixel_shader s) (worker_running s).

Definition set_active_vertex_shader (h : option Z) (s : CP) : CP :=
  mkCP (reader s) (mem s) (regs s) (trace s) (trace_is_open s) (trace_state s)
       (backend s) (bin_mask s) (bin_select s) (counter s) (me_bin s)
       h (active_pixel_shader s) (worker_running s).

Definition set_active_pixel_shader (h : option Z) (s : CP) : CP :=
  mkCP (reader s) (mem s) (regs s) (trace s) (trace_is_open s) (trace_state s)
       (backend s) (bin_mask s) (bin_select s) (counter s) (me_bin s)
       (active_vertex_shader s) h (worker_running s).

(* ================================================================= *)
(** ** A state monad for the handlers *)

Definition M (A : Type) : Type := CP -> A * CP.

Definition ret {A} (a : A) : M A := fun s => (a, s).

Definition bind {A B} (m : M A) (k : A -> M B) : M B :=
  fun s => let (a, s') := m s in k a s'.

Declare Scope cp_scope.
Delimit Scope cp_scope with cp.
Notation "x <- m ;; k" := (bind m (fun x => k))
  (at level 61, m at next level, right associativity) : cp_scope.
Notation "m ;;; k" := (bind m (fun _ => k))
  (at level 61, right associativity) : cp_scope.
Local Open Scope cp_scope.

Definition modify (f : CP -> CP) : M unit := fun s => (tt, f s).
Definition gets {A} (f : CP -> A) : M A := fun s => (f s, s).

(** [for (i = 0; i < n; i++) body(i)]. *)
Fixpoint for_loop (n : nat) (i : Z) (body : Z -> M unit) : M unit :=
  match n with
  | O => ret tt
  | S k => body i ;;; for_loop k (i + 1) body
  end.

(* ----------------------------------------------------------------- *)
(** *** Reader, trace and backend operations on the state *)

Definition GetCurrentRingReadCount (s : CP) : Z := read_count (reader s).

(** [reader_.AdvanceRead(n)]. *)
Definition AdvanceRead (n : Z) : M unit :=
  modify (fun s => set_reader (rb_AdvanceRead n (reader s)) s).

(** Modelled from the spec: [RingBuffer::ReadAndSwap<uint32_t>],
    section 4.1: "reads 4 bytes at [read_offset], advances by 4 mod
    [capacity], byte-swaps from guest endianness to host". *)
Definition ReadAndSwap : M Z :=
  fun s => (load_and_swap32 (mem s) (read_ptr (reader s)),
            set_reader (rb_AdvanceRead 4 (reader s)) s).

Definition trace_write (r : TraceRecord) : M unit :=
  modify (fun s => set_trace (trace s ++ [r]) s).

Definition backend_call (c : BackendCall) : M unit :=
  modify (fun s => set_backend (backend s ++ [c]) s).

(** [trace_writer_.WritePacketStart(uint32_t(reader_.read_ptr() - 4), n)]. *)
Definition WritePacketStart_here (n : Z) : M unit :=
  fun s => trace_write (PacketStart (u32 (read_ptr (reader s) - 4)) n) s.

Definition store_mem32 (host_addr v : Z) : M unit :=
  modify (fun s => set_mem (store32 (mem s) host_addr v) s).

(* ================================================================= *)
(** ** What the file takes from the rest of the emulator *)

(** The case labels of the opcode switch in [ExecutePacketType3];
    [PM4_unimplemented] stands for its [default]. *)
Inductive Type3Opcode :=
| PM4_ME_INIT | PM4_NOP | PM4_INTERRUPT | PM4_XE_SWAP
| PM4_INDIRECT_BUFFER | PM4_INDIRECT_BUFFER_PFD
| PM4_WAIT_REG_MEM | PM4_REG_RMW | PM4_REG_TO_MEM | PM4_MEM_WRITE
| PM4_COND_WRITE | PM4_EVENT_WRITE | PM4_EVENT_WRITE_SHD
| PM4_EVENT_WRITE_EXT | PM4_EVENT_WRITE_ZPD
| PM4_DRAW_INDX | PM4_DRAW_INDX_2
| PM4_SET_CONSTANT | PM4_SET_CONSTANT2 | PM4_LOAD_ALU_CONSTANT
| PM4_SET_SHADER_CONSTANTS | PM4_IM_LOAD | PM4_IM_LOAD_IMMEDIATE
| PM4_INVALIDATE_STATE | PM4_VIZ_QUERY
| PM4_SET_BIN_MASK_LO | PM4_SET_BIN_MASK_HI
| PM4_SET_BIN_SELECT_LO | PM4_SET_BIN_SELECT_HI
| PM4_SET_BIN_MASK | PM4_SET_BIN_SELECT
| PM4_CONTEXT_UPDATE | PM4_WAIT_FOR_IDLE
| PM4_unimplemented.

Definition Type3Opcode_eqb (a b : Type3Opcode) : bool :=
  match a, b with
  | PM4_ME_INIT, PM4_ME_INIT | PM4_NOP, PM4_NOP
  | PM4_INTERRUPT, PM4_INTERRUPT | PM4_XE_SWAP, PM4_XE_SWAP
  | PM4_INDIRECT_BUFFER, PM4_INDIRECT_BUFFER
  | PM4_INDIRECT_BUFFER_PFD, PM4_INDIRECT_BUFFER_PFD
  | PM4_WAIT_REG_MEM, PM4_WAIT_REG_MEM | PM4_REG_RMW, PM4_REG_RMW
  | PM4_REG_TO_MEM, PM4_REG_TO_MEM | PM4_MEM_WRITE, PM4_MEM_WRITE
  | PM4_COND_WRITE, PM4_COND_WRITE | PM4_EVENT_WRITE, PM4_EVENT_WRITE
  | PM4_EVENT_WRITE_SHD, PM4_EVENT_WRITE_SHD
  | PM4_EVENT_WRITE_EXT, PM4_EVENT_WRITE_EXT
  | PM4_EVENT_WRITE_ZPD, PM4_EVENT_WRITE_ZPD
  | PM4_DRAW_INDX, PM4_DRAW_INDX | PM4_DRAW_INDX_2, PM4_DRAW_INDX_2
  | PM4_SET_CONSTANT, PM4_SET_CONSTANT | PM4_SET_CONSTANT2, PM4_SET_CONSTANT2
  | PM4_LOAD_ALU_CONSTANT, PM4_LOAD_ALU_CONSTANT
  | PM4_SET_SHADER_CONSTANTS, PM4_SET_SHADER_CONSTANTS
  | PM4_IM_LOAD, PM4_IM_LOAD | PM4_IM_LOAD_IMMEDIATE, PM4_IM_LOAD_IMMEDIATE
  | PM4_INVALIDATE_STATE, PM4_INVALIDATE_STATE | PM4_VIZ_QUERY, PM4_VIZ_QUERY
  | PM4_SET_BIN_MASK_LO, PM4_SET_BIN_MASK_LO
  | PM4_SET_BIN_MASK_HI, PM4_SET_BIN_MASK_HI
  | PM4_SET_BIN_SELECT_LO, PM4_SET_BIN_SELECT_LO
  | PM4_SET_BIN_SELECT_HI, PM4_SET_BIN_SELECT_HI
  | PM4_SET_BIN_MASK, PM4_SET_BIN_MASK | PM4_SET_BIN_SELECT, PM4_SET_BIN_SELECT
  | PM4_CONTEXT_UPDATE, PM4_CONTEXT_UPDATE
  | PM4_WAIT_FOR_IDLE, PM4_WAIT_FOR_IDLE
  | PM4_unimplemented, PM4_unimplemented => true
  | _, _ => false
  end.

Inductive SourceSelect := kDMA | kImmediate | kAutoIndex | kSourceInvalid.
Inductive ShaderType := kVertex | kPixel | kShaderOther.

(** Constants, type declarations, configuration and callbacks that
    [pm4_command_processor_implement.h] uses and that are declared in other
    files of the emulator.  Everything below is proved for every value of
    them. *)
Record Externals := mkExternals {
  (* the numbering of the opcode enumeration *)
  opcode_of : Z -> Type3Opcode;
  (* memory gateway *)
  TranslatePhysical : Z -> Z;
  CpuToGpu : Z -> Z;
  GpuToCpu : Z -> Z;
  GpuSwap : Z -> Z -> Z;                 (* value, endianness *)
  (* register indices *)
  XE_GPU_REG_COHER_STATUS_HOST : Z;
  XE_GPU_REG_VGT_EVENT_INITIATOR : Z;
  XE_GPU_REG_RB_SAMPLE_COUNT_ADDR : Z;
  XE_GPU_REG_VGT_DRAW_INITIATOR : Z;
  XE_GPU_REG_VGT_DMA_BASE : Z;
  XE_GPU_REG_VGT_DMA_SIZE : Z;
  XE_GPU_REG_PA_SC_VIZ_QUERY : Z;
  XE_GPU_REG_PA_SC_VIZ_QUERY_STATUS_0 : Z;
  XE_GPU_REG_PA_SC_VIZ_QUERY_STATUS_1 : Z;
  (* first register of each constant bank *)
  alu_bank_base : Z;
  fetch_bank_base : Z;
  bool_bank_base : Z;
  loop_bank_base : Z;
  registers_bank_base : Z;
  (* registers whose write invokes a hook of the backend *)
  side_effecting : Z -> bool;
  (* event and texture constants *)
  VIZQUERY_START : Z;
  VIZQUERY_END : Z;
  kTexture2DCubeMaxWidthHeight : Z;
  (* configuration variables *)
  query_occlusion_fake_sample_count : Z;
  vsync : bool;
  (* layout of xe_gpu_depth_sample_counts *)
  offsetof_Total_A : Z;
  offsetof_ZFail_A : Z;
  offsetof_ZFail_B : Z;
  offsetof_ZPass_A : Z;
  offsetof_ZPass_B : Z;
  sizeof_depth_sample_counts : nat;
  (* bit fields of VGT_DRAW_INITIATOR, VGT_DMA_SIZE and PA_SC_VIZ_QUERY *)
  draw_prim_type : Z -> Z;
  draw_source_select : Z -> SourceSelect;
  draw_major_mode : Z -> Z;
  draw_index_size : Z -> IndexFormat;
  draw_num_indices : Z -> Z;
  dma_num_words : Z -> Z;
  dma_swap_mode : Z -> Z;
  viz_query_ena : Z -> bool;
  kill_pix_post_hi_z : Z -> bool;
  IsMajorModeExplicit : Z -> Z -> bool;
  shader_type_of : Z -> ShaderType;
  (* results of backend calls *)
  LoadShader_handle : Z -> Z -> Z -> Z -> Z;
  MakeCoherent_regs : (Z -> Z) -> (Z -> Z);
  (* what other threads do to the shared state while this one yields or
     sleeps *)
  yield_mem : Memory -> Memory;
  yield_regs : (Z -> Z) -> (Z -> Z);
  yield_worker_running : bool -> bool;
  (* XE_ENABLE_TRACE_WRITER_INSTRUMENTATION == 1 *)
  trace_instrumentation : bool;
  title_id : Z
}.

Section Handlers.

Variable E : Externals.

Definition upd (f : Z -> Z) (i v : Z) : Z -> Z :=
  fun x => if x =? i then v else f x.

(** [register_file_->values[index].u32 = value]. *)
Definition set_reg_direct (index value : Z) : M unit :=
  modify (fun s => set_regs (upd (regs s) index value) s).

(** Modelled from the spec: [WriteRegister] is defined elsewhere in the
    emulator.  Section 4.2: it stores [value] at [index] and, if [index] is
    in one of the side-effecting classes, invokes the corresponding
    external hook. *)
Definition WriteRegister (index value : Z) : M unit :=
  set_reg_direct index value ;;;
  if side_effecting E index
  then backend_call (CallRegisterHook index value)
  else ret tt.

(** Modelled from the spec: the bulk register writers are defined
    elsewhere in the emulator.  Section 4.2: they stream from the ring reader (or
    from memory) and are semantically equivalent to [count] individual
    writes. *)
Definition WriteRegisterRangeFromRing (base : Z) (count : Z) : M unit :=
  for_loop (Z.to_nat count) 0
    (fun i => v <- ReadAndSwap ;; WriteRegister (base + i) v).

(** Modelled from the spec: [WriteOneRegisterFromRing], section 4.2: the
    [count] words of the ring go to the single register [base]. *)
Definition WriteOneRegisterFromRing (base : Z) (count : Z) : M unit :=
  for_loop (Z.to_nat count) 0
    (fun _ => v <- ReadAndSwap ;; WriteRegister base v).

(** Modelled from the spec: the bulk writers sourced from memory,
    section 4.2; the words are in guest byte order. *)
Definition WriteRegisterRangeFromMem (base host_address count : Z) : M unit :=
  for_loop (Z.to_nat count) 0
    (fun i => v <- gets (fun s => load_and_swap32 (mem s) (host_address + 4 * i)) ;;
              WriteRegister (base + i) v).

(** Modelled from the spec: the bank-specific writers, section 4.2, are
    range writes that start at the first register of their bank. *)
Definition WriteALURangeFromRing (index count : Z) : M unit :=
  WriteRegisterRangeFromRing (alu_bank_base E + index) count.
Definition WriteFetchRangeFromRing (index count : Z) : M unit :=
  WriteRegisterRangeFromRing (fetch_bank_base E + index) count.
Definition WriteBoolRangeFromRing (index count : Z) : M unit :=
  WriteRegisterRangeFromRing (bool_bank_base E + index) count.
Definition WriteLoopRangeFromRing (index count : Z) : M unit :=
  WriteRegisterRangeFromRing (loop_bank_base E + index) count.
Definition WriteREGISTERSRangeFromRing (index count : Z) : M unit :=
  WriteRegisterRangeFromRing (registers_bank_base E + index) count.

Definition WriteALURangeFromMem (index host count : Z) : M unit :=
  WriteRegisterRangeFromMem (alu_bank_base E + index) host count.
Definition WriteFetchRangeFromMem (index host count : Z) : M unit :=
  WriteRegisterRangeFromMem (fetch_bank_base E + index) host count.
Definition WriteBoolRangeFromMem (index host count : Z) : M unit :=
  WriteRegisterRangeFromMem (bool_bank_base E + index) host count.
Definition WriteLoopRangeFromMem (index host count : Z) : M unit :=
  WriteRegisterRangeFromMem (loop_bank_base E + index) host count.
Definition WriteREGISTERSRangeFromMem (index host count : Z) : M unit :=
  WriteRegisterRangeFromMem (registers_bank_base E + index) host count.

(** [MaybeYield()] and [Sleep(ms)]: the only points where other threads
    are observed. *)
Definition MaybeYield : M unit :=
  modify (fun s =>
    mkCP (reader s) (yield_mem E (mem s)) (yield_regs E (regs s)) (trace s)
         (trace_is_open s) (trace_state s) (backend s) (bin_mask s)
         (bin_select s) (counter s) (me_bin s) (active_vertex_shader s)
         (active_pixel_shader s) (yield_worker_running E (worker_running s))).

(** The duration of the sleep is not modelled. *)
Definition Sleep (ms : Z) : M unit := MaybeYield.

Definition MakeCoherent : M unit :=
  backend_call CallMakeCoherent ;;;
  modify (fun s => set_regs (MakeCoherent_regs E (regs s)) s).

(* ----------------------------------------------------------------- *)
(** *** Header fields *)

Definition packet_count (packet : Z) : Z :=
  Z.land (Z.shiftr packet 16) 0x3FFF + 1.

Definition type3_opcode (packet : Z) : Z := Z.land (Z.shiftr packet 8) 0x7F.

(* ----------------------------------------------------------------- *)
(** *** Type-0, Type-1 and Type-2 packets *)

Definition ExecutePacketType0 (packet : Z) : M bool :=
  let count := packet_count packet in
  fun s =>
  if GetCurrentRingReadCount s <? count * 4 then (false, s)
  else
    (WritePacketStart_here (1 + count) ;;;
     let base_index := Z.land packet 0x7FFF in
     let write_one_reg := Z.land (Z.shiftr packet 15) 0x1 in
     (if write_one_reg =? 0
      then WriteRegisterRangeFromRing base_index count
      else WriteOneRegisterFromRing base_index count) ;;;
     trace_write PacketEnd ;;;
     ret true) s.

Definition ExecutePacketType1 (packet : Z) : M bool :=
  WritePacketStart_here 3 ;;;
  let reg_index_1 := Z.land packet 0x7FF in
  let reg_index_2 := Z.land (Z.shiftr packet 11) 0x7FF in
  reg_data_1 <- ReadAndSwap ;;
  reg_data_2 <- ReadAndSwap ;;
  WriteRegister reg_index_1 reg_data_1 ;;;
  WriteRegister reg_index_2 reg_data_2 ;;;
  trace_write PacketEnd ;;;
  ret true.

Definition ExecutePacketType2 (packet : Z) : M bool :=
  WritePacketStart_here 1 ;;;
  trace_write PacketEnd ;;;
  ret true.

Definition HitUnimplementedOpcode (opcode count : Z) : M bool :=
  AdvanceRead (count * 4) ;;;
  trace_write PacketEnd ;;;
  ret false.

(* ----------------------------------------------------------------- *)
(** *** Type-3 opcode handlers *)

(** [count] words read from the ring, in order. *)
Fixpoint read_words (n : nat) : M (list Z) :=
  match n with
  | O => ret []
  | S k => w <- ReadAndSwap ;; ws <- read_words k ;; ret (w :: ws)
  end.

Definition ExecutePacketType3_ME_INIT (packet count : Z) : M bool :=
  ws <- read_words (Z.to_nat count) ;;
  modify (set_me_bin ws) ;;;
  ret true.

Definition ExecutePacketType3_NOP (packet count : Z) : M bool :=
  AdvanceRead (count * 4) ;;;
  ret true.

Definition ExecutePacketType3_INTERRUPT (packet count : Z) : M bool :=
  cpu_mask <- ReadAndSwap ;;
  for_loop 6 0
    (fun n => if Z.land cpu_mask (Z.shiftl 1 n) =? 0
              then ret tt
              else backend_call (CallDispatchInterrupt 1 n)) ;;;
  ret true.

Definition ExecutePacketType3_XE_SWAP (packet count : Z) : M bool :=
  magic <- ReadAndSwap ;;
  frontbuffer_ptr <- ReadAndSwap ;;
  frontbuffer_width <- ReadAndSwap ;;
  frontbuffer_height <- ReadAndSwap ;;
  AdvanceRead (u32 (count - 4) * 4) ;;;
  backend_call
    (CallIssueSwap frontbuffer_ptr frontbuffer_width frontbuffer_height) ;;;
  modify (fun s => set_counter (u32 (counter s + 1)) s) ;;;
  ret true.

Definition MatchValueAndRef (value ref wait_info : Z) : bool :=
  let sel := Z.land wait_info 0x7 in
  if sel =? 0 then false
  else if sel =? 1 then value <? ref
  else if sel =? 2 then value <=? ref
  else if sel =? 3 then value =? ref
  else if sel =? 4 then negb (value =? ref)
  else if sel =? 5 then value >=? ref
  else if sel =? 6 then value >? ref
  else if sel =? 7 then true
  else false.

(** One iteration of the polling loop of [WAIT_REG_MEM] reads the value;
    [poll_reg_addr] is a local that the memory branch overwrites with the
    aligned address, so it is threaded through the iterations. *)
Definition wait_poll_value (wait_info poll_reg_addr : Z) : M (Z * Z) :=
  if negb (Z.land wait_info 0x10 =? 0) then
    let endianness := Z.land poll_reg_addr 0x3 in
    let poll_reg_addr := clear_low2 poll_reg_addr in
    value <- gets (fun s => load32 (mem s) (TranslatePhysical E poll_reg_addr)) ;;
    let value := GpuSwap E value endianness in
    trace_write (MemoryRead (CpuToGpu E poll_reg_addr) 4) ;;;
    ret (value, poll_reg_addr)
  else
    value <- gets (fun s => regs s poll_reg_addr) ;;
    if poll_reg_addr =? XE_GPU_REG_COHER_STATUS_HOST E then
      MakeCoherent ;;;
      value <- gets (fun s => regs s poll_reg_addr) ;;
      ret (value, poll_reg_addr)
    else ret (value, poll_reg_addr).

(** The [do ... while (!matched)] loop; [None] when the poll budget [n] is
    used up before the loop ends. *)
Fixpoint wait_loop (n : nat) (wait_info poll_reg_addr ref mask wait : Z)
         (s : CP) : option (bool * CP) :=
  match n with
  | O => None
  | S k =>
      let '((value, poll_reg_addr), s1) :=
        wait_poll_value wait_info poll_reg_addr s in
      let matched := MatchValueAndRef (Z.land value mask) ref wait_info in
      if matched then Some (true, s1)
      else if wait >=? 0x100 then
        let '(_, s2) :=
          (backend_call CallPrepareForWait ;;;
           (if negb (vsync E) then MaybeYield else Sleep (wait / 0x100)) ;;;
           backend_call CallReturnFromWait) s1 in
        if negb (worker_running s2) then Some (false, s2)
        else wait_loop k wait_info poll_reg_addr ref mask wait s2
      else
        let '(_, s2) := MaybeYield s1 in
        wait_loop k wait_info poll_reg_addr ref mask wait s2
  end.

Definition ExecutePacketType3_WAIT_REG_MEM (polls : nat) (packet count : Z)
  : CP -> option (bool * CP) :=
  fun s =>
  let '(wait_info, s) := ReadAndSwap s in
  let '(poll_reg_addr, s) := ReadAndSwap s in
  let '(ref, s) := ReadAndSwap s in
  let '(mask, s) := ReadAndSwap s in
  let '(wait, s) := ReadAndSwap s in
  wait_loop polls wait_info poll_reg_addr ref mask wait s.

Definition ExecutePacketType3_REG_RMW (packet count : Z) : M bool :=
  rmw_info <- ReadAndSwap ;;
  and_mask <- ReadAndSwap ;;
  or_mask <- ReadAndSwap ;;
  value <- gets (fun s => regs s (Z.land rmw_info 0x1FFF)) ;;
  value <- (if negb (Z.land (Z.shiftr rmw_info 31) 0x1 =? 0)
            then r <- gets (fun s => regs s (Z.land and_mask 0x1FFF)) ;;
                 ret (Z.land value r)
            else ret (Z.land value and_mask)) ;;
  value <- (if negb (Z.land (Z.shiftr rmw_info 30) 0x1 =? 0)
            then r <- gets (fun s => regs s (Z.land or_mask 0x1FFF)) ;;
                 ret (Z.lor value r)
            else ret (Z.lor value or_mask)) ;;
  WriteRegister (Z.land rmw_info 0x1FFF) value ;;;
  ret true.

Definition ExecutePacketType3_REG_TO_MEM (packet count : Z) : M bool :=
  reg_addr <- ReadAndSwap ;;
  mem_addr <- ReadAndSwap ;;
  reg_val <- gets (fun s => regs s reg_addr) ;;
  let endianness := Z.land mem_addr 0x3 in
  let mem_addr := clear_low2 mem_addr in
  let reg_val := GpuSwap E reg_val endianness in
  store_mem32 (TranslatePhysical E mem_addr) reg_val ;;;
  trace_write (MemoryWrite (CpuToGpu E mem_addr) 4) ;;;
  ret true.

Definition ExecutePacketType3_MEM_WRITE (packet count : Z) : M bool :=
  write_addr <- ReadAndSwap ;;
  for_loop (Z.to_nat (u32 (count - 1))) 0
    (fun i =>
       let write_addr := u32 (write_addr + 4 * i) in
       write_data <- ReadAndSwap ;;
       let endianness := Z.land write_addr 0x3 in
       let addr := clear_low2 write_addr in
       let write_data := GpuSwap E write_data endianness in
       store_mem32 (TranslatePhysical E addr) write_data ;;;
       trace_write (MemoryWrite (CpuToGpu E addr) 4)) ;;;
  ret true.

Definition ExecutePacketType3_COND_WRITE (packet count : Z) : M bool :=
  wait_info <- ReadAndSwap ;;
  poll_reg_addr <- ReadAndSwap ;;
  ref <- ReadAndSwap ;;
  mask <- ReadAndSwap ;;
  write_reg_addr <- ReadAndSwap ;;
  write_data <- ReadAndSwap ;;
  value <- (if negb (Z.land wait_info 0x10 =? 0) then
              let endianness := Z.land poll_reg_addr 0x3 in
              let poll_reg_addr := clear_low2 poll_reg_addr in
              trace_write (MemoryRead (CpuToGpu E poll_reg_addr) 4) ;;;
              value <- gets (fun s =>
                         load32 (mem s) (TranslatePhysical E poll_reg_addr)) ;;
              ret (GpuSwap E value endianness)
            else gets (fun s => regs s poll_reg_addr)) ;;
  let matched := MatchValueAndRef (Z.land value mask) ref wait_info in
  (if matched then
     if negb (Z.land wait_info 0x100 =? 0) then
       let endianness := Z.land write_reg_addr 0x3 in
       let write_reg_addr := clear_low2 write_reg_addr in
       let write_data := GpuSwap E write_data endianness in
       store_mem32 (TranslatePhysical E write_reg_addr) write_data ;;;
       trace_write (MemoryWrite (CpuToGpu E write_reg_addr) 4)
     else WriteRegister write_reg_addr write_data
   else ret tt) ;;;
  ret true.

Definition WriteEventInitiator (value : Z) : M unit :=
  set_reg_direct (XE_GPU_REG_VGT_EVENT_INITIATOR E) value.

Definition ExecutePacketType3_EVENT_WRITE (packet count : Z) : M bool :=
  initiator <- ReadAndSwap ;;
  WriteEventInitiator (Z.land initiator 0x3F) ;;;
  (if count =? 1 then ret tt
   else AdvanceRead (u32 (count - 1) * 4)) ;;;
  ret true.

Definition ExecutePacketType3_EVENT_WRITE_SHD (packet count : Z) : M bool :=
  initiator <- ReadAndSwap ;;
  address <- ReadAndSwap ;;
  value <- ReadAndSwap ;;
  WriteEventInitiator (Z.land initiator 0x3F) ;;;
  data_value <- (if negb (Z.land (Z.shiftr initiator 31) 0x1 =? 0)
                 then gets counter
                 else ret value) ;;
  let endianness := Z.land address 0x3 in
  let address := clear_low2 address in
  let data_value := GpuSwap E data_value endianness in
  store_mem32 (TranslatePhysical E address) data_value ;;;
  trace_write (MemoryWrite (CpuToGpu E address) 4) ;;;
  ret true.

Definition screen_extents : list Z :=
  [ byte_swap16 (Z.shiftr 0 3);
    byte_swap16 (Z.shiftr (kTexture2DCubeMaxWidthHeight E) 3);
    byte_swap16 (Z.shiftr 0 3);
    byte_swap16 (Z.shiftr (kTexture2DCubeMaxWidthHeight E) 3);
    byte_swap16 0;
    byte_swap16 1 ].

Definition ExecutePacketType3_EVENT_WRITE_EXT (packet count : Z) : M bool :=
  initiator <- ReadAndSwap ;;
  address <- ReadAndSwap ;;
  WriteEventInitiator (Z.land initiator 0x3F) ;;;
  let endianness := Z.land address 0x3 in
  let address := clear_low2 address in
  let destination := TranslatePhysical E address in
  for_loop 6 0
    (fun i => modify (fun s =>
       set_mem (store16 (mem s) (destination + 2 * i)
                        (nth (Z.to_nat i) screen_extents 0)) s)) ;;;
  trace_write (MemoryWrite (CpuToGpu E address) 12) ;;;
  ret true.

Definition kQueryFinished : Z := byte_swap 0xFFFFFEED.

Definition ExecutePacketType3_EVENT_WRITE_ZPD (packet count : Z) : M bool :=
  initiator <- ReadAndSwap ;;
  WriteEventInitiator (Z.land initiator 0x3F) ;;;
  let fake_sample_count := query_occlusion_fake_sample_count E in
  (if fake_sample_count >=? 0 then
     pSampleCounts <- gets (fun s =>
       TranslatePhysical E (regs s (XE_GPU_REG_RB_SAMPLE_COUNT_ADDR E))) ;;
     ZPass_A <- gets (fun s => load32 (mem s) (pSampleCounts + offsetof_ZPass_A E)) ;;
     ZPass_B <- gets (fun s => load32 (mem s) (pSampleCounts + offsetof_ZPass_B E)) ;;
     ZFail_A <- gets (fun s => load32 (mem s) (pSampleCounts + offsetof_ZFail_A E)) ;;
     ZFail_B <- gets (fun s => load32 (mem s) (pSampleCounts + offsetof_ZFail_B E)) ;;
     let is_end_via_z_pass :=
       (ZPass_A =? kQueryFinished) && (ZPass_B =? kQueryFinished) in
     let is_end_via_z_fail :=
       (ZFail_A =? kQueryFinished) && (ZFail_B =? kQueryFinished) in
     modify (fun s =>
       set_mem (memset0 (mem s) pSampleCounts (sizeof_depth_sample_counts E)) s) ;;;
     if is_end_via_z_pass || is_end_via_z_fail then
       store_mem32 (pSampleCounts + offsetof_ZPass_A E) (u32 fake_sample_count) ;;;
       store_mem32 (pSampleCounts + offsetof_Total_A E) (u32 fake_sample_count)
     else ret tt
   else ret tt) ;;;
  ret true.

(** The tail of [ExecutePacketType3Draw], after the [switch] on the index
    source: skip what is left of the packet, then draw unless a viz query
    culls it. *)
Definition draw_tail (draw_succeeded : bool) (vgt_draw_initiator : Z)
           (index_buffer_info : option IndexBufferInfo)
           (count_remaining : Z) : M bool :=
  AdvanceRead (count_remaining * 4) ;;;
  (if draw_succeeded then
     viz_query <- gets (fun s => regs s (XE_GPU_REG_PA_SC_VIZ_QUERY E)) ;;
     if negb (viz_query_ena E viz_query && kill_pix_post_hi_z E viz_query)
     then backend_call
            (CallIssueDraw (draw_prim_type E vgt_draw_initiator)
               (draw_num_indices E vgt_draw_initiator)
               index_buffer_info
               (IsMajorModeExplicit E (draw_major_mode E vgt_draw_initiator)
                                      (draw_prim_type E vgt_draw_initiator)))
     else ret tt
   else ret tt) ;;;
  ret true.

Definition ExecutePacketType3Draw (packet viz_query_condition : Z)
           (count_remaining : Z) : M bool :=
  if count_remaining =? 0 then ret false
  else
    vgt_draw_initiator <- ReadAndSwap ;;
    let count_remaining := count_remaining - 1 in
    set_reg_direct (XE_GPU_REG_VGT_DRAW_INITIATOR E) vgt_draw_initiator ;;;
    match draw_source_select E vgt_draw_initiator with
    | kDMA =>
        if count_remaining =? 0 then ret false
        else
          vgt_dma_base <- ReadAndSwap ;;
          let count_remaining := count_remaining - 1 in
          set_reg_direct (XE_GPU_REG_VGT_DMA_BASE E) vgt_dma_base ;;;
          if count_remaining =? 0 then ret false
          else
            vgt_dma_size <- ReadAndSwap ;;
            let count_remaining := count_remaining - 1 in
            set_reg_direct (XE_GPU_REG_VGT_DMA_SIZE E) vgt_dma_size ;;;
            let index_size_bytes :=
              match draw_index_size E vgt_draw_initiator with
              | kInt16 => 2
              | kInt32 => 4
              end in
            let index_buffer_info :=
              mkIndexBufferInfo
                (draw_index_size E vgt_draw_initiator)
                (dma_swap_mode E vgt_dma_size)
                (draw_num_indices E vgt_draw_initiator)
                (Z.land vgt_dma_base (u32 (Z.lnot (index_size_bytes - 1))))
                (u32 (dma_num_words E vgt_dma_size * index_size_bytes)) in
            draw_tail true vgt_draw_initiator (Some index_buffer_info)
                      count_remaining
    | kImmediate => draw_tail false vgt_draw_initiator None count_remaining
    | kAutoIndex => draw_tail true vgt_draw_initiator None count_remaining
    | kSourceInvalid => draw_tail false vgt_draw_initiator None count_remaining
    end.

Definition ExecutePacketType3_DRAW_INDX (packet count : Z) : M bool :=
  let count_remaining := count in
  if count_remaining =? 0 then ret false
  else
    viz_query_condition <- ReadAndSwap ;;
    let count_remaining := count_remaining - 1 in
    ExecutePacketType3Draw packet viz_query_condition count_remaining.

Definition ExecutePacketType3_DRAW_INDX_2 (packet count : Z) : M bool :=
  ExecutePacketType3Draw packet 0 count.

Definition ExecutePacketType3_SET_CONSTANT (packet count : Z) : M bool :=
  offset_type <- ReadAndSwap ;;
  let index := Z.land offset_type 0x7FF in
  let type := Z.land (Z.shiftr offset_type 16) 0xFF in
  let countm1 := u32 (count - 1) in
  if type =? 0 then WriteALURangeFromRing index countm1 ;;; ret true
  else if type =? 1 then WriteFetchRangeFromRing index countm1 ;;; ret true
  else if type =? 2 then WriteBoolRangeFromRing index countm1 ;;; ret true
  else if type =? 3 then WriteLoopRangeFromRing index countm1 ;;; ret true
  else if type =? 4 then WriteREGISTERSRangeFromRing index countm1 ;;; ret true
  else AdvanceRead (u32 (count - 1) * 4) ;;; ret true.

Definition ExecutePacketType3_SET_CONSTANT2 (packet count : Z) : M bool :=
  offset_type <- ReadAndSwap ;;
  let index := Z.land offset_type 0xFFFF in
  let countm1 := u32 (count - 1) in
  WriteRegisterRangeFromRing index countm1 ;;;
  ret true.

Definition ExecutePacketType3_LOAD_ALU_CONSTANT (packet count : Z) : M bool :=
  address <- ReadAndSwap ;;
  let address := Z.land address 0x3FFFFFFF in
  offset_type <- ReadAndSwap ;;
  let index := Z.land offset_type 0x7FF in
  size_dwords <- ReadAndSwap ;;
  let size_dwords := Z.land size_dwords 0xFFF in
  let type := Z.land (Z.shiftr offset_type 16) 0xFF in
  let xlat_address := TranslatePhysical E address in
  let read_traced := trace_write (MemoryRead (CpuToGpu E address) (size_dwords * 4)) in
  if type =? 0 then
    read_traced ;;; WriteALURangeFromMem index xlat_address size_dwords ;;; ret true
  else if type =? 1 then
    read_traced ;;; WriteFetchRangeFromMem index xlat_address size_dwords ;;; ret true
  else if type =? 2 then
    read_traced ;;; WriteBoolRangeFromMem index xlat_address size_dwords ;;; ret true
  else if type =? 3 then
    read_traced ;;; WriteLoopRangeFromMem index xlat_address size_dwords ;;; ret true
  else if type =? 4 then
    read_traced ;;; WriteREGISTERSRangeFromMem index xlat_address size_dwords ;;; ret true
  else ret true.

Definition ExecutePacketType3_SET_SHADER_CONSTANTS (packet count : Z) : M bool :=
  offset_type <- ReadAndSwap ;;
  let index := Z.land offset_type 0xFFFF in
  let countm1 := u32 (count - 1) in
  WriteRegisterRangeFromRing index countm1 ;;;
  ret true.

(** [LoadShader] is a call into the backend; the handle it returns is
    [LoadShader_handle]. *)
Definition LoadShader (shader_type guest_address host_address dword_count : Z)
  : M Z :=
  backend_call
    (CallLoadShader shader_type guest_address host_address dword_count) ;;;
  ret (LoadShader_handle E shader_type guest_address host_address dword_count).

Definition ExecutePacketType3_IM_LOAD (packet count : Z) : M bool :=
  addr_type <- ReadAndSwap ;;
  let shader_type := Z.land addr_type 0x3 in
  let addr := clear_low2 addr_type in
  start_size <- ReadAndSwap ;;
  let size_dwords := Z.land start_size 0xFFFF in
  trace_write (MemoryRead (CpuToGpu E addr) (size_dwords * 4)) ;;;
  shader <- LoadShader shader_type addr (TranslatePhysical E addr) size_dwords ;;
  match shader_type_of E shader_type with
  | kVertex => modify (set_active_vertex_shader (Some shader)) ;;; ret true
  | kPixel => modify (set_active_pixel_shader (Some shader)) ;;; ret true
  | kShaderOther => ret false
  end.

Definition ExecutePacketType3_IM_LOAD_IMMEDIATE (packet count : Z) : M bool :=
  dword0 <- ReadAndSwap ;;
  dword1 <- ReadAndSwap ;;
  let shader_type := dword0 in
  let start_size := dword1 in
  let size_dwords := Z.land start_size 0xFFFF in
  here <- gets (fun s => read_ptr (reader s)) ;;
  shader <- LoadShader shader_type (u32 here) here size_dwords ;;
  match shader_type_of E shader_type with
  | kVertex =>
      modify (set_active_vertex_shader (Some shader)) ;;;
      AdvanceRead (size_dwords * 4) ;;; ret true
  | kPixel =>
      modify (set_active_pixel_shader (Some shader)) ;;;
      AdvanceRead (size_dwords * 4) ;;; ret true
  | kShaderOther => ret false
  end.

Definition ExecutePacketType3_INVALIDATE_STATE (packet count : Z) : M bool :=
  ReadAndSwap ;;; ret true.

Definition ExecutePacketType3_VIZ_QUERY (packet count : Z) : M bool :=
  dword0 <- ReadAndSwap ;;
  let id := Z.land dword0 0x3F in
  let end_ := Z.land dword0 0x100 in
  (if end_ =? 0 then WriteEventInitiator (VIZQUERY_START E)
   else
     WriteEventInitiator (VIZQUERY_END E) ;;;
     if id <? 32 then
       old <- gets (fun s => regs s (XE_GPU_REG_PA_SC_VIZ_QUERY_STATUS_0 E)) ;;
       set_reg_direct (XE_GPU_REG_PA_SC_VIZ_QUERY_STATUS_0 E)
                      (Z.lor old (Z.shiftl 1 id))
     else
       old <- gets (fun s => regs s (XE_GPU_REG_PA_SC_VIZ_QUERY_STATUS_1 E)) ;;
       set_reg_direct (XE_GPU_REG_PA_SC_VIZ_QUERY_STATUS_1 E)
                      (Z.lor old (Z.shiftl 1 (id - 32)))) ;;;
  ret true.

Definition ExecutePacketType3_CountOverflow (count : Z) : M bool :=
  ret false.

(* ----------------------------------------------------------------- *)
(** *** The Type-3 dispatcher and the packet decoder

    [ExecutePacket], [ExecutePacketType3] and [ExecuteIndirectBuffer] call
    each other.  Here the first two are written over [indirect], the
    function that runs a nested indirect buffer, and over the poll budget
    of [WAIT_REG_MEM]; the knot is tied below by recursion on a budget. *)

Section Dispatch.

Variable indirect : Z -> Z -> CP -> option CP.
Variable polls : nat.

Definition lift {A} (m : M A) : CP -> option (A * CP) := fun s => Some (m s).

Definition ExecutePacketType3_INDIRECT_BUFFER (packet count : Z)
  : CP -> option (bool * CP) :=
  fun s =>
  let '(w, s) := ReadAndSwap s in
  let list_ptr := CpuToGpu E w in
  let '(list_length, s) := ReadAndSwap s in
  let list_length := Z.land list_length 0xFFFFF in
  match indirect (GpuToCpu E list_ptr) list_length s with
  | None => None
  | Some s => Some (true, s)
  end.

(** The body of the [switch (opcode)], for every label but [default]. *)
Definition type3_case (op : Type3Opcode) (packet count : Z)
  : CP -> option (bool * CP) :=
  match op with
  | PM4_ME_INIT => lift (ExecutePacketType3_ME_INIT packet count)
  | PM4_NOP => lift (ExecutePacketType3_NOP packet count)
  | PM4_INTERRUPT => lift (ExecutePacketType3_INTERRUPT packet count)
  | PM4_XE_SWAP => lift (ExecutePacketType3_XE_SWAP packet count)
  | PM4_INDIRECT_BUFFER
  | PM4_INDIRECT_BUFFER_PFD => ExecutePacketType3_INDIRECT_BUFFER packet count
  | PM4_WAIT_REG_MEM => ExecutePacketType3_WAIT_REG_MEM polls packet count
  | PM4_REG_RMW => lift (ExecutePacketType3_REG_RMW packet count)
  | PM4_REG_TO_MEM => lift (ExecutePacketType3_REG_TO_MEM packet count)
  | PM4_MEM_WRITE => lift (ExecutePacketType3_MEM_WRITE packet count)
  | PM4_COND_WRITE => lift (ExecutePacketType3_COND_WRITE packet count)
  | PM4_EVENT_WRITE => lift (ExecutePacketType3_EVENT_WRITE packet count)
  | PM4_EVENT_WRITE_SHD => lift (ExecutePacketType3_EVENT_WRITE_SHD packet count)
  | PM4_EVENT_WRITE_EXT => lift (ExecutePacketType3_EVENT_WRITE_EXT packet count)
  | PM4_EVENT_WRITE_ZPD => lift (ExecutePacketType3_EVENT_WRITE_ZPD packet count)
  | PM4_DRAW_INDX => lift (ExecutePacketType3_DRAW_INDX packet count)
  | PM4_DRAW_INDX_2 => lift (ExecutePacketType3_DRAW_INDX_2 packet count)
  | PM4_SET_CONSTANT => lift (ExecutePacketType3_SET_CONSTANT packet count)
  | PM4_SET_CONSTANT2 => lift (ExecutePacketType3_SET_CONSTANT2 packet count)
  | PM4_LOAD_ALU_CONSTANT =>
      lift (ExecutePacketType3_LOAD_ALU_CONSTANT packet count)
  | PM4_SET_SHADER_CONSTANTS =>
      lift (ExecutePacketType3_SET_SHADER_CONSTANTS packet count)
  | PM4_IM_LOAD => lift (ExecutePacketType3_IM_LOAD packet count)
  | PM4_IM_LOAD_IMMEDIATE =>
      lift (ExecutePacketType3_IM_LOAD_IMMEDIATE packet count)
  | PM4_INVALIDATE_STATE =>
      lift (ExecutePacketType3_INVALIDATE_STATE packet count)
  | PM4_VIZ_QUERY => lift (ExecutePacketType3_VIZ_QUERY packet count)
  | PM4_SET_BIN_MASK_LO =>
      lift (value <- ReadAndSwap ;;
            modify (fun s =>
              set_bin_mask
                (Z.lor (Z.land (bin_mask s) 0xFFFFFFFF00000000) value) s) ;;;
            ret true)
  | PM4_SET_BIN_MASK_HI =>
      lift (value <- ReadAndSwap ;;
            modify (fun s =>
              set_bin_mask
                (Z.lor (Z.land (bin_mask s) 0xFFFFFFFF)
                       (u64 (Z.shiftl value 32))) s) ;;;
            ret true)
  | PM4_SET_BIN_SELECT_LO =>
      lift (value <- ReadAndSwap ;;
            modify (fun s =>
              set_bin_select
                (Z.lor (Z.land (bin_select s) 0xFFFFFFFF00000000) value) s) ;;;
            ret true)
  | PM4_SET_BIN_SELECT_HI =>
      lift (value <- ReadAndSwap ;;
            modify (fun s =>
              set_bin_select
                (Z.lor (Z.land (bin_select s) 0xFFFFFFFF)
                       (u64 (Z.shiftl value 32))) s) ;;;
            ret true)
  | PM4_SET_BIN_MASK =>
      lift (val_hi <- ReadAndSwap ;;
            val_lo <- ReadAndSwap ;;
            modify (set_bin_mask (Z.lor (u64 (Z.shiftl val_hi 32)) val_lo)) ;;;
            ret true)
  | PM4_SET_BIN_SELECT =>
      lift (val_hi <- ReadAndSwap ;;
            val_lo <- ReadAndSwap ;;
            modify (set_bin_select (Z.lor (u64 (Z.shiftl val_hi 32)) val_lo)) ;;;
            ret true)
  | PM4_CONTEXT_UPDATE => lift (ReadAndSwap ;;; ret true)
  | PM4_WAIT_FOR_IDLE => lift (ReadAndSwap ;;; ret true)
  | PM4_unimplemented =>
      lift (HitUnimplementedOpcode (type3_opcode packet) count)
  end.

(** The block under [XE_ENABLE_TRACE_WRITER_INSTRUMENTATION] that ends the
    trace writer's frame at a swap. *)
Definition trace_end_of_frame : M unit :=
  fun s =>
  if trace_is_open s then
    (trace_write EventSwap ;;;
     trace_write TraceFlush ;;;
     fun s =>
     match trace_state s with
     | kSingleFrame =>
         (modify (set_trace_state kDisabled) ;;;
          trace_write TraceClose ;;;
          modify (set_trace_is_open false)) s
     | _ => (tt, s)
     end) s
  else
    match trace_state s with
    | kSingleFrame =>
        (trace_write (TraceOpen (title_id E) (u32 (counter s - 1))) ;;;
         modify (set_trace_is_open true) ;;;
         backend_call CallInitializeTrace) s
    | _ => (tt, s)
    end.

Definition ExecutePacketType3_in (packet : Z) : CP -> option (bool * CP) :=
  fun s =>
  let opcode := type3_opcode packet in
  let count := packet_count packet in
  if GetCurrentRingReadCount s >=? count * 4 then
    let '(_, s) :=
      (if Type3Opcode_eqb (opcode_of E opcode) PM4_INDIRECT_BUFFER
       then WritePacketStart_here 2
       else WritePacketStart_here (1 + count)) s in
    let any_pass := negb (Z.land (bin_select s) (bin_mask s) =? 0) in
    if negb (Z.land packet 1 =? 0)
       && (negb any_pass || Type3Opcode_eqb (opcode_of E opcode) PM4_XE_SWAP)
    then
      lift (AdvanceRead (count * 4) ;;; trace_write PacketEnd ;;; ret true) s
    else
      match opcode_of E opcode with
      | PM4_unimplemented => type3_case PM4_unimplemented packet count s
      | op =>
          match type3_case op packet count s with
          | None => None
          | Some (result, s) =>
              let '(_, s) := trace_write PacketEnd s in
              let '(_, s) :=
                (if trace_instrumentation E && Type3Opcode_eqb op PM4_XE_SWAP
                 then trace_end_of_frame else ret tt) s in
              Some (result, s)
          end
      end
  else lift (ExecutePacketType3_CountOverflow count) s.

Definition handle_bad_packet : M bool :=
  WritePacketStart_here 1 ;;;
  trace_write PacketEnd ;;;
  ret true.

Definition ExecutePacket_in : CP -> option (bool * CP) :=
  fun s =>
  let '(packet, s) := ReadAndSwap s in
  let packet_type := Z.shiftr packet 30 in
  (* 0xCDCDCDCD is logged and then executed like any other header *)
  if negb (packet =? 0) && negb (packet =? 0x0BADF00D) then
    if packet_type =? 3 then ExecutePacketType3_in packet s
    else if packet_type =? 0 then lift (ExecutePacketType0 packet) s
    else if packet_type =? 1 then lift (ExecutePacketType1 packet) s
    else lift handle_bad_packet s
  else lift handle_bad_packet s.

End Dispatch.

(** The [do { ExecutePacket(); } while (reader_.read_count());] loop of
    [ExecuteIndirectBuffer].  The result of [ExecutePacket] does not leave
    the loop: the [break] of the failure branch is commented out.  [None]
    when the budget of [n] packets is used up. *)
Fixpoint indirect_loop (exec : CP -> option (bool * CP)) (n : nat) (s : CP)
  : option CP :=
  match n with
  | O => None
  | S k =>
      match exec s with
      | None => None
      | Some (_, s') =>
          if read_count (reader s') =? 0 then Some s'
          else indirect_loop exec k s'
      end
  end.

(** The reader that [ExecuteIndirectBuffer] installs over the [count] words
    at [ptr]. *)
Definition indirect_reader (ptr count : Z) : RingBuffer :=
  set_write_offset (count * 4)
    (RingBuffer_new (TranslatePhysical E ptr) (count * 4)).

Definition ExecuteIndirectBuffer_in (exec : CP -> option (bool * CP))
           (n : nat) (ptr count : Z) : CP -> option CP :=
  fun s =>
  let '(_, s) := trace_write (IndirectBufferStart ptr (count * 4)) s in
  let old_reader := reader s in
  let s := set_reader (indirect_reader ptr count) s in
  match indirect_loop exec n s with
  | None => None
  | Some s =>
      let '(_, s) := trace_write IndirectBufferEnd s in
      Some (set_reader old_reader s)
  end.

(** [fuel] bounds the nesting depth of indirect buffers, the number of
    packets run in one indirect buffer and the number of polls of one
    [WAIT_REG_MEM]. *)
Fixpoint ExecutePacket (fuel : nat) : CP -> option (bool * CP) :=
  ExecutePacket_in
    (match fuel with
     | O => fun _ _ _ => None
     | S f => ExecuteIndirectBuffer_in (ExecutePacket f) fuel
     end)
    fuel.

Definition ExecuteIndirectBuffer (fuel : nat) (ptr count : Z)
  : CP -> option CP :=
  match fuel with
  | O => fun _ => None
  | S f => ExecuteIndirectBuffer_in (ExecutePacket f) fuel ptr count
  end.

Definition ExecutePacketType3 (fuel : nat) (packet : Z)
  : CP -> option (bool * CP) :=
  ExecutePacketType3_in (ExecuteIndirectBuffer fuel) fuel packet.

End Handlers.

(* ================================================================= *)
(** ** Predicates used in the statements *)

(** The [n]-th word that the reader would return next. *)
Fixpoint payload_word (n : nat) (s : CP) : Z :=
  match n with
  | O => fst (ReadAndSwap s)
  | S k => payload_word k (snd (ReadAndSwap s))
  end.

(** The condition asserted at the end of [ExecutePacketType3]:
    [reader_.read_offset() ==
     (data_start_offset + count * sizeof(uint32_t)) % reader_.capacity()]. *)
Definition type3_offset_assertion (data_start_offset count : Z) (s : CP)
  : bool :=
  read_offset (reader s)
  =? (data_start_offset + count * 4) mod capacity (reader s).

(** The two tests of [ExecutePacketType3] that a packet passes before its
    opcode is dispatched: enough readable data, and no predicated skip. *)
Definition type3_dispatches (E : Externals) (packet : Z) (s : CP) : bool :=
  (GetCurrentRingReadCount s >=? packet_count packet * 4)
  && negb (negb (Z.land packet 1 =? 0)
           && (negb (negb (Z.land (bin_select s) (bin_mask s) =? 0))
               || Type3Opcode_eqb (opcode_of E (type3_opcode packet))
                                  PM4_XE_SWAP)).

(** [s'] differs from [s] at most in the ring reader and in the trace. *)
Definition same_except_reader_trace (s s' : CP) : Prop :=
  mem s' = mem s /\ regs s' = regs s /\
  trace_is_open s' = trace_is_open s /\ trace_state s' = trace_state s /\
  backend s' = backend s /\
  bin_mask s' = bin_mask s /\ bin_select s' = bin_select s /\
  counter s' = counter s /\ me_bin s' = me_bin s /\
  active_vertex_shader s' = active_vertex_shader s /\
  active_pixel_shader s' = active_pixel_shader s /\
  worker_running s' = worker_running s.

(** The comparison table of section 4.7 of the specification:
    0 never, 1 less, 2 less or equal, 3 equal, 4 not equal, 5 greater or
    equal, 6 greater, 7 always. *)
Definition match_truth_table (op v r : Z) : Prop :=
  match op with
  | 0 => False
  | 1 => v < r
  | 2 => v <= r
  | 3 => v = r
  | 4 => v <> r
  | 5 => v >= r
  | 6 => v > r
  | 7 => True
  | _ => False
  end.

(** The two 64-bit predicate fields and the opcodes that write them. *)
Inductive BinField := BinMask | BinSelect.

Definition bin_field (f : BinField) (s : CP) : Z :=
  match f with BinMask => bin_mask s | BinSelect => bin_select s end.

Definition opcode_LO (f : BinField) : Type3Opcode :=
  match f with BinMask => PM4_SET_BIN_MASK_LO | BinSelect => PM4_SET_BIN_SELECT_LO end.
Definition opcode_HI (f : BinField) : Type3Opcode :=
  match f with BinMask => PM4_SET_BIN_MASK_HI | BinSelect => PM4_SET_BIN_SELECT_HI end.
Definition opcode_FULL (f : BinField) : Type3Opcode :=
  match f with BinMask => PM4_SET_BIN_MASK | BinSelect => PM4_SET_BIN_SELECT end.

(** The guest sample-count structure that [EVENT_WRITE_ZPD] works on, and
    the test for the end-of-query marker in it. *)
Definition sample_counts_ptr (E : Externals) (s : CP) : Z :=
  TranslatePhysical E (regs s (XE_GPU_REG_RB_SAMPLE_COUNT_ADDR E)).

Definition query_end_marked (E : Externals) (s : CP) : Prop :=
  let p := sample_counts_ptr E s in
  (load32 (mem s) (p + offsetof_ZPass_A E) = kQueryFinished /\
   load32 (mem s) (p + offsetof_ZPass_B E) = kQueryFinished)
  \/
  (load32 (mem s) (p + offsetof_ZFail_A E) = kQueryFinished /\
   load32 (mem s) (p + offsetof_ZFail_B E) = kQueryFinished).

(** Address [a] lies in the 32-bit field at offset [off] of the structure
    at [p]. *)
Definition in_field (p off a : Z) : Prop := p + off <= a < p + off + 4.

(** The fields [ZPass_A] and [Total_A] lie inside the structure and do not
    overlap. *)
Definition sample_counts_layout_ok (E : Externals) : Prop :=
  0 <= offsetof_ZPass_A E /\
  offsetof_ZPass_A E + 4 <= Z.of_nat (sizeof_depth_sample_counts E) /\
  0 <= offsetof_Total_A E /\
  offsetof_Total_A E + 4 <= Z.of_nat (sizeof_depth_sample_counts E) /\
  (offsetof_ZPass_A E + 4 <= offsetof_Total_A E \/
   offsetof_Total_A E + 4 <= offsetof_ZPass_A E).

(* ================================================================= *)
(** ** More predicates used in statements *)

(** The handler [m] leaves the reader advanced by [n] bytes, or, when
    [n = 0], possibly untouched. *)
Definition moves {A} (n : Z) (m : M A) : Prop :=
  forall s,
    reader (snd (m s)) = rb_AdvanceRead n (reader s)
    \/ (n = 0 /\ reader (snd (m s)) = reader s).

(** The number of payload words that the handler of an opcode reads or
    skips, for a header that declares [count] words; [None] for the
    handlers whose consumption depends on the payload ([XE_SWAP] below four
    words, the draws, [IM_LOAD_IMMEDIATE]). *)
Definition words_consumed (op : Type3Opcode) (count : Z) : option Z :=
  match op with
  | PM4_ME_INIT | PM4_NOP | PM4_MEM_WRITE | PM4_EVENT_WRITE
  | PM4_SET_CONSTANT | PM4_SET_CONSTANT2 | PM4_SET_SHADER_CONSTANTS
  | PM4_unimplemented => Some count
  | PM4_INTERRUPT | PM4_EVENT_WRITE_ZPD | PM4_INVALIDATE_STATE
  | PM4_VIZ_QUERY | PM4_SET_BIN_MASK_LO | PM4_SET_BIN_MASK_HI
  | PM4_SET_BIN_SELECT_LO | PM4_SET_BIN_SELECT_HI
  | PM4_CONTEXT_UPDATE | PM4_WAIT_FOR_IDLE => Some 1
  | PM4_INDIRECT_BUFFER | PM4_INDIRECT_BUFFER_PFD | PM4_REG_TO_MEM
  | PM4_EVENT_WRITE_EXT | PM4_IM_LOAD
  | PM4_SET_BIN_MASK | PM4_SET_BIN_SELECT => Some 2
  | PM4_REG_RMW | PM4_EVENT_WRITE_SHD | PM4_LOAD_ALU_CONSTANT => Some 3
  | PM4_WAIT_REG_MEM => Some 5
  | PM4_COND_WRITE => Some 6
  | PM4_XE_SWAP => if 4 <=? count then Some count else None
  | PM4_DRAW_INDX | PM4_DRAW_INDX_2 | PM4_IM_LOAD_IMMEDIATE => None
  end.

(** The handler [m] leaves the observation [f] of the state as it was. *)
Definition keeps {X A} (f : CP -> X) (m : M A) : Prop :=
  forall s, f (snd (m s)) = f s.

Definition keeps_opt {X A} (f : CP -> X) (run : CP -> option (A * CP))
  : Prop :=
  forall s a s', run s = Some (a, s') -> f s' = f s.

(** Trace records that open or close a packet, and the backend call that
    presents a frame. *)
Definition is_packet_mark (r : TraceRecord) : bool :=
  match r with
  | PacketStart _ _ | PacketEnd => true
  | _ => false
  end.

Definition is_PacketStart (r : TraceRecord) : bool :=
  match r with PacketStart _ _ => true | _ => false end.

Definition is_PacketEnd (r : TraceRecord) : bool :=
  match r with PacketEnd => true | _ => false end.

Definition is_swap_call (c : BackendCall) : bool :=
  match c with CallIssueSwap _ _ _ => true | _ => false end.

Definition packet_starts (t : list TraceRecord) : Z :=
  Z.of_nat (length (filter is_PacketStart t)).

Definition packet_ends (t : list TraceRecord) : Z :=
  Z.of_nat (length (filter is_PacketEnd t)).

Definition swaps_issued (b : list BackendCall) : Z :=
  Z.of_nat (length (filter is_swap_call b)).

(** The value that [COND_WRITE] compares: the polled register, or the
    polled memory word after the swap that the low address bits select. *)
Definition cond_write_polled (E : Externals) (s : CP) : Z :=
  let wait_info := payload_word 0 s in
  let poll_reg_addr := payload_word 1 s in
  if negb (Z.land wait_info 0x10 =? 0)
  then GpuSwap E (load32 (mem s) (TranslatePhysical E (clear_low2 poll_reg_addr)))
                 (Z.land poll_reg_addr 0x3)
  else regs s poll_reg_addr.

Definition cond_write_matched (E : Externals) (s : CP) : bool :=
  MatchValueAndRef (Z.land (cond_write_polled E s) (payload_word 3 s))
                   (payload_word 2 s) (payload_word 0 s).

(** The host address of the [n]-th 32-bit word ahead of the reader. *)
Definition payload_ptr (n : nat) (s : CP) : Z :=
  read_ptr (Nat.iter n (rb_AdvanceRead 4) (reader s)).

(** The guest address that [MEM_WRITE] gives to its [i]-th data word and
    the host address where the word lands. *)
Definition mem_write_addr (s : CP) (i : nat) : Z :=
  u32 (payload_word 0 s + 4 * Z.of_nat i).

Definition mem_write_target (E : Externals) (s : CP) (i : nat) : Z :=
  TranslatePhysical E (clear_low2 (mem_write_addr s i)).

(** A big-endian 16-bit read, the way the guest reads the half-words that
    [EVENT_WRITE_EXT] stores. *)
Definition load_and_swap16 (m : Memory) (a : Z) : Z :=
  (m a) mod 256 * 2 ^ 8 + (m (a + 1)) mod 256.

(* ================================================================= *)
(** ** A concrete instance, to run the interpreter on given rings

    The numbers below (opcode numbering, register indices, structure
    layout) are sample values for the declarations that live in other
    files; the general theorems do not depend on them. *)

Definition sample_opcode_of (n : Z) : Type3Opcode :=
  if n =? 0x48 then PM4_ME_INIT else if n =? 0x10 then PM4_NOP
  else if n =? 0x54 then PM4_INTERRUPT else if n =? 0x64 then PM4_XE_SWAP
  else if n =? 0x3F then PM4_INDIRECT_BUFFER
  else if n =? 0x37 then PM4_INDIRECT_BUFFER_PFD
  else if n =? 0x3C then PM4_WAIT_REG_MEM else if n =? 0x21 then PM4_REG_RMW
  else if n =? 0x3E then PM4_REG_TO_MEM else if n =? 0x3D then PM4_MEM_WRITE
  else if n =? 0x45 then PM4_COND_WRITE else if n =? 0x46 then PM4_EVENT_WRITE
  else if n =? 0x58 then PM4_EVENT_WRITE_SHD
  else if n =? 0x5A then PM4_EVENT_WRITE_EXT
  else if n =? 0x5B then PM4_EVENT_WRITE_ZPD
  else if n =? 0x22 then PM4_DRAW_INDX else if n =? 0x36 then PM4_DRAW_INDX_2
  else if n =? 0x2D then PM4_SET_CONSTANT else if n =? 0x55 then PM4_SET_CONSTANT2
  else if n =? 0x2F then PM4_LOAD_ALU_CONSTANT
  else if n =? 0x56 then PM4_SET_SHADER_CONSTANTS
  else if n =? 0x27 then PM4_IM_LOAD else if n =? 0x2B then PM4_IM_LOAD_IMMEDIATE
  else if n =? 0x3B then PM4_INVALIDATE_STATE else if n =? 0x23 then PM4_VIZ_QUERY
  else if n =? 0x60 then PM4_SET_BIN_MASK_LO
  else if n =? 0x61 then PM4_SET_BIN_MASK_HI
  else if n =? 0x62 then PM4_SET_BIN_SELECT_LO
  else if n =? 0x63 then PM4_SET_BIN_SELECT_HI
  else if n =? 0x50 then PM4_SET_BIN_MASK else if n =? 0x51 then PM4_SET_BIN_SELECT
  else if n =? 0x5E then PM4_CONTEXT_UPDATE else if n =? 0x26 then PM4_WAIT_FOR_IDLE
  else PM4_unimplemented.

Definition sample_GpuSwap (value endianness : Z) : Z :=
  if endianness =? 1 then
    Z.lor (Z.shiftl (Z.land value 0x00FF00FF) 8)
          (Z.land (Z.shiftr value 8) 0x00FF00FF)
  else if endianness =? 2 then byte_swap value
  else if endianness =? 3 then
    Z.lor (Z.shiftl (Z.land value 0xFFFF) 16) (Z.land (Z.shiftr value 16) 0xFFFF)
  else value.

Definition sample_externals (fake_sample_count : Z) : Externals :=
  {| opcode_of := sample_opcode_of;
     TranslatePhysical := fun p => p;
     CpuToGpu := fun p => Z.land p 0x1FFFFFFF;
     GpuToCpu := fun p => p;
     GpuSwap := sample_GpuSwap;
     XE_GPU_REG_COHER_STATUS_HOST := 0x07FC;
     XE_GPU_REG_VGT_EVENT_INITIATOR := 0x21F9;
     XE_GPU_REG_RB_SAMPLE_COUNT_ADDR := 0x2325;
     XE_GPU_REG_VGT_DRAW_INITIATOR := 0x21FC;
     XE_GPU_REG_VGT_DMA_BASE := 0x21FA;
     XE_GPU_REG_VGT_DMA_SIZE := 0x21FB;
     XE_GPU_REG_PA_SC_VIZ_QUERY := 0x2293;
     XE_GPU_REG_PA_SC_VIZ_QUERY_STATUS_0 := 0x0C44;
     XE_GPU_REG_PA_SC_VIZ_QUERY_STATUS_1 := 0x0C45;
     alu_bank_base := 0x4000;
     fetch_bank_base := 0x4800;
     bool_bank_base := 0x4900;
     loop_bank_base := 0x4908;
     registers_bank_base := 0x2000;
     side_effecting := fun _ => false;
     VIZQUERY_START := 7;
     VIZQUERY_END := 8;
     kTexture2DCubeMaxWidthHeight := 8192;
     query_occlusion_fake_sample_count := fake_sample_count;
     vsync := true;
     offsetof_Total_A := 0;
     offsetof_ZFail_A := 8;
     offsetof_ZFail_B := 12;
     offsetof_ZPass_A := 16;
     offsetof_ZPass_B := 20;
     sizeof_depth_sample_counts := 32;
     draw_prim_type := fun v => Z.land v 0x3F;
     draw_source_select := fun v =>
       let f := Z.land (Z.shiftr v 6) 0x3 in
       if f =? 0 then kDMA else if f =? 1 then kImmediate
       else if f =? 2 then kAutoIndex else kSourceInvalid;
     draw_major_mode := fun v => Z.land (Z.shiftr v 8) 0x3;
     draw_index_size := fun v =>
       if Z.land (Z.shiftr v 11) 0x1 =? 0 then kInt16 else kInt32;
     draw_num_indices := fun v => Z.land (Z.shiftr v 16) 0xFFFF;
     dma_num_words := fun v => Z.land v 0xFFFFFF;
     dma_swap_mode := fun v => Z.land (Z.shiftr v 30) 0x3;
     viz_query_ena := fun v => negb (Z.land v 1 =? 0);
     kill_pix_post_hi_z := fun v => negb (Z.land (Z.shiftr v 7) 1 =? 0);
     IsMajorModeExplicit := fun major_mode _ => negb (major_mode =? 0);
     shader_type_of := fun t =>
       if t =? 0 then kVertex else if t =? 1 then kPixel else kShaderOther;
     LoadShader_handle := fun _ guest_address _ _ => guest_address;
     MakeCoherent_regs := fun r => r;
     yield_mem := fun m => m;
     yield_regs := fun r => r;
     yield_worker_running := fun b => b;
     trace_instrumentation := true;
     title_id := 0 |}.

(** Guest memory holding the big-endian words [ws] from address [base] on,
    zero elsewhere. *)
Definition words_at (base : Z) (ws : list Z) : Memory :=
  fun a =>
    let i := a - base in
    if (0 <=? i) && (i <? 4 * Z.of_nat (length ws)) then
      Z.land (Z.shiftr (nth (Z.to_nat (i / 4)) ws 0) (8 * (3 - i mod 4))) 0xFF
    else 0.

(** A command processor about to read the ring [ws] placed at [base]; the
    ring has room for one word more than it holds. *)
Definition cp_on_ring (base : Z) (ws : list Z) (m : Memory) : CP :=
  {| reader := mkRing base (4 * Z.of_nat (length ws) + 4) 0
                      (4 * Z.of_nat (length ws));
     mem := m;
     regs := fun _ => 0;
     trace := [];
     trace_is_open := false;
     trace_state := kDisabled;
     backend := [];
     bin_mask := 0;
     bin_select := 0;
     counter := 0;
     me_bin := [];
     active_vertex_shader := None;
     active_pixel_shader := None;
     worker_running := true |}.

(* ----------------------------------------------------------------- *)
(** *** Concrete rings and states *)

Definition E_sample : Externals := sample_externals 1000.

(** The state in which a run that returned leaves the processor. *)
Definition state_after (r : option (bool * CP)) (otherwise : CP) : CP :=
  match r with
  | Some (_, s) => s
  | None => otherwise
  end.

(** The processor on the ring [ws] at [0x1000], its header word read. *)
Definition after_header (ws : list Z) (m : Memory) : CP :=
  snd (ReadAndSwap (cp_on_ring 0x1000 ws m)).

(** [INTERRUPT] with a declared count of 2: header [0xC0015400], then two
    payload words. *)
Definition interrupt_packet : Z := 0xC0015400.
Definition interrupt_ring : list Z := [interrupt_packet; 0; 0].
Definition interrupt_state : CP :=
  after_header interrupt_ring (words_at 0x1000 interrupt_ring).

(** A predicated [NOP] declaring three payload words. *)
Definition predicated_nop : Z := 0xC0021001.
Definition truncated_nop_state : CP :=
  after_header [predicated_nop; 0] (words_at 0x1000 [predicated_nop; 0]).
Definition whole_nop_state : CP :=
  after_header [predicated_nop; 1; 2; 3]
               (words_at 0x1000 [predicated_nop; 1; 2; 3]).

(** An indirect buffer at [0x2000]: a Type-3 packet with an opcode that
    has no handler (one payload word), then a Type-0 packet writing
    [0xAAAA] to register [0x100]. *)
Definition inner_bad_then_write : list Z :=
  [0xC0000100; 0; 0x00000100; 0xAAAA].
Definition outer_state_1 : CP :=
  cp_on_ring 0x1000 [] (words_at 0x2000 inner_bad_then_write).

(** An indirect buffer at [0x2000] that ends with a failing packet. *)
Definition inner_ending_bad : list Z := [0x80000000; 0xC0000100; 0].
Definition outer_state_2 : CP :=
  cp_on_ring 0x1000 [0x80000000; 0x80000000]
             (words_at 0x2000 inner_ending_bad).
Definition outer_state_2_after : CP :=
  match ExecuteIndirectBuffer E_sample 2 0x2000 3 outer_state_2 with
  | Some s => s
  | None => outer_state_2
  end.

(** [SET_BIN_MASK_LO] then [SET_BIN_MASK_HI] on one ring, [SET_BIN_MASK] on
    another. *)
Definition mask_lo_packet : Z := 0xC0006000.
Definition mask_hi_packet : Z := 0xC0006100.
Definition mask_full_packet : Z := 0xC0015000.
Definition lo_hi_ring : list Z :=
  [mask_lo_packet; 0x89ABCDEF; mask_hi_packet; 0x01234567].
Definition full_ring : list Z := [mask_full_packet; 0x01234567; 0x89ABCDEF].
Definition lo_hi_state_0 : CP :=
  set_bin_mask 0xFFFF0000FFFF0000
    (after_header lo_hi_ring (words_at 0x1000 lo_hi_ring)).
Definition lo_hi_state_1 : CP :=
  state_after (ExecutePacketType3 E_sample 0 mask_lo_packet lo_hi_state_0)
              lo_hi_state_0.
Definition lo_hi_state_1' : CP := snd (ReadAndSwap lo_hi_state_1).
Definition lo_hi_state_2 : CP :=
  state_after (ExecutePacketType3 E_sample 0 mask_hi_packet lo_hi_state_1')
              lo_hi_state_1'.
Definition full_state_0 : CP :=
  after_header full_ring (words_at 0x1000 full_ring).
Definition full_state_1 : CP :=
  state_after (ExecutePacketType3 E_sample 0 mask_full_packet full_state_0)
              full_state_0.

(** [MEM_WRITE] declaring three payload words on a ring that holds one. *)
Definition mem_write_packet : Z := 0xC0023D00.
Definition truncated_mem_write_state : CP :=
  after_header [mem_write_packet; 0x10000000]
               (words_at 0x1000 [mem_write_packet; 0x10000000]).

(** A ring that starts with the bad-packet marker. *)
Definition bad_header_state : CP :=
  cp_on_ring 0x1000 [0x0BADF00D; 0x80000000]
             (words_at 0x1000 [0x0BADF00D; 0x80000000]).

(** [EVENT_WRITE_ZPD] with the sample-count structure at [0x3000]. *)
Definition zpd_ring : list Z := [0xC0005B00; 0x15].
Definition zpd_state (counts : list Z) : CP :=
  set_regs (upd (fun _ => 0) 0x2325 0x3000)
    (after_header zpd_ring
       (fun a => if a <? 0x3000 then words_at 0x1000 zpd_ring a
                 else words_at 0x3000 counts a)).
Definition counts_without_marker : list Z :=
  [0x11111111; 0x22222222; 0x33333333; 0x44444444;
   0x55555555; 0x66666666; 0x77777777; 0x88888888].
Definition counts_with_marker : list Z :=
  [0x11111111; 0x22222222; 0x33333333; 0x44444444;
   0xFFFFFEED; 0xFFFFFEED; 0x77777777; 0x88888888].

(** [SET_CONSTANT] with three payload words, the first of type 5. *)
Definition set_constant_packet : Z := 0xC0022D00.
Definition set_constant_ring : list Z :=
  [set_constant_packet; 0x00050000; 0x11; 0x22].
Definition set_constant_state : CP :=
  after_header set_constant_ring (words_at 0x1000 set_constant_ring).

(* ----------------------------------------------------------------- *)
(** *** More concrete rings and states *)

(** The processor on the ring [ws] at [0x1000], with the words [data] in
    guest memory from [at_] on. *)
Definition ring_and_data (ws : list Z) (at_ : Z) (data : list Z) : Memory :=
  fun a => if a <? at_ then words_at 0x1000 ws a else words_at at_ data a.

(** A state whose worker thread has been told to stop. *)
Definition stopped (s : CP) : CP :=
  mkCP (reader s) (mem s) (regs s) (trace s) (trace_is_open s)
       (trace_state s) (backend s) (bin_mask s) (bin_select s) (counter s)
       (me_bin s) (active_vertex_shader s) (active_pixel_shader s) false.

(** An unpredicated [NOP] with its three payload words. *)
Definition plain_nop : Z := 0xC0021000.
Definition plain_nop_state : CP :=
  after_header [plain_nop; 1; 2; 3] (words_at 0x1000 [plain_nop; 1; 2; 3]).
Definition plain_nop_after : CP :=
  state_after (ExecutePacketType3 E_sample 0 plain_nop plain_nop_state)
              plain_nop_state.


(** A ring holding one [INDIRECT_BUFFER] packet that runs the four words
    of [inner_bad_then_write] at [0x2000]. *)
Definition indirect_ring : list Z := [0xC0013F00; 0x2000; 4].
Definition indirect_ring_state : CP :=
  cp_on_ring 0x1000 indirect_ring
             (ring_and_data indirect_ring 0x2000 inner_bad_then_write).
Definition indirect_ring_after : CP :=
  state_after (ExecutePacket E_sample 3 indirect_ring_state)
              indirect_ring_state.

(** A ring holding one [XE_SWAP] packet of four payload words. *)
Definition swap_ring : list Z := [0xC0036400; 0x53574150; 0x4000; 1280; 720].
Definition swap_state : CP :=
  cp_on_ring 0x1000 swap_ring (words_at 0x1000 swap_ring).
Definition swap_after : CP :=
  state_after (ExecutePacket E_sample 0 swap_state) swap_state.

(** A ring that starts with a Type-2 header. *)
Definition type2_state : CP :=
  cp_on_ring 0x1000 [0x80000000; 0] (words_at 0x1000 [0x80000000; 0]).

(** Type-0 packets on register [0x100]: three words declared and one
    present; two words in range mode; two words in write-one mode. *)
Definition type0_truncated : Z := 0x00020100.
Definition type0_truncated_state : CP :=
  after_header [type0_truncated; 1] (words_at 0x1000 [type0_truncated; 1]).
Definition type0_range : Z := 0x00010100.
Definition type0_range_state : CP :=
  after_header [type0_range; 0xAAAA; 0xBBBB]
               (words_at 0x1000 [type0_range; 0xAAAA; 0xBBBB]).
Definition type0_one : Z := 0x00018100.
Definition type0_one_state : CP :=
  after_header [type0_one; 0xAAAA; 0xBBBB]
               (words_at 0x1000 [type0_one; 0xAAAA; 0xBBBB]).

(** A Type-1 packet on registers [0x100] and [0x101]. *)
Definition type1_packet : Z := 0x40080900.
Definition type1_state : CP :=
  after_header [type1_packet; 0xAAAA; 0xBBBB]
               (words_at 0x1000 [type1_packet; 0xAAAA; 0xBBBB]).

(** A Type-3 packet with opcode 1, which has no handler. *)
Definition unimplemented_packet : Z := 0xC0000100.
Definition unimplemented_state : CP :=
  after_header [unimplemented_packet; 0]
               (words_at 0x1000 [unimplemented_packet; 0]).

(** A [NOP] in a state where bin 0 is selected and passes. *)
Definition passing_bin_state : CP :=
  set_bin_select 1 (set_bin_mask 1 whole_nop_state).

(** [VIZ_QUERY] ending query 5. *)
Definition viz_end_ring : list Z := [0xC0002300; 0x105].
Definition viz_end_state : CP :=
  after_header viz_end_ring (words_at 0x1000 viz_end_ring).

(** [COND_WRITE]: register [0x10] masked with [0xFF] equal to 0, then
    write [0x1234] to register [0x200]. *)
Definition cond_write_ring : list Z :=
  [0xC0054500; 3; 0x10; 0; 0xFF; 0x200; 0x1234].
Definition cond_write_state : CP :=
  after_header cond_write_ring (words_at 0x1000 cond_write_ring).

(** [WAIT_REG_MEM] on register [0x10]: for the value 0, which it holds,
    and for the value 1 with a wait of [0x100]. *)
Definition wait_matched_ring : list Z := [0xC0043C00; 3; 0x10; 0; 0xFF; 0].
Definition wait_matched_state : CP :=
  after_header wait_matched_ring (words_at 0x1000 wait_matched_ring).
Definition wait_unmatched_ring : list Z :=
  [0xC0043C00; 3; 0x10; 1; 0xFF; 0x100].
Definition wait_stopped_state : CP :=
  stopped (after_header wait_unmatched_ring
                        (words_at 0x1000 wait_unmatched_ring)).

(** [WAIT_REG_MEM] on the memory word at [0x5000], endianness 2, for the
    value 1: the word holds 1 in host order. *)
Definition wait_mem_ring : list Z :=
  [0xC0043C00; 0x13; 0x5002; 1; 0xFFFFFFFF; 0].
Definition wait_mem_state : CP :=
  after_header wait_mem_ring (ring_and_data wait_mem_ring 0x5000 [0x01000000]).

(** [DRAW_INDX_2] of three auto-generated indices, and of three indices
    to fetch from an index buffer that the packet does not give. *)
Definition draw_auto_ring : list Z := [0xC0003600; 0x00030084].
Definition draw_auto_state : CP :=
  after_header draw_auto_ring (words_at 0x1000 draw_auto_ring).
Definition draw_dma_ring : list Z := [0xC0003600; 0x00030004].
Definition draw_dma_state : CP :=
  after_header draw_dma_ring (words_at 0x1000 draw_dma_ring).

(** [IM_LOAD_IMMEDIATE] of one word of a shader of type 2. *)
Definition im_load_immediate_ring : list Z := [0xC0022B00; 2; 1; 0].
Definition im_load_immediate_state : CP :=
  after_header im_load_immediate_ring
               (words_at 0x1000 im_load_immediate_ring).

(** [LOAD_ALU_CONSTANT] of type 5. *)
Definition load_alu_ring : list Z := [0xC0022F00; 0x5000; 0x00050000; 4].
Definition load_alu_state : CP :=
  after_header load_alu_ring (words_at 0x1000 load_alu_ring).

(** [MEM_WRITE] of two words to [0x4000]. *)
Definition mem_write_ring : list Z := [0xC0023D00; 0x4000; 0x11; 0x22].
Definition mem_write_state : CP :=
  after_header mem_write_ring (words_at 0x1000 mem_write_ring).

(** [EVENT_WRITE_EXT] to [0x5000]. *)
Definition event_ext_ring : list Z := [0xC0015A00; 0; 0x5001].
Definition event_ext_state : CP :=
  after_header event_ext_ring (words_at 0x1000 event_ext_ring).

(** [SET_CONSTANT2] of two words from register [0x2100] on. *)
Definition set_constant2_ring : list Z := [0xC0025500; 0x2100; 0x11; 0x22].
Definition set_constant2_state : CP :=
  after_header set_constant2_ring (words_at 0x1000 set_constant2_ring).

(* ================================================================= *)
(** ** Basic facts *)

#[local] Arguments Z.mul !_ !_.
#[local] Arguments Z.add !_ !_.
#[local] Arguments Z.sub !_ !_.
#[local] Arguments Z.shiftl !_ !_.
#[local] Arguments Z.shiftr !_ !_.
#[local] Arguments Z.land !_ !_.
#[local] Arguments Z.lor !_ !_.
#[local] Arguments Z.modulo !_ !_.
#[local] Arguments Z.pow !_ !_.
#[local] Arguments load_and_swap32 : simpl never.
#[local] Arguments load32 : simpl never.
#[local] Arguments read_ptr : simpl never.
#[local] Arguments rb_AdvanceRead : simpl never.
#[local] Arguments read_count : simpl never.
#[local] Arguments u32 : simpl never.
#[local] Arguments u64 : simpl never.

Lemma load_and_swap32_range (m : Memory) (a : Z) :
  0 <= load_and_swap32 m a < 2 ^ 32.
Proof.
  unfold load_and_swap32.
  pose proof (Z.mod_pos_bound (m a) 256 eq_refl).
  pose proof (Z.mod_pos_bound (m (a + 1)) 256 eq_refl).
  pose proof (Z.mod_pos_bound (m (a + 2)) 256 eq_refl).
  pose proof (Z.mod_pos_bound (m (a + 3)) 256 eq_refl).
  change (2 ^ 32) with 4294967296. change (2 ^ 24) with 16777216.
  change (2 ^ 16) with 65536. change (2 ^ 8) with 256.
  lia.
Qed.

Lemma payload_word_range (n : nat) (s : CP) : 0 <= payload_word n s < 2 ^ 32.
Proof.
  revert s. induction n as [|n IH]; intros s; simpl.
  - apply load_and_swap32_range.
  - apply IH.
Qed.

Lemma ExecutePacket_eq (E : Externals) (fuel : nat) :
  ExecutePacket E fuel = ExecutePacket_in E (ExecuteIndirectBuffer E fuel) fuel.
Proof. destruct fuel; reflexivity. Qed.

Lemma land7_cases (w : Z) :
  let sel := Z.land w 0x7 in
  sel = 0 \/ sel = 1 \/ sel = 2 \/ sel = 3 \/ sel = 4 \/ sel = 5 \/ sel = 6 \/ sel = 7.
Proof.
  cbv zeta.
  assert (Hm : Z.land w 0x7 = w mod 8)
    by (change 7 with (Z.ones 3) at 1; rewrite Z.land_ones by lia; reflexivity).
  rewrite Hm.
  pose proof (Z.mod_pos_bound w 8 eq_refl) as H. lia.
Qed.

(* ================================================================= *)
(** ** The budget only cuts runs short

    A run that ends within a budget ends in the same way within every
    larger one, so the results above do not depend on the budget. *)

Lemma wait_loop_mono (E : Externals) (n m : nat) :
  (n <= m)%nat ->
  forall wait_info poll_reg_addr ref mask wait s r,
    wait_loop E n wait_info poll_reg_addr ref mask wait s = Some r ->
    wait_loop E m wait_info poll_reg_addr ref mask wait s = Some r.
Proof.
  revert m. induction n as [|n IH]; intros m Hle wi pa rf mk wt s0 r H;
    [discriminate|].
  destruct m as [|m]; [lia|].
  assert (Hle' : (n <= m)%nat) by lia.
  simpl in H |- *.
  destruct (wait_poll_value E wi pa s0) as [[value pa'] s1].
  destruct (MatchValueAndRef (Z.land value mk) rf wi); [exact H|].
  destruct (wt >=? 256).
  - destruct ((backend_call CallPrepareForWait ;;;
               (if negb (vsync E) then MaybeYield E else Sleep E (wt / 256)) ;;;
               backend_call CallReturnFromWait) s1) as [u s2].
    destruct (negb (worker_running s2)); [exact H|].
    apply (IH m Hle'). exact H.
  - destruct (MaybeYield E s1) as [u s2].
    apply (IH m Hle'). exact H.
Qed.

Lemma indirect_loop_mono (exec exec' : CP -> option (bool * CP)) :
  (forall s r, exec s = Some r -> exec' s = Some r) ->
  forall n m, (n <= m)%nat ->
  forall s r, indirect_loop exec n s = Some r ->
              indirect_loop exec' m s = Some r.
Proof.
  intros Hexec n. induction n as [|n IH]; intros m Hle s r H;
    [discriminate|].
  destruct m as [|m]; [lia|].
  simpl in H |- *.
  destruct (exec s) as [[b s1]|] eqn:Hs; [|discriminate].
  rewrite (Hexec _ _ Hs).
  destruct (read_count (reader s1) =? 0); [exact H|].
  apply IH; [lia|exact H].
Qed.

Section BudgetMonotone.

Variable E : Externals.
Variables indirect indirect' : Z -> Z -> CP -> option CP.
Variables polls polls' : nat.
Hypothesis Hindirect :
  forall ptr count s r,
    indirect ptr count s = Some r -> indirect' ptr count s = Some r.
Hypothesis Hpolls : (polls <= polls')%nat.

Lemma type3_case_mono (op : Type3Opcode) (packet count : Z) (s : CP) r :
  type3_case E indirect polls op packet count s = Some r ->
  type3_case E indirect' polls' op packet count s = Some r.
Proof.
  destruct op; try exact (fun H => H).
  - unfold type3_case, ExecutePacketType3_INDIRECT_BUFFER.
    destruct (ReadAndSwap s) as [w s1]. destruct (ReadAndSwap s1) as [l s2].
    destruct (indirect _ _ s2) eqn:H; [|discriminate].
    rewrite (Hindirect _ _ _ _ H). exact (fun H => H).
  - unfold type3_case, ExecutePacketType3_INDIRECT_BUFFER.
    destruct (ReadAndSwap s) as [w s1]. destruct (ReadAndSwap s1) as [l s2].
    destruct (indirect _ _ s2) eqn:H; [|discriminate].
    rewrite (Hindirect _ _ _ _ H). exact (fun H => H).
  - unfold type3_case, ExecutePacketType3_WAIT_REG_MEM.
    destruct (ReadAndSwap s) as [w1 s1]. destruct (ReadAndSwap s1) as [w2 s2].
    destruct (ReadAndSwap s2) as [w3 s3]. destruct (ReadAndSwap s3) as [w4 s4].
    destruct (ReadAndSwap s4) as [w5 s5].
    apply wait_loop_mono. exact Hpolls.
Qed.

Lemma ExecutePacketType3_in_mono (packet : Z) (s : CP) r :
  ExecutePacketType3_in E indirect polls packet s = Some r ->
  ExecutePacketType3_in E indirect' polls' packet s = Some r.
Proof.
  unfold ExecutePacketType3_in.
  destruct (GetCurrentRingReadCount s >=? packet_count packet * 4);
    [|exact (fun H => H)].
  destruct ((if Type3Opcode_eqb (opcode_of E (type3_opcode packet))
                                PM4_INDIRECT_BUFFER
             then WritePacketStart_here 2
             else WritePacketStart_here (1 + packet_count packet)) s)
    as [u s1].
  destruct (negb (Z.land packet 1 =? 0)
            && (negb (negb (Z.land (bin_select s1) (bin_mask s1) =? 0))
                || Type3Opcode_eqb (opcode_of E (type3_opcode packet))
                                   PM4_XE_SWAP));
    [exact (fun H => H)|].
  destruct (opcode_of E (type3_opcode packet));
    try (destruct (type3_case E indirect polls _ packet _ s1) as [[res s2]|] eqn:Hc;
         [rewrite (type3_case_mono _ _ _ _ _ Hc); exact (fun H => H)
         |discriminate]).
Qed.

Lemma ExecutePacket_in_mono (s : CP) r :
  ExecutePacket_in E indirect polls s = Some r ->
  ExecutePacket_in E indirect' polls' s = Some r.
Proof.
  unfold ExecutePacket_in.
  destruct (ReadAndSwap s) as [packet s1].
  destruct (negb (packet =? 0) && negb (packet =? 195948557));
    [|exact (fun H => H)].
  destruct (Z.shiftr packet 30 =? 3); [apply ExecutePacketType3_in_mono|].
  exact (fun H => H).
Qed.

End BudgetMonotone.

Lemma ExecutePacket_fuel_mono (E : Externals) (fuel : nat) :
  forall fuel', (fuel <= fuel')%nat ->
  forall s r, ExecutePacket E fuel s = Some r ->
              ExecutePacket E fuel' s = Some r.
Proof.
  induction fuel as [|f IH]; intros fuel' Hle s r H.
  - destruct fuel' as [|f']; [exact H|].
    simpl in H |- *.
    eapply ExecutePacket_in_mono; [| |exact H]; [discriminate|lia].
  - destruct fuel' as [|f']; [lia|].
    simpl in H |- *.
    eapply ExecutePacket_in_mono; [| |exact H]; [|lia].
    intros ptr count s0 r0. unfold ExecuteIndirectBuffer_in.
    destruct (trace_write (IndirectBufferStart ptr (count * 4)) s0) as [u s1].
    destruct (indirect_loop (ExecutePacket E f) (S f) _) as [s2|] eqn:Hl;
      [|discriminate].
    rewrite (indirect_loop_mono (ExecutePacket E f) (ExecutePacket E f')
               (IH f' ltac:(lia)) (S f) (S f') ltac:(lia) _ _ Hl).
    exact (fun H => H).
Qed.

Lemma ExecuteIndirectBuffer_fuel_mono (E : Externals) (fuel fuel' : nat) :
  (fuel <= fuel')%nat ->
  forall ptr count s r,
    ExecuteIndirectBuffer E fuel ptr count s = Some r ->
    ExecuteIndirectBuffer E fuel' ptr count s = Some r.
Proof.
  intros Hle ptr count s r H.
  destruct fuel as [|f]; [discriminate|].
  destruct fuel' as [|f']; [lia|].
  unfold ExecuteIndirectBuffer, ExecuteIndirectBuffer_in in H |- *.
  destruct (trace_write (IndirectBufferStart ptr (count * 4)) s) as [u s1].
  destruct (indirect_loop (ExecutePacket E f) (S f) _) as [s2|] eqn:Hl;
    [|discriminate].
  rewrite (indirect_loop_mono (ExecutePacket E f) (ExecutePacket E f')
             (fun s r => ExecutePacket_fuel_mono E f f' ltac:(lia) s r)
             (S f) (S f') ltac:(lia) _ _ Hl).
  exact H.
Qed.

(* ================================================================= *)
(** ** The comparison of [WAIT_REG_MEM] and [COND_WRITE] *)

(** C3.  For all values [v] and [ref] and every [wait_info],
    [MatchValueAndRef v ref wait_info] is exactly the comparison that
    [wait_info & 0x7] selects in the table: 0 false, 1 [v < ref],
    2 [v <= ref], 3 [v = ref], 4 [v <> ref], 5 [v >= ref], 6 [v > ref],
    7 true. *)
Theorem MatchValueAndRef_truth_table (v ref wait_info : Z) :
  MatchValueAndRef v ref wait_info = true
  <-> match_truth_table (Z.land wait_info 0x7) v ref.
Proof.
  unfold MatchValueAndRef.
  destruct (land7_cases wait_info) as [H|[H|[H|[H|[H|[H|[H|H]]]]]]];
    cbv zeta in H; rewrite H; simpl.
  - split; [discriminate | tauto].
  - apply Z.ltb_lt.
  - apply Z.leb_le.
  - apply Z.eqb_eq.
  - rewrite negb_true_iff. apply Z.eqb_neq.
  - rewrite Z.geb_leb, Z.leb_le. lia.
  - rewrite Z.gtb_ltb, Z.ltb_lt. lia.
  - tauto.
Qed.

(* ================================================================= *)
(** ** Decode overflow *)

(** C7.  If fewer than [4 * count] bytes are readable, with
    [count = ((header >> 16) & 0x3FFF) + 1], [ExecutePacketType3] returns
    [false] and the whole state is as before: the reader is not advanced,
    no packet start is traced and no opcode handler has run. *)
Theorem ExecutePacketType3_overflow (E : Externals) (fuel : nat)
        (packet : Z) (s : CP) :
  GetCurrentRingReadCount s < 4 * packet_count packet ->
  ExecutePacketType3 E fuel packet s = Some (false, s).
Proof.
  intros H. unfold ExecutePacketType3, ExecutePacketType3_in.
  replace (GetCurrentRingReadCount s >=? packet_count packet * 4) with false.
  - reflexivity.
  - symmetry. rewrite Z.geb_leb. apply Z.leb_gt. lia.
Qed.

(* ================================================================= *)
(** ** Stuffing and bad headers *)

(** C8.  When the header word is [0x00000000] or [0x0BADF00D],
    [ExecutePacket] returns [true]; it has consumed the header word only,
    appended one packet start of size 1 followed by one packet end to the
    trace, and changed nothing else (registers, memory, backend calls,
    frame counter, ...). *)
Theorem ExecutePacket_bad_header (E : Externals) (fuel : nat) (s : CP) :
  payload_word 0 s = 0 \/ payload_word 0 s = 0x0BADF00D ->
  exists s',
    ExecutePacket E fuel s = Some (true, s') /\
    reader s' = rb_AdvanceRead 4 (reader s) /\
    trace s' = trace s ++ [PacketStart (u32 (read_ptr (reader s') - 4)) 1;
                           PacketEnd] /\
    same_except_reader_trace s s'.
Proof.
  intros H. rewrite ExecutePacket_eq. unfold ExecutePacket_in.
  simpl in H. unfold ReadAndSwap in *. cbn [fst] in H.
  eexists. split.
  - destruct H as [H|H]; rewrite H; cbn; reflexivity.
  - cbn. rewrite <- app_assoc. cbn.
    unfold same_except_reader_trace. cbn. tauto.
Qed.

(* ================================================================= *)
(** ** Predicated packets *)

(** C2, as amended.  For a Type-3 packet with the predicate bit set, if
    [(bin_select & bin_mask) = 0] or the opcode is [XE_SWAP], and the ring
    holds at least [4 * count] readable bytes, then [ExecutePacketType3]
    returns [true], advances the reader by [4 * count] bytes, appends the
    packet start and the packet end to the trace, and leaves everything
    else (registers, memory, backend calls, frame counter, ...) as it
    was. *)
Theorem ExecutePacketType3_predicated_skip (E : Externals) (fuel : nat)
        (packet : Z) (s : CP) :
  Z.land packet 1 = 1 ->
  Z.land (bin_select s) (bin_mask s) = 0
  \/ opcode_of E (type3_opcode packet) = PM4_XE_SWAP ->
  4 * packet_count packet <= GetCurrentRingReadCount s ->
  exists s',
    ExecutePacketType3 E fuel packet s = Some (true, s') /\
    reader s' = rb_AdvanceRead (4 * packet_count packet) (reader s) /\
    trace s' =
      trace s ++
      [PacketStart (u32 (read_ptr (reader s) - 4))
         (if Type3Opcode_eqb (opcode_of E (type3_opcode packet))
                             PM4_INDIRECT_BUFFER
          then 2 else 1 + packet_count packet);
       PacketEnd] /\
    same_except_reader_trace s s'.
Proof.
  intros Hpred Hskip Hroom.
  unfold ExecutePacketType3, ExecutePacketType3_in.
  replace (GetCurrentRingReadCount s >=? packet_count packet * 4) with true
    by (symmetry; rewrite Z.geb_leb; apply Z.leb_le; lia).
  rewrite Hpred.
  assert (Hgate :
    negb (negb (Z.land (bin_select s) (bin_mask s) =? 0))
    || Type3Opcode_eqb (opcode_of E (type3_opcode packet)) PM4_XE_SWAP = true).
  { destruct Hskip as [H|H]; rewrite H; cbn; auto using orb_true_r. }
  destruct (Type3Opcode_eqb (opcode_of E (type3_opcode packet))
                            PM4_INDIRECT_BUFFER);
    cbn; cbn in Hgate; rewrite Hgate; cbn;
    (eexists; split; [reflexivity|]); cbn;
    rewrite <- app_assoc, (Z.mul_comm 4);
    unfold same_except_reader_trace; cbn; tauto.
Qed.

(* ================================================================= *)
(** ** Indirect buffers *)

(** C5.  Whenever [ExecuteIndirectBuffer] returns, the ring reader (buffer,
    capacity, read offset, write offset) is the one the caller had before
    the call, whatever the inner stream contains. *)
Theorem ExecuteIndirectBuffer_restores_reader (E : Externals) (fuel : nat)
        (ptr count : Z) (s s' : CP) :
  ExecuteIndirectBuffer E fuel ptr count s = Some s' ->
  reader s' = reader s.
Proof.
  destruct fuel as [|f]; [discriminate|].
  unfold ExecuteIndirectBuffer, ExecuteIndirectBuffer_in. cbn.
  match goal with |- match ?x with _ => _ end = _ -> _ => destruct x end;
    [|discriminate].
  intros H. injection H as <-. reflexivity.
Qed.

(* ================================================================= *)
(** ** Constant loads *)

(** C10.  For a [SET_CONSTANT] packet whose first payload word has a type
    field [(word >> 16) & 0xFF] above 4, the handler reads that word, skips
    the remaining [count - 1] payload words and returns [true]; nothing but
    the ring reader changes, so no register and no constant bank is
    written. *)
Theorem SET_CONSTANT_unknown_type (E : Externals) (packet : Z) (s : CP) :
  4 < Z.land (Z.shiftr (payload_word 0 s) 16) 0xFF ->
  exists s',
    ExecutePacketType3_SET_CONSTANT E packet (packet_count packet) s
      = (true, s') /\
    reader s' =
      rb_AdvanceRead (4 * (packet_count packet - 1))
                     (rb_AdvanceRead 4 (reader s)) /\
    trace s' = trace s /\
    same_except_reader_trace s s'.
Proof.
  intros H. simpl in H. unfold ReadAndSwap in H. cbn [fst] in H.
  unfold ExecutePacketType3_SET_CONSTANT, bind, ReadAndSwap.
  set (ty := Z.land (Z.shiftr (load_and_swap32 (mem s) (read_ptr (reader s))) 16)
                    255) in *.
  destruct (ty =? 0) eqn:E0; [apply Z.eqb_eq in E0; lia|].
  destruct (ty =? 1) eqn:E1; [apply Z.eqb_eq in E1; lia|].
  destruct (ty =? 2) eqn:E2; [apply Z.eqb_eq in E2; lia|].
  destruct (ty =? 3) eqn:E3; [apply Z.eqb_eq in E3; lia|].
  destruct (ty =? 4) eqn:E4; [apply Z.eqb_eq in E4; lia|].
  assert (Hc : u32 (packet_count packet - 1) = packet_count packet - 1).
  { unfold u32, packet_count. apply Z.mod_small.
    assert (Hm : Z.land (Z.shiftr packet 16) 0x3FFF
                 = (Z.shiftr packet 16) mod 2 ^ 14)
      by (change 0x3FFF with (Z.ones 14); rewrite Z.land_ones by lia;
          reflexivity).
    rewrite Hm.
    pose proof (Z.mod_pos_bound (Z.shiftr packet 16) (2 ^ 14) eq_refl).
    change (2 ^ 14) with 16384 in *. change (2 ^ 32) with 4294967296. lia. }
  eexists. split; [cbn; reflexivity|]. cbn.
  rewrite Hc, (Z.mul_comm 4).
  unfold same_except_reader_trace. cbn. tauto.
Qed.

(* ================================================================= *)
(** ** Bin mask and bin select *)

Lemma merge_lo_then_hi (old lo hi : Z) :
  0 <= lo < 2 ^ 32 ->
  Z.lor (Z.land (Z.lor (Z.land old 0xFFFFFFFF00000000) lo) 0xFFFFFFFF)
        (u64 (Z.shiftl hi 32))
  = Z.lor (u64 (Z.shiftl hi 32)) lo.
Proof.
  intros Hlo.
  rewrite Z.land_lor_distr_l, <- Z.land_assoc.
  change (Z.land 0xFFFFFFFF00000000 0xFFFFFFFF) with 0.
  rewrite Z.land_0_r, Z.lor_0_l.
  change 0xFFFFFFFF with (Z.ones 32).
  rewrite Z.land_ones, Z.mod_small by lia.
  apply Z.lor_comm.
Qed.

Lemma u64_shiftl_32 (hi : Z) :
  0 <= hi < 2 ^ 32 -> u64 (Z.shiftl hi 32) = Z.shiftl hi 32.
Proof.
  intros H. unfold u64. rewrite Z.shiftl_mul_pow2 by lia.
  apply Z.mod_small.
  change (2 ^ 64) with (2 ^ 32 * 2 ^ 32). nia.
Qed.

(** C6.  Let the field be [bin_mask] (or [bin_select]).  For every pair of
    32-bit payload words [lo] and [hi] and from any state, the packet
    [SET_BIN_MASK_LO] with payload [lo], the packet [SET_BIN_MASK_HI] with
    payload [hi] and the packet [SET_BIN_MASK] with the payload words
    [{hi, lo}] all return [true]; and when the second packet runs on a state
    [sA1'] that still has the field as the first packet left it, the field
    ends up with the value that [SET_BIN_MASK] produces from any other
    state: [(hi << 32) | lo].  The same for [SET_BIN_SELECT_LO],
    [SET_BIN_SELECT_HI] and [SET_BIN_SELECT]. *)
Theorem bin_field_LO_HI_equals_FULL (E : Externals) (fuel : nat)
        (f : BinField) (pLO pHI pFULL : Z) (sA sA1' sB : CP) :
  opcode_of E (type3_opcode pLO) = opcode_LO f ->
  opcode_of E (type3_opcode pHI) = opcode_HI f ->
  opcode_of E (type3_opcode pFULL) = opcode_FULL f ->
  type3_dispatches E pLO sA = true ->
  type3_dispatches E pHI sA1' = true ->
  type3_dispatches E pFULL sB = true ->
  payload_word 0 sB = payload_word 0 sA1' ->
  payload_word 1 sB = payload_word 0 sA ->
  exists sA1 sA2 sB1,
    ExecutePacketType3 E fuel pLO sA = Some (true, sA1) /\
    ExecutePacketType3 E fuel pHI sA1' = Some (true, sA2) /\
    ExecutePacketType3 E fuel pFULL sB = Some (true, sB1) /\
    (bin_field f sA1' = bin_field f sA1 ->
     bin_field f sA2 = bin_field f sB1 /\
     bin_field f sB1
     = Z.lor (Z.shiftl (payload_word 0 sA1') 32) (payload_word 0 sA)).
Proof.
  intros HoLO HoHI HoFULL HdA HdA1 HdB Hhi Hlo.
  pose proof (payload_word_range 0 sA) as RA.
  pose proof (payload_word_range 0 sA1') as RA1.
  unfold type3_dispatches in HdA, HdA1, HdB.
  apply andb_true_iff in HdA as [HrA HpA].
  apply andb_true_iff in HdA1 as [HrA1 HpA1].
  apply andb_true_iff in HdB as [HrB HpB].
  apply negb_true_iff in HpA, HpA1, HpB.
  unfold ExecutePacketType3, ExecutePacketType3_in.
  rewrite HrA, HrA1, HrB.
  rewrite HoLO in *. rewrite HoHI in *. rewrite HoFULL in *.
  destruct f; cbn in HpA, HpA1, HpB |- *;
    rewrite HpA, HpA1, HpB;
    rewrite !andb_false_r; cbn;
    do 3 eexists;
    (split; [reflexivity|]); (split; [reflexivity|]);
    (split; [reflexivity|]);
    cbn; intros Hkeep;
    cbn in Hhi, Hlo, RA, RA1;
    rewrite Hkeep, Hhi, Hlo;
    rewrite merge_lo_then_hi by exact RA;
    rewrite u64_shiftl_32 by exact RA1;
    split; reflexivity.
Qed.

(* ================================================================= *)
(** ** Memory lemmas *)

Lemma store8_same (m : Memory) (a v : Z) : store8 m a v a = v mod 256.
Proof. unfold store8. now rewrite Z.eqb_refl. Qed.

Lemma store8_other (m : Memory) (a v x : Z) : x <> a -> store8 m a v x = m x.
Proof. intros H. unfold store8. now apply Z.eqb_neq in H as ->. Qed.

Lemma store32_other (m : Memory) (a v x : Z) :
  ~ (a <= x < a + 4) -> store32 m a v x = m x.
Proof.
  intros H. unfold store32.
  rewrite !store8_other by lia. reflexivity.
Qed.

Lemma load32_store32_same (m : Memory) (a v : Z) :
  load32 (store32 m a v) a = u32 v.
Proof.
  unfold load32, store32.
  rewrite (store8_other _ (a + 3) _ a), (store8_other _ (a + 2) _ a),
          (store8_other _ (a + 1) _ a), store8_same by lia.
  rewrite (store8_other _ (a + 3) _ (a + 1)), (store8_other _ (a + 2) _ (a + 1)),
          store8_same by lia.
  rewrite (store8_other _ (a + 3) _ (a + 2)), store8_same by lia.
  rewrite store8_same.
  unfold u32. rewrite !Z.shiftr_div_pow2 by lia.
  change (2 ^ 8) with 256. change (2 ^ 16) with 65536.
  change (2 ^ 24) with 16777216. change (2 ^ 32) with 4294967296.
  Z.div_mod_to_equations. lia.
Qed.

Lemma load32_store32_disjoint (m : Memory) (a b v : Z) :
  b + 4 <= a \/ a + 4 <= b ->
  load32 (store32 m a v) b = load32 m b.
Proof.
  intros H. unfold load32.
  rewrite !store32_other by lia. reflexivity.
Qed.

Lemma memset0_spec (n : nat) (m : Memory) (p x : Z) :
  memset0 m p n x
  = if (p <=? x) && (x <? p + Z.of_nat n) then 0 else m x.
Proof.
  revert m. induction n as [|n IH]; intros m.
  - simpl memset0.
    destruct (p <=? x) eqn:H1, (x <? p + Z.of_nat 0) eqn:H2; try reflexivity.
    apply Z.leb_le in H1. apply Z.ltb_lt in H2. lia.
  - simpl memset0. rewrite IH.
    destruct (p <=? x) eqn:H1; cbn [andb].
    + destruct (x <? p + Z.of_nat n) eqn:H2.
      * replace (x <? p + Z.of_nat (S n)) with true; [reflexivity|].
        symmetry. apply Z.ltb_lt. apply Z.ltb_lt in H2. lia.
      * apply Z.ltb_ge in H2.
        destruct (Z.eq_dec x (p + Z.of_nat n)) as [->|Hne].
        -- rewrite store8_same.
           replace (p + Z.of_nat n <? p + Z.of_nat (S n)) with true;
             [reflexivity|symmetry; apply Z.ltb_lt; lia].
        -- rewrite store8_other by assumption.
           replace (x <? p + Z.of_nat (S n)) with false;
             [reflexivity|symmetry; apply Z.ltb_ge; lia].
    + apply Z.leb_gt in H1. rewrite store8_other by lia. reflexivity.
Qed.

Lemma memset0_inside (n : nat) (m : Memory) (p x : Z) :
  p <= x < p + Z.of_nat n -> memset0 m p n x = 0.
Proof.
  intros H. rewrite memset0_spec.
  replace (p <=? x) with true by (symmetry; apply Z.leb_le; lia).
  replace (x <? p + Z.of_nat n) with true by (symmetry; apply Z.ltb_lt; lia).
  reflexivity.
Qed.

Lemma memset0_outside (n : nat) (m : Memory) (p x : Z) :
  ~ (p <= x < p + Z.of_nat n) -> memset0 m p n x = m x.
Proof.
  intros H. rewrite memset0_spec.
  destruct (p <=? x) eqn:H1, (x <? p + Z.of_nat n) eqn:H2; try reflexivity.
  apply Z.leb_le in H1. apply Z.ltb_lt in H2. lia.
Qed.

(* ================================================================= *)
(** ** Occlusion queries *)

(** C9, as amended.  [EVENT_WRITE_ZPD] returns [true].  When the configured
    fake sample count is negative, memory is left as it was.  When it is not
    negative, the handler zeroes the whole sample-count structure at the
    address held in [RB_SAMPLE_COUNT_ADDR] in every case, and then, if the
    structure held the byte-swapped marker [0xFFFFFEED] in both [ZPass_A]
    and [ZPass_B] or in both [ZFail_A] and [ZFail_B], writes the fake sample
    count into [ZPass_A] and [Total_A]; memory outside the structure is
    left as it was. *)
Theorem EVENT_WRITE_ZPD_fakes_query (E : Externals) (packet count : Z)
        (s : CP) :
  XE_GPU_REG_RB_SAMPLE_COUNT_ADDR E <> XE_GPU_REG_VGT_EVENT_INITIATOR E ->
  sample_counts_layout_ok E ->
  let p := sample_counts_ptr E s in
  let size := Z.of_nat (sizeof_depth_sample_counts E) in
  let fake := query_occlusion_fake_sample_count E in
  let r := ExecutePacketType3_EVENT_WRITE_ZPD E packet count s in
  let m' := mem (snd r) in
  fst r = true /\
  (fake < 0 -> m' = mem s) /\
  (0 <= fake ->
   (forall a, ~ (p <= a < p + size) -> m' a = mem s a) /\
   (query_end_marked E s ->
    load32 m' (p + offsetof_ZPass_A E) = u32 fake /\
    load32 m' (p + offsetof_Total_A E) = u32 fake /\
    (forall a, p <= a < p + size ->
               ~ in_field p (offsetof_ZPass_A E) a ->
               ~ in_field p (offsetof_Total_A E) a -> m' a = 0)) /\
   (~ query_end_marked E s ->
    forall a, p <= a < p + size -> m' a = 0)).
Proof.
  intros Hreg (HzA & HzA' & HtA & HtA' & Hdisj) p size fake r m'.
  assert (Hp : upd (regs s) (XE_GPU_REG_VGT_EVENT_INITIATOR E)
                   (Z.land (load_and_swap32 (mem s) (read_ptr (reader s))) 63)
                   (XE_GPU_REG_RB_SAMPLE_COUNT_ADDR E)
               = regs s (XE_GPU_REG_RB_SAMPLE_COUNT_ADDR E)).
  { unfold upd. apply Z.eqb_neq in Hreg. now rewrite Hreg. }
  subst m' r. unfold ExecutePacketType3_EVENT_WRITE_ZPD.
  fold fake.
  destruct (fake >=? 0) eqn:Hfake.
  - rewrite Z.geb_leb in Hfake. apply Z.leb_le in Hfake.
    unfold bind, gets, modify, ret, store_mem32, ReadAndSwap,
      WriteEventInitiator, set_reg_direct.
    cbn -[kQueryFinished]. rewrite Hp. fold (sample_counts_ptr E s). fold p.
    set (marked := ((load32 (mem s) (p + offsetof_ZPass_A E) =? kQueryFinished)
                    && (load32 (mem s) (p + offsetof_ZPass_B E) =? kQueryFinished))
                   || ((load32 (mem s) (p + offsetof_ZFail_A E) =? kQueryFinished)
                       && (load32 (mem s) (p + offsetof_ZFail_B E) =? kQueryFinished))).
    assert (Hmarked : marked = true <-> query_end_marked E s).
    { unfold marked, query_end_marked. fold p.
      rewrite orb_true_iff, !andb_true_iff, !Z.eqb_eq. tauto. }
    destruct marked eqn:Hm; cbn.
    + split; [reflexivity|]. split; [lia|]. intros _.
      split; [|split].
      * intros a Ha. rewrite !store32_other by (fold size; lia).
        apply memset0_outside. exact Ha.
      * intros _. split; [|split].
        -- rewrite load32_store32_disjoint by lia.
           rewrite load32_store32_same. apply Zmod_mod.
        -- rewrite load32_store32_same. apply Zmod_mod.
        -- intros a Ha HnZ HnT. unfold in_field in HnZ, HnT.
           rewrite !store32_other by lia.
           apply memset0_inside. exact Ha.
      * intros Hn. exfalso. apply Hn, Hmarked. reflexivity.
    + split; [reflexivity|]. split; [lia|]. intros _.
      split; [|split].
      * intros a Ha. apply memset0_outside. exact Ha.
      * intros Hy. apply Hmarked in Hy. discriminate.
      * intros _ a Ha. apply memset0_inside. exact Ha.
  - rewrite Z.geb_leb in Hfake. apply Z.leb_gt in Hfake.
    unfold bind, gets, modify, ret, store_mem32, ReadAndSwap,
      WriteEventInitiator, set_reg_direct. cbn.
    split; [reflexivity|]. split; [reflexivity|]. lia.
Qed.

(* ================================================================= *)
(** ** The read offset after a Type-3 packet *)

(** A [NOP] skips its declared payload, whatever its length: the condition
    asserted at the end of [ExecutePacketType3] holds. *)
Lemma type3_offset_assertion_NOP (E : Externals) (fuel : nat) (packet : Z)
      (s : CP) :
  opcode_of E (type3_opcode packet) = PM4_NOP ->
  type3_dispatches E packet s = true ->
  exists s',
    ExecutePacketType3 E fuel packet s = Some (true, s') /\
    type3_offset_assertion (read_offset (reader s)) (packet_count packet) s'
      = true.
Proof.
  intros Hop Hd. unfold type3_dispatches in Hd.
  apply andb_true_iff in Hd as [Hr Hp]. apply negb_true_iff in Hp.
  unfold ExecutePacketType3, ExecutePacketType3_in.
  rewrite Hr, Hop in *. cbn in Hp |- *. rewrite Hp, andb_false_r. cbn.
  eexists. split; [reflexivity|].
  unfold type3_offset_assertion. cbn. apply Z.eqb_refl.
Qed.

(** An [INTERRUPT] reads one payload word: the asserted condition holds
    when the header declares one word. *)
Lemma type3_offset_assertion_INTERRUPT (E : Externals) (fuel : nat)
      (packet : Z) (s : CP) :
  opcode_of E (type3_opcode packet) = PM4_INTERRUPT ->
  packet_count packet = 1 ->
  type3_dispatches E packet s = true ->
  exists s',
    ExecutePacketType3 E fuel packet s = Some (true, s') /\
    type3_offset_assertion (read_offset (reader s)) (packet_count packet) s'
      = true.
Proof.
  intros Hop Hc Hd. unfold type3_dispatches in Hd.
  apply andb_true_iff in Hd as [Hr Hp]. apply negb_true_iff in Hp.
  unfold ExecutePacketType3, ExecutePacketType3_in.
  rewrite Hr, Hop in *. cbn in Hp |- *. rewrite Hp, andb_false_r. cbn.
  set (w := load_and_swap32 (mem s) (read_ptr (reader s))).
  destruct (Z.land w 1 =? 0), (Z.land w 2 =? 0), (Z.land w 4 =? 0),
           (Z.land w 8 =? 0), (Z.land w 16 =? 0), (Z.land w 32 =? 0);
    cbn; (eexists; split; [reflexivity|]);
    unfold type3_offset_assertion; cbn; rewrite Hc; apply Z.eqb_refl.
Qed.

(* ================================================================= *)
(** ** Runs on concrete rings *)

(** C1.  [ExecutePacketType3] on an [INTERRUPT] packet that declares two
    payload words: the ring holds the two words, the packet is executed
    and returns [true], but the handler reads one word only, so the read
    offset ends at 8 and not at [(4 + 4 * 2) mod 16 = 12], and the
    condition asserted at the end of [ExecutePacketType3] is false. *)
Theorem type3_offset_postcondition_fails :
  4 * packet_count interrupt_packet <= GetCurrentRingReadCount interrupt_state
  /\ exists s',
       ExecutePacketType3 E_sample 0 interrupt_packet interrupt_state
         = Some (true, s') /\
       read_offset (reader s') = 8 /\
       (read_offset (reader interrupt_state)
        + 4 * packet_count interrupt_packet)
         mod capacity (reader interrupt_state) = 12 /\
       type3_offset_assertion (read_offset (reader interrupt_state))
                              (packet_count interrupt_packet) s' = false.
Proof.
  split.
  - vm_compute. discriminate.
  - eexists. split; [vm_compute; reflexivity|].
    repeat split; vm_compute; reflexivity.
Qed.

(** C2, counterexample.  A predicated [NOP] that declares three payload
    words, with [bin_select & bin_mask = 0], on a ring that holds one
    payload word only: [ExecutePacketType3] returns [false] and does not
    advance the reader. *)
Lemma predicated_skip_fails_without_room :
  Z.land predicated_nop 1 = 1 /\
  Z.land (bin_select truncated_nop_state) (bin_mask truncated_nop_state) = 0 /\
  ExecutePacketType3 E_sample 0 predicated_nop truncated_nop_state
    = Some (false, truncated_nop_state) /\
  ~ (exists s',
       ExecutePacketType3 E_sample 0 predicated_nop truncated_nop_state
         = Some (true, s')).
Proof.
  assert (H : ExecutePacketType3 E_sample 0 predicated_nop truncated_nop_state
              = Some (false, truncated_nop_state))
    by (vm_compute; reflexivity).
  repeat split; try (vm_compute; reflexivity); try exact H.
  intros [s' Hs']. rewrite H in Hs'. discriminate.
Qed.

(** C2, witness: a predicated [NOP] whose three payload words are in the
    ring is skipped. *)
Lemma ExecutePacketType3_predicated_skip_witness :
  exists s',
    ExecutePacketType3 E_sample 0 predicated_nop whole_nop_state
      = Some (true, s') /\
    reader s' = rb_AdvanceRead (4 * packet_count predicated_nop)
                               (reader whole_nop_state) /\
    trace s' =
      trace whole_nop_state ++
      [PacketStart (u32 (read_ptr (reader whole_nop_state) - 4))
         (if Type3Opcode_eqb
               (opcode_of E_sample (type3_opcode predicated_nop))
               PM4_INDIRECT_BUFFER
          then 2 else 1 + packet_count predicated_nop);
       PacketEnd] /\
    same_except_reader_trace whole_nop_state s'.
Proof.
  apply (ExecutePacketType3_predicated_skip E_sample 0 predicated_nop
                                            whole_nop_state).
  - vm_compute. reflexivity.
  - left. vm_compute. reflexivity.
  - vm_compute. discriminate.
Defined.

(** C4.  An indirect buffer whose first packet fails ([ExecutePacket]
    returns [false] on the opcode without handler) and whose second packet
    writes register [0x100]: [ExecuteIndirectBuffer] goes on after the
    failure and runs the second packet, as the register and the trace
    show.  The comment in the failure branch says "Return up a level if
    we encounter a bad packet", but the [break] is commented out. *)
Theorem indirect_buffer_runs_past_failed_packet :
  option_map fst
    (ExecutePacket E_sample 1
       (set_reader (indirect_reader E_sample 0x2000 4) outer_state_1))
    = Some false /\
  regs outer_state_1 0x100 = 0 /\
  exists s',
    ExecuteIndirectBuffer E_sample 2 0x2000 4 outer_state_1 = Some s' /\
    regs s' 0x100 = 0xAAAA /\
    trace s' = [IndirectBufferStart 0x2000 16;
                PacketStart 0x2000 2; PacketEnd;
                PacketStart 0x2008 2; PacketEnd;
                IndirectBufferEnd].
Proof.
  split; [vm_compute; reflexivity|].
  split; [vm_compute; reflexivity|].
  eexists. split; [vm_compute; reflexivity|].
  split; vm_compute; reflexivity.
Qed.

(** C5, witness: an indirect buffer whose last packet fails returns, and
    the caller's reader is back. *)
Lemma ExecuteIndirectBuffer_restores_reader_witness :
  ExecuteIndirectBuffer E_sample 2 0x2000 3 outer_state_2
    = Some outer_state_2_after /\
  reader outer_state_2_after = reader outer_state_2.
Proof.
  assert (H : ExecuteIndirectBuffer E_sample 2 0x2000 3 outer_state_2
              = Some outer_state_2_after) by (vm_compute; reflexivity).
  split; [exact H|].
  exact (ExecuteIndirectBuffer_restores_reader E_sample 2 0x2000 3
           outer_state_2 outer_state_2_after H).
Defined.

(** C6, witness: [lo = 0x89ABCDEF] and [hi = 0x01234567] written in halves
    over the mask [0xFFFF0000FFFF0000], and at once over the mask 0. *)
Lemma bin_field_LO_HI_equals_FULL_witness :
  ExecutePacketType3 E_sample 0 mask_lo_packet lo_hi_state_0
    = Some (true, lo_hi_state_1) /\
  ExecutePacketType3 E_sample 0 mask_hi_packet lo_hi_state_1'
    = Some (true, lo_hi_state_2) /\
  ExecutePacketType3 E_sample 0 mask_full_packet full_state_0
    = Some (true, full_state_1) /\
  bin_field BinMask lo_hi_state_2 = bin_field BinMask full_state_1 /\
  bin_field BinMask full_state_1
  = Z.lor (Z.shiftl (payload_word 0 lo_hi_state_1') 32)
          (payload_word 0 lo_hi_state_0).
Proof.
  destruct (bin_field_LO_HI_equals_FULL E_sample 0 BinMask
              mask_lo_packet mask_hi_packet mask_full_packet
              lo_hi_state_0 lo_hi_state_1' full_state_0)
    as (sA1 & sA2 & sB1 & H1 & H2 & H3 & H);
    try (vm_compute; reflexivity).
  assert (E1 : lo_hi_state_1 = sA1)
    by (unfold lo_hi_state_1; rewrite H1; reflexivity).
  assert (E2 : lo_hi_state_2 = sA2)
    by (unfold lo_hi_state_2; rewrite H2; reflexivity).
  assert (E3 : full_state_1 = sB1)
    by (unfold full_state_1; rewrite H3; reflexivity).
  rewrite E2, E3.
  split; [rewrite E1; exact H1|].
  split; [exact H2|]. split; [exact H3|].
  apply H. unfold lo_hi_state_1'. rewrite E1. reflexivity.
Defined.

(** C7, witness: a [MEM_WRITE] that declares three payload words on a ring
    that holds one. *)
Lemma ExecutePacketType3_overflow_witness :
  ExecutePacketType3 E_sample 0 mem_write_packet truncated_mem_write_state
    = Some (false, truncated_mem_write_state).
Proof.
  apply (ExecutePacketType3_overflow E_sample 0 mem_write_packet
                                     truncated_mem_write_state).
  vm_compute. reflexivity.
Defined.

(** C8, witness: a ring that starts with [0x0BADF00D]. *)
Lemma ExecutePacket_bad_header_witness :
  exists s',
    ExecutePacket E_sample 0 bad_header_state = Some (true, s') /\
    reader s' = rb_AdvanceRead 4 (reader bad_header_state) /\
    trace s' = trace bad_header_state
               ++ [PacketStart (u32 (read_ptr (reader s') - 4)) 1; PacketEnd] /\
    same_except_reader_trace bad_header_state s'.
Proof.
  apply (ExecutePacket_bad_header E_sample 0 bad_header_state).
  right. vm_compute. reflexivity.
Defined.

(** C9, counterexample.  With a fake sample count of 1000 and a structure
    that holds no marker, the handler does not leave the structure
    unchanged: [ZPass_A] held [0x55555555] and is zero afterwards. *)
Lemma zpd_zeroes_unmarked_structure :
  ~ query_end_marked E_sample (zpd_state counts_without_marker) /\
  load32 (mem (zpd_state counts_without_marker))
         (0x3000 + offsetof_ZPass_A E_sample) = 0x55555555 /\
  load32 (mem (snd (ExecutePacketType3_EVENT_WRITE_ZPD E_sample 0xC0005B00 1
                      (zpd_state counts_without_marker))))
         (0x3000 + offsetof_ZPass_A E_sample) = 0.
Proof.
  split; [|split; vm_compute; reflexivity].
  intros [[H _]|[H _]]; vm_compute in H; discriminate H.
Qed.

(** C9, witness: with the marker in [ZPass_A] and [ZPass_B] and a fake
    sample count of 1000, [ZPass_A] and [Total_A] read 1000 afterwards. *)
Lemma EVENT_WRITE_ZPD_fakes_query_witness :
  load32 (mem (snd (ExecutePacketType3_EVENT_WRITE_ZPD E_sample 0xC0005B00 1
                      (zpd_state counts_with_marker))))
         (0x3000 + offsetof_ZPass_A E_sample) = 1000 /\
  load32 (mem (snd (ExecutePacketType3_EVENT_WRITE_ZPD E_sample 0xC0005B00 1
                      (zpd_state counts_with_marker))))
         (0x3000 + offsetof_Total_A E_sample) = 1000.
Proof.
  assert (Hreg : XE_GPU_REG_RB_SAMPLE_COUNT_ADDR E_sample
                 <> XE_GPU_REG_VGT_EVENT_INITIATOR E_sample)
    by (vm_compute; discriminate).
  assert (Hlay : sample_counts_layout_ok E_sample)
    by (unfold sample_counts_layout_ok; cbn; lia).
  assert (Hmark : query_end_marked E_sample (zpd_state counts_with_marker))
    by (left; split; vm_compute; reflexivity).
  destruct (EVENT_WRITE_ZPD_fakes_query E_sample 0xC0005B00 1
              (zpd_state counts_with_marker) Hreg Hlay) as (_ & _ & H).
  destruct (H ltac:(vm_compute; discriminate)) as (_ & Hm & _).
  destruct (Hm Hmark) as (HZ & HT & _).
  split; [exact HZ | exact HT].
Defined.

(** C10, witness: a [SET_CONSTANT] of three payload words whose first
    word has type 5. *)
Lemma SET_CONSTANT_unknown_type_witness :
  exists s',
    ExecutePacketType3_SET_CONSTANT E_sample set_constant_packet
      (packet_count set_constant_packet) set_constant_state = (true, s') /\
    reader s' =
      rb_AdvanceRead (4 * (packet_count set_constant_packet - 1))
                     (rb_AdvanceRead 4 (reader set_constant_state)) /\
    trace s' = trace set_constant_state /\
    same_except_reader_trace set_constant_state s'.
Proof.
  apply (SET_CONSTANT_unknown_type E_sample set_constant_packet
                                   set_constant_state).
  vm_compute. reflexivity.
Defined.
(* ================================================================= *)
(** ** How far the handlers move the reader *)

Lemma packet_count_range (packet : Z) : 1 <= packet_count packet <= 0x4000.
Proof.
  unfold packet_count.
  assert (Hm : Z.land (Z.shiftr packet 16) 0x3FFF
               = (Z.shiftr packet 16) mod 2 ^ 14)
    by (change 0x3FFF with (Z.ones 14); rewrite Z.land_ones by lia;
        reflexivity).
  rewrite Hm.
  pose proof (Z.mod_pos_bound (Z.shiftr packet 16) (2 ^ 14) eq_refl).
  change (2 ^ 14) with 16384 in *. lia.
Qed.

Lemma u32_small (x : Z) : 0 <= x < 2 ^ 32 -> u32 x = x.
Proof. intros H. unfold u32. now apply Z.mod_small. Qed.

Lemma rb_AdvanceRead_add (a b : Z) (r : RingBuffer) :
  rb_AdvanceRead b (rb_AdvanceRead a r) = rb_AdvanceRead (a + b) r.
Proof.
  unfold rb_AdvanceRead. cbn. f_equal.
  rewrite Zplus_mod_idemp_l. f_equal. lia.
Qed.

Lemma moves_eq {A} (n n' : Z) (m : M A) : moves n m -> n = n' -> moves n' m.
Proof. now intros H <-. Qed.

Lemma moves_ret {A} (n : Z) (a : A) : n = 0 -> moves n (ret a).
Proof. intros -> s. right. split; reflexivity. Qed.

Lemma moves_keeps {A} (n : Z) (m : M A) :
  n = 0 -> (forall s, reader (snd (m s)) = reader s) -> moves n m.
Proof. intros -> H s. right. split; [reflexivity|apply H]. Qed.

Lemma moves_bind {A B} (a b n : Z) (m : M A) (k : A -> M B) :
  moves a m -> (forall x, moves b (k x)) -> a + b = n -> moves n (bind m k).
Proof.
  intros Hm Hk <- s. unfold bind.
  specialize (Hm s). destruct (m s) as [x s1]. cbn [snd] in Hm.
  specialize (Hk x s1).
  destruct Hk as [Hk|[-> Hk]], Hm as [Hm|[-> Hm]]; rewrite Hk, Hm.
  - left. apply rb_AdvanceRead_add.
  - left. reflexivity.
  - left. now rewrite Z.add_0_r.
  - right. split; reflexivity.
Qed.

Lemma moves_ReadAndSwap (n : Z) : n = 4 -> moves n ReadAndSwap.
Proof. intros -> s. left. reflexivity. Qed.

Lemma moves_AdvanceRead (n k : Z) : n = k -> moves n (AdvanceRead k).
Proof. intros -> s. left. reflexivity. Qed.

Lemma moves_for_loop (b n : Z) (k : nat) (i : Z) (body : Z -> M unit) :
  (forall j, moves b (body j)) -> n = Z.of_nat k * b ->
  moves n (for_loop k i body).
Proof.
  intros Hb ->. revert i. induction k as [|k IH]; intros i.
  - apply moves_ret. reflexivity.
  - cbn [for_loop]. eapply moves_bind; [apply Hb | intros _; apply IH | lia].
Qed.

Lemma moves_read_words (n : Z) (k : nat) :
  n = 4 * Z.of_nat k -> moves n (read_words k).
Proof.
  intros ->. induction k as [|k IH].
  - apply moves_ret. reflexivity.
  - cbn [read_words].
    eapply moves_bind; [apply moves_ReadAndSwap; reflexivity | intros w | ].
    + eapply moves_bind; [apply IH | intros ws; apply moves_ret; reflexivity
                         | reflexivity].
    + lia.
Qed.

Ltac moves_arith := first [reflexivity | lia].

Ltac moves_hook := fail.

Ltac moves_tac :=
  lazymatch goal with
  | |- moves _ (bind _ _) =>
      eapply moves_bind; [moves_tac | intro; moves_tac | moves_arith]
  | |- moves _ (ret _) => apply moves_ret; moves_arith
  | |- moves _ ReadAndSwap => apply moves_ReadAndSwap; moves_arith
  | |- moves _ (AdvanceRead _) => apply moves_AdvanceRead; moves_arith
  | |- moves _ (for_loop _ _ _) =>
      eapply moves_for_loop; [intro; moves_tac | moves_arith]
  | |- moves _ (read_words _) => apply moves_read_words; moves_arith
  | |- moves _ (if ?c then _ else _) => destruct c; moves_tac
  | |- moves _ (WriteRegister _ _ _) => unfold WriteRegister; moves_tac
  | |- moves _ (WriteEventInitiator _ _) => unfold WriteEventInitiator; moves_tac
  | |- moves _ (LoadShader _ _ _ _ _) => unfold LoadShader; moves_tac
  | |- moves _ (MakeCoherent _) => unfold MakeCoherent; moves_tac
  | |- moves _ (match ?x with kVertex => _ | kPixel => _ | kShaderOther => _ end) =>
      destruct x; moves_tac
  | |- moves _ _ =>
      first [ moves_hook
            | apply moves_keeps; [moves_arith | intro; reflexivity] ]
  end.

Section HandlersMove.

Variable E : Externals.

Lemma moves_WriteRegisterRangeFromRing (n base count : Z) :
  n = 4 * Z.of_nat (Z.to_nat count) ->
  moves n (WriteRegisterRangeFromRing E base count).
Proof. intros ->. unfold WriteRegisterRangeFromRing. moves_tac. Qed.

Lemma moves_WriteOneRegisterFromRing (n base count : Z) :
  n = 4 * Z.of_nat (Z.to_nat count) ->
  moves n (WriteOneRegisterFromRing E base count).
Proof. intros ->. unfold WriteOneRegisterFromRing. moves_tac. Qed.

Lemma moves_WriteRegisterRangeFromMem (n base host count : Z) :
  n = 0 -> moves n (WriteRegisterRangeFromMem E base host count).
Proof. intros ->. unfold WriteRegisterRangeFromMem. moves_tac. Qed.

End HandlersMove.

Ltac moves_hook ::=
  first [ apply moves_WriteRegisterRangeFromRing; moves_arith
        | apply moves_WriteOneRegisterFromRing; moves_arith
        | apply moves_WriteRegisterRangeFromMem; moves_arith ].

Lemma lift_moves {A} (n : Z) (m : M A) (s : CP) (a : A) (s' : CP) :
  moves n m -> n <> 0 -> lift m s = Some (a, s') ->
  reader s' = rb_AdvanceRead n (reader s).
Proof.
  intros Hm Hn H. unfold lift in H. injection H as H.
  specialize (Hm s). rewrite H in Hm. cbn [snd] in Hm.
  destruct Hm as [Hm|[Hz _]]; [exact Hm|contradiction].
Qed.

Section Type3Moves.

Variable E : Externals.

Lemma wait_poll_value_reader (wait_info poll_reg_addr : Z) (s : CP) :
  reader (snd (wait_poll_value E wait_info poll_reg_addr s)) = reader s.
Proof.
  unfold wait_poll_value.
  destruct (negb (Z.land wait_info 16 =? 0)); [reflexivity|].
  unfold bind, gets.
  destruct (poll_reg_addr =? XE_GPU_REG_COHER_STATUS_HOST E); reflexivity.
Qed.

Lemma wait_loop_reader (n : nat) :
  forall wait_info poll_reg_addr ref mask wait s r s',
    wait_loop E n wait_info poll_reg_addr ref mask wait s = Some (r, s') ->
    reader s' = reader s.
Proof.
  induction n as [|n IH]; intros wi pa rf mk wt s0 r s' H; [discriminate|].
  simpl in H.
  pose proof (wait_poll_value_reader wi pa s0) as Hp.
  destruct (wait_poll_value E wi pa s0) as [[value pa'] s1]. cbn [snd] in Hp.
  destruct (MatchValueAndRef (Z.land value mk) rf wi).
  - injection H as _ <-. exact Hp.
  - destruct (wt >=? 256).
    + destruct (negb (vsync E)); cbn in H;
        match type of H with
        | (if ?c then _ else _) = _ => destruct c
        end;
        try (injection H as _ <-; exact Hp);
        apply IH in H; rewrite H; exact Hp.
    + cbn in H. apply IH in H. rewrite H. exact Hp.
Qed.

Lemma moves_EVENT_WRITE (packet count : Z) :
  1 <= count <= 0x4000 ->
  moves (4 * count) (ExecutePacketType3_EVENT_WRITE E packet count).
Proof.
  intros Hc. unfold ExecutePacketType3_EVENT_WRITE.
  eapply moves_bind; [apply moves_ReadAndSwap; reflexivity | intros w | ].
  - eapply moves_bind; [moves_tac | intros _ | reflexivity].
    eapply moves_bind with (a := 4 * (count - 1));
      [ | intros _; apply moves_ret; reflexivity | reflexivity].
    destruct (count =? 1) eqn:H1.
    + apply Z.eqb_eq in H1. subst count. apply moves_ret. reflexivity.
    + rewrite u32_small by lia. apply moves_AdvanceRead. lia.
  - lia.
Qed.

Lemma moves_SET_CONSTANT (packet count : Z) :
  1 <= count <= 0x4000 ->
  moves (4 * count) (ExecutePacketType3_SET_CONSTANT E packet count).
Proof.
  intros Hc. unfold ExecutePacketType3_SET_CONSTANT.
  rewrite (u32_small (count - 1)) by lia.
  eapply moves_bind with (b := 4 * (count - 1));
    [apply moves_ReadAndSwap; reflexivity | intros w | lia].
  unfold WriteALURangeFromRing, WriteFetchRangeFromRing,
    WriteBoolRangeFromRing, WriteLoopRangeFromRing,
    WriteREGISTERSRangeFromRing.
  repeat match goal with
         | |- moves _ (if ?c then _ else _) => destruct c
         end;
    (eapply moves_bind;
     [first [apply moves_WriteRegisterRangeFromRing; reflexivity
            |apply moves_AdvanceRead; reflexivity]
     | intros _; apply moves_ret; reflexivity
     | lia]).
Qed.

Variable indirect : Z -> Z -> CP -> option CP.
Variable polls : nat.
Hypothesis indirect_reader_kept :
  forall ptr count s s', indirect ptr count s = Some s' -> reader s' = reader s.

Lemma type3_case_moves (op : Type3Opcode) (packet count n : Z)
      (s : CP) (r : bool) (s' : CP) :
  1 <= count <= 0x4000 ->
  words_consumed op count = Some n ->
  type3_case E indirect polls op packet count s = Some (r, s') ->
  reader s' = rb_AdvanceRead (4 * n) (reader s).
Proof.
  intros Hc Hn H.
  destruct op; cbn [words_consumed] in Hn; try discriminate Hn;
    try (injection Hn as <-);
    try (cbn [type3_case] in H;
         apply (lift_moves (4 * count)) in H; [exact H | | lia];
         first
           [ apply moves_EVENT_WRITE; exact Hc
           | apply moves_SET_CONSTANT; exact Hc
           | unfold ExecutePacketType3_ME_INIT, ExecutePacketType3_NOP,
               ExecutePacketType3_MEM_WRITE, ExecutePacketType3_SET_CONSTANT2,
               ExecutePacketType3_SET_SHADER_CONSTANTS, HitUnimplementedOpcode;
             rewrite ?(u32_small (count - 1)) by lia;
             eapply moves_eq;
             [ first [ moves_tac
                     | eapply moves_bind;
                       [apply moves_ReadAndSwap; reflexivity
                       | intro;
                         eapply moves_bind;
                         [apply moves_WriteRegisterRangeFromRing; reflexivity
                         | intro; apply moves_ret; reflexivity
                         | reflexivity]
                       | reflexivity] ]
             | lia ] ]).
  - (* PM4_INTERRUPT *)
    eapply lift_moves; [ | | exact H]; [|lia].
    unfold ExecutePacketType3_INTERRUPT. eapply moves_eq; [moves_tac|lia].
  - (* PM4_XE_SWAP *)
    destruct (4 <=? count) eqn:H4; [|discriminate Hn].
    apply Z.leb_le in H4. injection Hn as <-.
    eapply lift_moves; [ | | exact H]; [|lia].
    unfold ExecutePacketType3_XE_SWAP. rewrite u32_small by lia.
    eapply moves_eq; [moves_tac|lia].
  - (* PM4_INDIRECT_BUFFER *)
    cbn [type3_case] in H. unfold ExecutePacketType3_INDIRECT_BUFFER in H.
    cbn in H.
    match type of H with
    | match indirect ?p ?c ?s0 with _ => _ end = _ =>
        destruct (indirect p c s0) as [s2|] eqn:Hi; [|discriminate H];
        apply indirect_reader_kept in Hi
    end.
    injection H as _ <-. rewrite Hi. cbn. apply rb_AdvanceRead_add.
  - (* PM4_INDIRECT_BUFFER_PFD *)
    cbn [type3_case] in H. unfold ExecutePacketType3_INDIRECT_BUFFER in H.
    cbn in H.
    match type of H with
    | match indirect ?p ?c ?s0 with _ => _ end = _ =>
        destruct (indirect p c s0) as [s2|] eqn:Hi; [|discriminate H];
        apply indirect_reader_kept in Hi
    end.
    injection H as _ <-. rewrite Hi. cbn. apply rb_AdvanceRead_add.
  - (* PM4_WAIT_REG_MEM *)
    cbn [type3_case] in H. unfold ExecutePacketType3_WAIT_REG_MEM in H.
    cbn in H. apply wait_loop_reader in H. rewrite H. cbn.
    rewrite !rb_AdvanceRead_add. reflexivity.
  - eapply lift_moves; [ | | exact H]; [|lia].
    unfold ExecutePacketType3_REG_RMW. eapply moves_eq; [moves_tac|lia].
  - eapply lift_moves; [ | | exact H]; [|lia].
    unfold ExecutePacketType3_REG_TO_MEM. eapply moves_eq; [moves_tac|lia].
  - eapply lift_moves; [ | | exact H]; [|lia].
    unfold ExecutePacketType3_COND_WRITE. eapply moves_eq; [moves_tac|lia].
  - eapply lift_moves; [ | | exact H]; [|lia].
    unfold ExecutePacketType3_EVENT_WRITE_SHD. eapply moves_eq; [moves_tac|lia].
  - eapply lift_moves; [ | | exact H]; [|lia].
    unfold ExecutePacketType3_EVENT_WRITE_EXT. eapply moves_eq; [moves_tac|lia].
  - eapply lift_moves; [ | | exact H]; [|lia].
    unfold ExecutePacketType3_EVENT_WRITE_ZPD. eapply moves_eq; [moves_tac|lia].
  - eapply lift_moves; [ | | exact H]; [|lia].
    unfold ExecutePacketType3_LOAD_ALU_CONSTANT,
      WriteALURangeFromMem, WriteFetchRangeFromMem, WriteBoolRangeFromMem,
      WriteLoopRangeFromMem, WriteREGISTERSRangeFromMem.
    eapply moves_eq; [moves_tac|lia].
  - eapply lift_moves; [ | | exact H]; [|lia].
    unfold ExecutePacketType3_IM_LOAD. eapply moves_eq; [moves_tac|lia].
  - eapply lift_moves; [ | | exact H]; [|lia].
    unfold ExecutePacketType3_INVALIDATE_STATE. eapply moves_eq; [moves_tac|lia].
  - eapply lift_moves; [ | | exact H]; [|lia].
    unfold ExecutePacketType3_VIZ_QUERY. eapply moves_eq; [moves_tac|lia].
  - eapply lift_moves; [ | | exact H]; [|lia]. eapply moves_eq; [moves_tac|lia].
  - eapply lift_moves; [ | | exact H]; [|lia]. eapply moves_eq; [moves_tac|lia].
  - eapply lift_moves; [ | | exact H]; [|lia]. eapply moves_eq; [moves_tac|lia].
  - eapply lift_moves; [ | | exact H]; [|lia]. eapply moves_eq; [moves_tac|lia].
  - eapply lift_moves; [ | | exact H]; [|lia]. eapply moves_eq; [moves_tac|lia].
  - eapply lift_moves; [ | | exact H]; [|lia]. eapply moves_eq; [moves_tac|lia].
  - eapply lift_moves; [ | | exact H]; [|lia]. eapply moves_eq; [moves_tac|lia].
  - eapply lift_moves; [ | | exact H]; [|lia]. eapply moves_eq; [moves_tac|lia].
Qed.

End Type3Moves.

Section ReaderAfterType3.

Variable E : Externals.

Lemma indirect_in_reader (exec : CP -> option (bool * CP)) (n : nat)
      (ptr count : Z) (s s' : CP) :
  ExecuteIndirectBuffer_in E exec n ptr count s = Some s' ->
  reader s' = reader s.
Proof.
  unfold ExecuteIndirectBuffer_in. cbn.
  match goal with |- match ?x with _ => _ end = _ -> _ => destruct x end;
    [|discriminate].
  intros H. injection H as <-. reflexivity.
Qed.

Lemma indirect_buffer_reader_kept (fuel : nat) (ptr count : Z) (s s' : CP) :
  ExecuteIndirectBuffer E fuel ptr count s = Some s' -> reader s' = reader s.
Proof.
  destruct fuel as [|f]; [discriminate|]. apply indirect_in_reader.
Qed.

Lemma packet_start_frame (c : bool) (n1 n2 : Z) (s : CP) :
  let s1 := snd ((if c then WritePacketStart_here n1
                  else WritePacketStart_here n2) s) in
  reader s1 = reader s /\ bin_select s1 = bin_select s
  /\ bin_mask s1 = bin_mask s.
Proof. destruct c; cbn; auto. Qed.

Lemma trace_end_of_frame_reader (s : CP) :
  reader (snd (trace_end_of_frame E s)) = reader s.
Proof.
  unfold trace_end_of_frame.
  destruct (trace_is_open s); cbn; destruct (trace_state s); reflexivity.
Qed.

Lemma type3_reader_after (fuel : nat) (packet n : Z) (s : CP) (r : bool)
      (s' : CP) :
  type3_dispatches E packet s = true ->
  words_consumed (opcode_of E (type3_opcode packet)) (packet_count packet)
    = Some n ->
  ExecutePacketType3 E fuel packet s = Some (r, s') ->
  reader s' = rb_AdvanceRead (4 * n) (reader s).
Proof.
  intros Hd Hn H. unfold type3_dispatches in Hd.
  apply andb_true_iff in Hd as [Hr Hp]. apply negb_true_iff in Hp.
  pose proof (packet_count_range packet) as Hc.
  unfold ExecutePacketType3, ExecutePacketType3_in in H.
  rewrite Hr in H.
  pose proof (packet_start_frame
                (Type3Opcode_eqb (opcode_of E (type3_opcode packet))
                                 PM4_INDIRECT_BUFFER)
                2 (1 + packet_count packet) s) as (Hs1 & Hbs & Hbm).
  destruct ((if Type3Opcode_eqb (opcode_of E (type3_opcode packet))
                                PM4_INDIRECT_BUFFER
             then WritePacketStart_here 2
             else WritePacketStart_here (1 + packet_count packet)) s)
    as [u s1'] eqn:Hw.
  cbn [snd] in Hs1, Hbs, Hbm.
  rewrite Hbs, Hbm, Hp in H.
  rewrite <- Hs1.
  pose proof (type3_case_moves E (ExecuteIndirectBuffer E fuel) fuel
                (indirect_buffer_reader_kept fuel)) as Hcase.
  destruct (opcode_of E (type3_opcode packet)) eqn:Hop;
    try (destruct (type3_case E _ _ _ packet _ s1') as [[res s2]|] eqn:Ht;
         [|discriminate H];
         apply (Hcase _ _ _ n _ _ _ Hc Hn) in Ht;
         rewrite <- Ht;
         cbn [Type3Opcode_eqb] in H;
         rewrite ?andb_false_r, ?andb_true_r in H;
         first [ injection H as _ <-; reflexivity
               | destruct (trace_instrumentation E);
                 [ pose proof (trace_end_of_frame_reader
                                 (snd (trace_write PacketEnd s2))) as Hf;
                   cbn in H, Hf;
                   destruct (trace_end_of_frame E _) as [u2 s3];
                   injection H as _ <-; exact Hf
                 | injection H as _ <-; reflexivity ] ]).
Qed.

End ReaderAfterType3.


(** X2.  The condition asserted at the end of [ExecutePacketType3] holds
    for every dispatched packet whose handler consumes as many words as the
    header declares. *)
Theorem type3_offset_assertion_holds (E : Externals) (fuel : nat)
        (packet : Z) (s : CP) (r : bool) (s' : CP) :
  type3_dispatches E packet s = true ->
  words_consumed (opcode_of E (type3_opcode packet)) (packet_count packet)
    = Some (packet_count packet) ->
  ExecutePacketType3 E fuel packet s = Some (r, s') ->
  type3_offset_assertion (read_offset (reader s)) (packet_count packet) s'
    = true.
Proof.
  intros Hd Hn H.
  unfold type3_offset_assertion.
  rewrite (type3_reader_after E fuel packet _ s r s' Hd Hn H).
  unfold rb_AdvanceRead. cbn.
  rewrite (Z.mul_comm 4). apply Z.eqb_refl.
Qed.

(* ================================================================= *)
(** ** Observations that no packet changes

    A generic argument: an observation [f] of the state that the setters
    used by the handlers leave alone, that [XE_SWAP] leaves alone, and that
    is back to its value when a packet start is followed by a packet end,
    has the same value before and after every run of [ExecutePacket],
    nested indirect buffers included. *)

Lemma keeps_ret {X A} (f : CP -> X) (a : A) : keeps f (ret a).
Proof. intros s. reflexivity. Qed.

Lemma keeps_bind {X A B} (f : CP -> X) (m : M A) (k : A -> M B) :
  keeps f m -> (forall x, keeps f (k x)) -> keeps f (bind m k).
Proof.
  intros Hm Hk s. unfold bind.
  specialize (Hm s). destruct (m s) as [x s1]. cbn [snd] in Hm.
  rewrite (Hk x s1). exact Hm.
Qed.

Lemma keeps_for_loop {X} (f : CP -> X) (k : nat) (i : Z) (body : Z -> M unit) :
  (forall j, keeps f (body j)) -> keeps f (for_loop k i body).
Proof.
  intros Hb. revert i. induction k as [|k IH]; intros i.
  - apply keeps_ret.
  - cbn [for_loop]. apply keeps_bind; [apply Hb | intros _; apply IH].
Qed.

Section Kept.

Variable E : Externals.
Variable X : Type.
Variable f : CP -> X.

Hypothesis f_reader : forall r s, f (set_reader r s) = f s.
Hypothesis f_mem : forall m s, f (set_mem m s) = f s.
Hypothesis f_regs : forall r s, f (set_regs r s) = f s.
Hypothesis f_me_bin : forall l s, f (set_me_bin l s) = f s.
Hypothesis f_vertex : forall h s, f (set_active_vertex_shader h s) = f s.
Hypothesis f_pixel : forall h s, f (set_active_pixel_shader h s) = f s.
Hypothesis f_bin_mask : forall v s, f (set_bin_mask v s) = f s.
Hypothesis f_bin_select : forall v s, f (set_bin_select v s) = f s.
Hypothesis f_trace_state : forall t s, f (set_trace_state t s) = f s.
Hypothesis f_trace_is_open : forall b s, f (set_trace_is_open b s) = f s.
Hypothesis f_yield : forall s, f (snd (MaybeYield E s)) = f s.
Hypothesis f_trace :
  forall r s, is_packet_mark r = false ->
              f (set_trace (trace s ++ [r]) s) = f s.
Hypothesis f_backend :
  forall c s, is_swap_call c = false ->
              f (set_backend (backend s ++ [c]) s) = f s.
Hypothesis f_swap :
  forall packet count, keeps f (ExecutePacketType3_XE_SWAP packet count).
Hypothesis f_bracket :
  forall ptr n s1 s2,
    f s2 = f (set_trace (trace s1 ++ [PacketStart ptr n]) s1) ->
    f (set_trace (trace s2 ++ [PacketEnd]) s2) = f s1.

Lemma keeps_ReadAndSwap : keeps f ReadAndSwap.
Proof. intros s. apply f_reader. Qed.

Lemma keeps_AdvanceRead (n : Z) : keeps f (AdvanceRead n).
Proof. intros s. apply f_reader. Qed.

Lemma keeps_trace_write (r : TraceRecord) :
  is_packet_mark r = false -> keeps f (trace_write r).
Proof. intros H s. apply f_trace. exact H. Qed.

Lemma keeps_backend_call (c : BackendCall) :
  is_swap_call c = false -> keeps f (backend_call c).
Proof. intros H s. apply f_backend. exact H. Qed.

Lemma keeps_read_words (k : nat) : keeps f (read_words k).
Proof.
  induction k as [|k IH]; [apply keeps_ret|].
  cbn [read_words]. apply keeps_bind; [apply keeps_ReadAndSwap|intros w].
  apply keeps_bind; [apply IH|intros ws; apply keeps_ret].
Qed.

Ltac keeps_prim :=
  intro; cbn;
  first [ reflexivity | apply f_reader | apply f_mem | apply f_regs
        | apply f_me_bin | apply f_vertex | apply f_pixel
        | apply f_bin_mask | apply f_bin_select | apply f_trace_state
        | apply f_trace_is_open | apply f_yield ].

Ltac keeps_tac :=
  lazymatch goal with
  | |- keeps _ (bind _ _) => apply keeps_bind; [keeps_tac | intro; keeps_tac]
  | |- keeps _ (ret _) => apply keeps_ret
  | |- keeps _ ReadAndSwap => apply keeps_ReadAndSwap
  | |- keeps _ (AdvanceRead _) => apply keeps_AdvanceRead
  | |- keeps _ (trace_write _) => apply keeps_trace_write; reflexivity
  | |- keeps _ (backend_call _) => apply keeps_backend_call; reflexivity
  | |- keeps _ (for_loop _ _ _) => apply keeps_for_loop; intro; keeps_tac
  | |- keeps _ (read_words _) => apply keeps_read_words
  | |- keeps _ (MaybeYield _) => exact f_yield
  | |- keeps _ (Sleep _ _) => exact f_yield
  | |- keeps _ (WriteRegister _ _ _) => unfold WriteRegister; keeps_tac
  | |- keeps _ (set_reg_direct _ _) => unfold set_reg_direct; keeps_tac
  | |- keeps _ (WriteEventInitiator _ _) =>
      unfold WriteEventInitiator; keeps_tac
  | |- keeps _ (LoadShader _ _ _ _ _) => unfold LoadShader; keeps_tac
  | |- keeps _ (MakeCoherent _) => unfold MakeCoherent; keeps_tac
  | |- keeps _ (WriteRegisterRangeFromRing _ _ _) =>
      unfold WriteRegisterRangeFromRing; keeps_tac
  | |- keeps _ (WriteOneRegisterFromRing _ _ _) =>
      unfold WriteOneRegisterFromRing; keeps_tac
  | |- keeps _ (WriteRegisterRangeFromMem _ _ _ _) =>
      unfold WriteRegisterRangeFromMem; keeps_tac
  | |- keeps _ (draw_tail _ _ _ _ _) => unfold draw_tail; keeps_tac
  | |- keeps _ (ExecutePacketType3Draw _ _ _ _) =>
      unfold ExecutePacketType3Draw; keeps_tac
  | |- keeps _ (match ?x with _ => _ end) => destruct x; keeps_tac
  | |- keeps _ _ => keeps_prim
  end.

Lemma keeps_wait_poll_value (wait_info poll_reg_addr : Z) :
  keeps f (wait_poll_value E wait_info poll_reg_addr).
Proof. unfold wait_poll_value. keeps_tac. Qed.

Lemma keeps_wait_loop (n : nat) :
  forall wait_info poll_reg_addr ref mask wait,
    keeps_opt f (wait_loop E n wait_info poll_reg_addr ref mask wait).
Proof.
  induction n as [|n IH]; intros wi pa rf mk wt s0 r s' H; [discriminate|].
  simpl in H.
  pose proof (keeps_wait_poll_value wi pa s0) as Hp.
  destruct (wait_poll_value E wi pa s0) as [[value pa'] s1]. cbn [snd] in Hp.
  destruct (MatchValueAndRef (Z.land value mk) rf wi).
  - injection H as _ <-. exact Hp.
  - destruct (wt >=? 256).
    + assert (Hw : keeps f (backend_call CallPrepareForWait ;;;
                            (if negb (vsync E) then MaybeYield E
                             else Sleep E (wt / 256)) ;;;
                            backend_call CallReturnFromWait))
        by keeps_tac.
      specialize (Hw s1).
      destruct ((backend_call CallPrepareForWait ;;;
                 (if negb (vsync E) then MaybeYield E else Sleep E (wt / 256)) ;;;
                 backend_call CallReturnFromWait) s1) as [u s2].
      cbn [snd] in Hw.
      destruct (negb (worker_running s2)).
      * injection H as _ <-. rewrite Hw. exact Hp.
      * apply IH in H. rewrite H, Hw. exact Hp.
    + apply IH in H. rewrite H. exact (eq_trans (f_yield s1) Hp).
Qed.

Lemma keeps_lift {A} (m : M A) : keeps f m -> keeps_opt f (lift m).
Proof.
  intros Hm s a s' H. unfold lift in H. injection H as H.
  specialize (Hm s). rewrite H in Hm. exact Hm.
Qed.

Lemma keeps_indirect_loop (exec : CP -> option (bool * CP)) (n : nat) :
  keeps_opt f exec ->
  forall s s', indirect_loop exec n s = Some s' -> f s' = f s.
Proof.
  intros Hexec. induction n as [|n IH]; intros s s' H; [discriminate|].
  simpl in H.
  destruct (exec s) as [[b s1]|] eqn:Hs; [|discriminate].
  apply Hexec in Hs.
  destruct (read_count (reader s1) =? 0).
  - injection H as <-. exact Hs.
  - apply IH in H. rewrite H. exact Hs.
Qed.

Lemma keeps_ExecuteIndirectBuffer_in (exec : CP -> option (bool * CP))
      (n : nat) (ptr count : Z) (s s' : CP) :
  keeps_opt f exec ->
  ExecuteIndirectBuffer_in E exec n ptr count s = Some s' -> f s' = f s.
Proof.
  intros Hexec. unfold ExecuteIndirectBuffer_in. cbn.
  match goal with
  | |- match indirect_loop exec n ?s0 with _ => _ end = _ -> _ =>
      destruct (indirect_loop exec n s0) as [s2|] eqn:Hl; [|discriminate];
      apply (keeps_indirect_loop exec n Hexec) in Hl
  end.
  intros H. injection H as <-.
  rewrite f_reader, f_trace by reflexivity.
  rewrite Hl, f_reader. apply f_trace. reflexivity.
Qed.

Section KeptDispatch.

Variable indirect : Z -> Z -> CP -> option CP.
Variable polls : nat.
Hypothesis indirect_keeps :
  forall ptr count s s', indirect ptr count s = Some s' -> f s' = f s.

Ltac keeps_handler :=
  apply keeps_lift;
  unfold ExecutePacketType3_ME_INIT, ExecutePacketType3_NOP,
    ExecutePacketType3_INTERRUPT, ExecutePacketType3_REG_RMW,
    ExecutePacketType3_REG_TO_MEM, ExecutePacketType3_MEM_WRITE,
    ExecutePacketType3_COND_WRITE, ExecutePacketType3_EVENT_WRITE,
    ExecutePacketType3_EVENT_WRITE_SHD, ExecutePacketType3_EVENT_WRITE_EXT,
    ExecutePacketType3_EVENT_WRITE_ZPD, ExecutePacketType3_DRAW_INDX,
    ExecutePacketType3_DRAW_INDX_2, ExecutePacketType3_SET_CONSTANT,
    ExecutePacketType3_SET_CONSTANT2, ExecutePacketType3_LOAD_ALU_CONSTANT,
    ExecutePacketType3_SET_SHADER_CONSTANTS, ExecutePacketType3_IM_LOAD,
    ExecutePacketType3_IM_LOAD_IMMEDIATE, ExecutePacketType3_INVALIDATE_STATE,
    ExecutePacketType3_VIZ_QUERY, HitUnimplementedOpcode,
    WriteALURangeFromRing, WriteFetchRangeFromRing, WriteBoolRangeFromRing,
    WriteLoopRangeFromRing, WriteREGISTERSRangeFromRing,
    WriteALURangeFromMem, WriteFetchRangeFromMem, WriteBoolRangeFromMem,
    WriteLoopRangeFromMem, WriteREGISTERSRangeFromMem, store_mem32;
  keeps_tac.

Lemma keeps_INDIRECT_BUFFER (packet count : Z) :
  keeps_opt f (ExecutePacketType3_INDIRECT_BUFFER E indirect packet count).
Proof.
  intros s r s' H. unfold ExecutePacketType3_INDIRECT_BUFFER in H.
  cbn in H.
  match type of H with
  | match indirect ?p ?c ?s0 with _ => _ end = _ =>
      destruct (indirect p c s0) as [s2|] eqn:Hi; [|discriminate H];
      apply indirect_keeps in Hi
  end.
  injection H as _ <-. rewrite Hi, !f_reader. reflexivity.
Qed.

Lemma keeps_WAIT_REG_MEM (packet count : Z) :
  keeps_opt f (ExecutePacketType3_WAIT_REG_MEM E polls packet count).
Proof.
  intros s r s' H. unfold ExecutePacketType3_WAIT_REG_MEM in H.
  cbn in H. apply keeps_wait_loop in H. rewrite H, !f_reader. reflexivity.
Qed.

Lemma keeps_type3_case (op : Type3Opcode) (packet count : Z) :
  op <> PM4_unimplemented ->
  keeps_opt f (type3_case E indirect polls op packet count).
Proof.
  intros Hop. destruct op; cbn [type3_case].
  - keeps_handler.
  - keeps_handler.
  - keeps_handler.
  - apply keeps_lift, f_swap.
  - apply keeps_INDIRECT_BUFFER.
  - apply keeps_INDIRECT_BUFFER.
  - apply keeps_WAIT_REG_MEM.
  - keeps_handler.
  - keeps_handler.
  - keeps_handler.
  - keeps_handler.
  - keeps_handler.
  - keeps_handler.
  - keeps_handler.
  - keeps_handler.
  - keeps_handler.
  - keeps_handler.
  - keeps_handler.
  - keeps_handler.
  - keeps_handler.
  - keeps_handler.
  - keeps_handler.
  - keeps_handler.
  - keeps_handler.
  - keeps_handler.
  - keeps_handler.
  - keeps_handler.
  - keeps_handler.
  - keeps_handler.
  - keeps_handler.
  - keeps_handler.
  - keeps_handler.
  - keeps_handler.
  - contradiction.
Qed.

Lemma keeps_trace_end_of_frame : keeps f (trace_end_of_frame E).
Proof.
  intros s. unfold trace_end_of_frame.
  destruct (trace_is_open s).
  - assert (H1 : keeps f (trace_write EventSwap ;;; trace_write TraceFlush))
      by keeps_tac.
    unfold bind at 1. unfold bind at 1.
    pose proof (keeps_trace_write EventSwap eq_refl s) as Ha.
    destruct (trace_write EventSwap s) as [u1 s1]. cbn [snd] in Ha.
    pose proof (keeps_trace_write TraceFlush eq_refl s1) as Hb.
    destruct (trace_write TraceFlush s1) as [u2 s2]. cbn [snd] in Hb.
    rewrite <- Ha, <- Hb.
    destruct (trace_state s2); try reflexivity.
    assert (H2 : keeps f (modify (set_trace_state kDisabled) ;;;
                          trace_write TraceClose ;;;
                          modify (set_trace_is_open false)))
      by keeps_tac.
    apply H2.
  - destruct (trace_state s); try reflexivity.
    assert (H2 : keeps f (trace_write (TraceOpen (title_id E)
                                         (u32 (counter s - 1))) ;;;
                          modify (set_trace_is_open true) ;;;
                          backend_call CallInitializeTrace))
      by keeps_tac.
    apply H2.
Qed.

Lemma keeps_packet_start (c : bool) (n1 n2 : Z) (s : CP) :
  exists ptr n,
    snd ((if c then WritePacketStart_here n1 else WritePacketStart_here n2) s)
    = set_trace (trace s ++ [PacketStart ptr n]) s.
Proof. destruct c; cbn; eauto. Qed.

Lemma keeps_ExecutePacketType3_in (packet : Z) :
  keeps_opt f (ExecutePacketType3_in E indirect polls packet).
Proof.
  intros s r s' H. unfold ExecutePacketType3_in in H.
  destruct (GetCurrentRingReadCount s >=? packet_count packet * 4);
    [|injection H as _ <-; reflexivity].
  destruct (keeps_packet_start
              (Type3Opcode_eqb (opcode_of E (type3_opcode packet))
                               PM4_INDIRECT_BUFFER)
              2 (1 + packet_count packet) s) as (ptr & n & Hs1).
  destruct ((if Type3Opcode_eqb (opcode_of E (type3_opcode packet))
                                PM4_INDIRECT_BUFFER
             then WritePacketStart_here 2
             else WritePacketStart_here (1 + packet_count packet)) s)
    as [u s1].
  cbn [snd] in Hs1.
  destruct (negb (Z.land packet 1 =? 0)
            && (negb (negb (Z.land (bin_select s1) (bin_mask s1) =? 0))
                || Type3Opcode_eqb (opcode_of E (type3_opcode packet))
                                   PM4_XE_SWAP)).
  { injection H as _ <-.
    set (s2 := set_reader
                 (rb_AdvanceRead (packet_count packet * 4) (reader s1)) s1).
    change (f (set_trace (trace s2 ++ [PacketEnd]) s2) = f s).
    apply (f_bracket ptr n). subst s2. rewrite f_reader, Hs1. reflexivity. }
  assert (Hcase :
    forall op res s2,
      op <> PM4_unimplemented ->
      type3_case E indirect polls op packet (packet_count packet) s1
        = Some (res, s2) ->
      f (set_trace (trace s2 ++ [PacketEnd]) s2) = f s).
  { intros op res s2 Hne Ht. apply keeps_type3_case in Ht; [|exact Hne].
    apply (f_bracket ptr n). rewrite Ht, Hs1. reflexivity. }
  destruct (opcode_of E (type3_opcode packet)) eqn:Hop;
    try (destruct (type3_case E indirect polls _ packet _ s1)
           as [[res s2]|] eqn:Ht; [|discriminate H];
         apply Hcase in Ht; [|discriminate];
         cbn [Type3Opcode_eqb] in H;
         rewrite ?andb_false_r, ?andb_true_r in H;
         cbn in H;
         first [ injection H as _ <-; exact Ht
               | destruct (trace_instrumentation E);
                 [ pose proof (keeps_trace_end_of_frame
                                 (set_trace (trace s2 ++ [PacketEnd]) s2)) as Hf;
                   destruct (trace_end_of_frame E _) as [u2 s3];
                   cbn [snd] in Hf;
                   injection H as _ <-; rewrite Hf; exact Ht
                 | injection H as _ <-; exact Ht ] ]).
  (* the opcode without handler writes its own packet end *)
  cbn [type3_case] in H. injection H as _ <-.
  set (s2 := set_reader
               (rb_AdvanceRead (packet_count packet * 4) (reader s1)) s1).
  change (f (set_trace (trace s2 ++ [PacketEnd]) s2) = f s).
  apply (f_bracket ptr n). subst s2. rewrite f_reader, Hs1. reflexivity.
Qed.

Lemma keeps_ExecutePacketType0 (packet : Z) :
  keeps f (ExecutePacketType0 E packet).
Proof.
  intros s. unfold ExecutePacketType0.
  destruct (GetCurrentRingReadCount s <? packet_count packet * 4);
    [reflexivity|].
  unfold bind at 1.
  set (s1 := set_trace
               (trace s ++ [PacketStart (u32 (read_ptr (reader s) - 4))
                                        (1 + packet_count packet)]) s).
  change (WritePacketStart_here (1 + packet_count packet) s) with (tt, s1).
  cbv iota. unfold bind at 1.
  assert (Hw : keeps f
                 (if Z.land (Z.shiftr packet 15) 1 =? 0
                  then WriteRegisterRangeFromRing E (Z.land packet 32767)
                                                  (packet_count packet)
                  else WriteOneRegisterFromRing E (Z.land packet 32767)
                                                (packet_count packet)))
    by keeps_tac.
  specialize (Hw s1).
  destruct ((if Z.land (Z.shiftr packet 15) 1 =? 0
             then WriteRegisterRangeFromRing E (Z.land packet 32767)
                                             (packet_count packet)
             else WriteOneRegisterFromRing E (Z.land packet 32767)
                                           (packet_count packet)) s1)
    as [u s2].
  cbn [snd] in Hw.
  change (f (set_trace (trace s2 ++ [PacketEnd]) s2) = f s).
  exact (f_bracket _ _ s s2 Hw).
Qed.

Lemma keeps_ExecutePacketType1 (packet : Z) :
  keeps f (ExecutePacketType1 E packet).
Proof.
  intros s. unfold ExecutePacketType1.
  unfold bind at 1.
  set (s1 := set_trace
               (trace s ++ [PacketStart (u32 (read_ptr (reader s) - 4)) 3]) s).
  change (WritePacketStart_here 3 s) with (tt, s1).
  cbv iota.
  assert (Hw : keeps f
                 (reg_data_1 <- ReadAndSwap ;;
                  reg_data_2 <- ReadAndSwap ;;
                  WriteRegister E (Z.land packet 2047) reg_data_1 ;;;
                  WriteRegister E (Z.land (Z.shiftr packet 11) 2047)
                                reg_data_2))
    by keeps_tac.
  specialize (Hw s1).
  pose proof (f_bracket _ _ s _ Hw) as Hb.
  unfold bind in Hb |- *. cbn in Hb |- *.
  destruct (side_effecting E (Z.land packet 2047)),
           (side_effecting E (Z.land (Z.shiftr packet 11) 2047));
    cbn in Hb |- *; exact Hb.
Qed.

Lemma keeps_handle_bad_packet : keeps f handle_bad_packet.
Proof.
  intros s. unfold handle_bad_packet.
  set (s1 := set_trace
               (trace s ++ [PacketStart (u32 (read_ptr (reader s) - 4)) 1]) s).
  change (f (set_trace (trace s1 ++ [PacketEnd]) s1) = f s).
  apply (f_bracket (u32 (read_ptr (reader s) - 4)) 1 s s1). reflexivity.
Qed.

Lemma keeps_ExecutePacket_in :
  keeps_opt f (ExecutePacket_in E indirect polls).
Proof.
  intros s r s' H. unfold ExecutePacket_in in H.
  pose proof (keeps_ReadAndSwap s) as Hr.
  destruct (ReadAndSwap s) as [packet s1]. cbn [snd] in Hr.
  rewrite <- Hr.
  destruct (negb (packet =? 0) && negb (packet =? 195948557)).
  - destruct (Z.shiftr packet 30 =? 3).
    + exact (keeps_ExecutePacketType3_in packet s1 r s' H).
    + destruct (Z.shiftr packet 30 =? 0).
      * exact (keeps_lift _ (keeps_ExecutePacketType0 packet) s1 r s' H).
      * destruct (Z.shiftr packet 30 =? 1).
        -- exact (keeps_lift _ (keeps_ExecutePacketType1 packet) s1 r s' H).
        -- exact (keeps_lift _ keeps_handle_bad_packet s1 r s' H).
  - exact (keeps_lift _ keeps_handle_bad_packet s1 r s' H).
Qed.

End KeptDispatch.

Lemma keeps_ExecutePacket (fuel : nat) : keeps_opt f (ExecutePacket E fuel).
Proof.
  induction fuel as [|fuel IH]; cbn [ExecutePacket];
    apply keeps_ExecutePacket_in.
  - discriminate.
  - intros ptr count s s'. apply keeps_ExecuteIndirectBuffer_in. exact IH.
Qed.

Lemma keeps_ExecuteIndirectBuffer (fuel : nat) (ptr count : Z) (s s' : CP) :
  ExecuteIndirectBuffer E fuel ptr count s = Some s' -> f s' = f s.
Proof.
  destruct fuel as [|fuel]; [discriminate|].
  apply keeps_ExecuteIndirectBuffer_in, keeps_ExecutePacket.
Qed.

End Kept.

Lemma packet_starts_app (t u : list TraceRecord) :
  packet_starts (t ++ u) = packet_starts t + packet_starts u.
Proof.
  unfold packet_starts. rewrite filter_app, length_app. lia.
Qed.

Lemma packet_ends_app (t u : list TraceRecord) :
  packet_ends (t ++ u) = packet_ends t + packet_ends u.
Proof.
  unfold packet_ends. rewrite filter_app, length_app. lia.
Qed.

Lemma swaps_issued_app (b c : list BackendCall) :
  swaps_issued (b ++ c) = swaps_issued b + swaps_issued c.
Proof.
  unfold swaps_issued. rewrite filter_app, length_app. lia.
Qed.

(** X3.  Every run of [ExecutePacket] that returns, whatever its result
    and however deep its indirect buffers nest, adds as many packet starts
    as packet ends to the trace. *)
Theorem packet_marks_balanced (E : Externals) (fuel : nat) (s : CP)
        (r : bool) (s' : CP) :
  ExecutePacket E fuel s = Some (r, s') ->
  packet_starts (trace s') - packet_starts (trace s)
  = packet_ends (trace s') - packet_ends (trace s).
Proof.
  intros H.
  assert (Hk : packet_starts (trace s') - packet_ends (trace s')
               = packet_starts (trace s) - packet_ends (trace s)).
  { apply (keeps_ExecutePacket E Z
             (fun s => packet_starts (trace s) - packet_ends (trace s)))
      with (fuel := fuel) (a := r); try exact H; try reflexivity.
    - intros rec s0 Hm. cbn.
      rewrite packet_starts_app, packet_ends_app.
      destruct rec; try discriminate Hm; cbn; lia.
    - intros packet count s0. reflexivity.
    - intros ptr n s1 s2. cbn.
      rewrite !packet_starts_app, !packet_ends_app. cbn. lia. }
  lia.
Qed.

(** X4.  Every run of [ExecutePacket] that returns moves the frame counter
    by the number of [IssueSwap] calls it made to the backend (modulo
    [2^32]): the counter counts the presented frames and nothing else. *)
Theorem frame_counter_counts_swaps (E : Externals) (fuel : nat) (s : CP)
        (r : bool) (s' : CP) :
  ExecutePacket E fuel s = Some (r, s') ->
  u32 (counter s' - counter s)
  = u32 (swaps_issued (backend s') - swaps_issued (backend s)).
Proof.
  intros H.
  assert (Hk : u32 (counter s' - swaps_issued (backend s'))
               = u32 (counter s - swaps_issued (backend s))).
  { apply (keeps_ExecutePacket E Z
             (fun s => u32 (counter s - swaps_issued (backend s))))
      with (fuel := fuel) (a := r); try exact H; try reflexivity.
    - intros c s0 Hm. cbn.
      rewrite swaps_issued_app.
      destruct c; try discriminate Hm; cbn; f_equal; lia.
    - intros packet count s0. cbn.
      rewrite swaps_issued_app. cbn. unfold u32.
      rewrite Zminus_mod_idemp_l. f_equal. lia.
    - intros ptr n s1 s2 Hb. exact Hb. }
  unfold u32 in *.
  replace (counter s' - counter s)
    with ((counter s' - swaps_issued (backend s'))
          - (counter s - swaps_issued (backend s))
          + (swaps_issued (backend s') - swaps_issued (backend s))) by lia.
  rewrite <- Zplus_mod_idemp_l, Zminus_mod, Hk, Z.sub_diag.
  reflexivity.
Qed.

(* ================================================================= *)
(** ** Type-0, Type-1 and Type-2 packets *)

Lemma payload_word_ext (n : nat) (s1 s2 : CP) :
  reader s1 = reader s2 -> mem s1 = mem s2 ->
  payload_word n s1 = payload_word n s2.
Proof.
  revert s1 s2. induction n as [|n IH]; intros s1 s2 Hr Hm; cbn.
  - now rewrite Hr, Hm.
  - apply IH; cbn; now rewrite ?Hr, ?Hm.
Qed.

(** X5.  A header of type 2 is a no-op: [ExecutePacket] returns [true],
    consumes the header word only, traces one packet start of size 1 and one
    packet end, and changes nothing else. *)
Theorem ExecutePacket_type2 (E : Externals) (fuel : nat) (s : CP) :
  Z.shiftr (payload_word 0 s) 30 = 2 ->
  exists s',
    ExecutePacket E fuel s = Some (true, s') /\
    reader s' = rb_AdvanceRead 4 (reader s) /\
    trace s' = trace s ++ [PacketStart (u32 (read_ptr (reader s') - 4)) 1;
                           PacketEnd] /\
    same_except_reader_trace s s'.
Proof.
  intros H. rewrite ExecutePacket_eq. unfold ExecutePacket_in.
  cbn in H. cbn. rewrite H. cbn.
  destruct (negb (load_and_swap32 (mem s) (read_ptr (reader s)) =? 0)
            && negb (load_and_swap32 (mem s) (read_ptr (reader s))
                     =? 195948557));
    (eexists; split; [reflexivity|]); cbn; rewrite <- app_assoc;
    unfold same_except_reader_trace; cbn; tauto.
Qed.

(** X6.  A Type-0 packet that declares more payload than the ring holds is
    refused: [ExecutePacketType0] returns [false] and the state, registers
    and trace included, is as before. *)
Theorem ExecutePacketType0_overflow (E : Externals) (packet : Z) (s : CP) :
  GetCurrentRingReadCount s < 4 * packet_count packet ->
  ExecutePacketType0 E packet s = (false, s).
Proof.
  intros H. unfold ExecutePacketType0.
  replace (GetCurrentRingReadCount s <? packet_count packet * 4) with true
    by (symmetry; apply Z.ltb_lt; lia).
  reflexivity.
Qed.

Lemma bind_snd {A B} (m : M A) (k : A -> M B) (s : CP) :
  snd (bind m k s) = snd (k (fst (m s)) (snd (m s))).
Proof. unfold bind. destruct (m s). reflexivity. Qed.

Lemma bind_fst {A B} (m : M A) (k : A -> M B) (s : CP) :
  fst (bind m k s) = fst (k (fst (m s)) (snd (m s))).
Proof. unfold bind. destruct (m s). reflexivity. Qed.

Section RangeWrites.

Variable E : Externals.

Lemma WriteRegister_regs (index value : Z) (s : CP) :
  regs (snd (WriteRegister E index value s)) = upd (regs s) index value
  /\ reader (snd (WriteRegister E index value s)) = reader s
  /\ mem (snd (WriteRegister E index value s)) = mem s.
Proof.
  unfold WriteRegister, bind. cbn.
  destruct (side_effecting E index); cbn; auto.
Qed.

Lemma range_loop_regs (base : Z) (k : nat) :
  forall (i : Z) (s : CP),
    let s' := snd (for_loop k i
                     (fun j => v <- ReadAndSwap ;;
                               WriteRegister E (base + j) v) s) in
    mem s' = mem s /\
    forall x,
      regs s' x
      = if (base + i <=? x) && (x <? base + i + Z.of_nat k)
        then payload_word (Z.to_nat (x - base - i)) s
        else regs s x.
Proof.
  induction k as [|k IH]; intros i s; cbn zeta.
  - split; [reflexivity|]. intros x. cbn [for_loop ret snd].
    destruct (base + i <=? x) eqn:H1, (x <? base + i + Z.of_nat 0) eqn:H2;
      try reflexivity.
    apply Z.leb_le in H1. apply Z.ltb_lt in H2. lia.
  - cbn [for_loop]. rewrite bind_snd.
    set (s1 := snd ((v <- ReadAndSwap ;; WriteRegister E (base + i) v) s)).
    destruct (WriteRegister_regs (base + i)
                (load_and_swap32 (mem s) (read_ptr (reader s)))
                (set_reader (rb_AdvanceRead 4 (reader s)) s))
      as (Hregs & Hrd & Hmem).
    change (snd (WriteRegister E (base + i)
                   (load_and_swap32 (mem s) (read_ptr (reader s)))
                   (set_reader (rb_AdvanceRead 4 (reader s)) s)))
      with s1 in Hregs, Hrd, Hmem.
    cbn in Hregs, Hrd, Hmem.
    destruct (IH (i + 1) s1) as (IHm & IHr).
    split; [rewrite IHm; exact Hmem|].
    intros x. rewrite IHr, Hregs. unfold upd.
    destruct (Z.eq_dec x (base + i)) as [->|Hne].
    + replace (base + (i + 1) <=? base + i) with false
        by (symmetry; apply Z.leb_gt; lia).
      rewrite Z.eqb_refl. cbn [andb].
      replace (base + i <=? base + i) with true
        by (symmetry; apply Z.leb_le; lia).
      replace (base + i <? base + i + Z.of_nat (S k)) with true
        by (symmetry; apply Z.ltb_lt; lia).
      cbn [andb]. replace (base + i - base - i) with 0 by lia. reflexivity.
    + apply Z.eqb_neq in Hne. rewrite Hne.
      destruct (base + (i + 1) <=? x) eqn:H1.
      * apply Z.leb_le in H1.
        replace (base + i <=? x) with true by (symmetry; apply Z.leb_le; lia).
        replace (x <? base + i + Z.of_nat (S k))
          with (x <? base + (i + 1) + Z.of_nat k)
          by (f_equal; lia).
        cbn [andb].
        destruct (x <? base + (i + 1) + Z.of_nat k); [|reflexivity].
        replace (Z.to_nat (x - base - i))
          with (S (Z.to_nat (x - base - (i + 1)))) by lia.
        cbn [payload_word].
        apply payload_word_ext; cbn; [exact Hrd|exact Hmem].
      * apply Z.leb_gt in H1. cbn [andb].
        apply Z.eqb_neq in Hne.
        destruct (base + i <=? x) eqn:H2; [|reflexivity].
        apply Z.leb_le in H2. lia.
Qed.

Lemma one_loop_regs (base : Z) (k : nat) :
  forall (i : Z) (s : CP),
    let s' := snd (for_loop k i
                     (fun _ => v <- ReadAndSwap ;;
                               WriteRegister E base v) s) in
    mem s' = mem s /\
    forall x,
      regs s' x
      = if (x =? base) && negb (Nat.eqb k 0)
        then payload_word (k - 1) s
        else regs s x.
Proof.
  induction k as [|k IH]; intros i s; cbn zeta.
  - split; [reflexivity|]. intros x. cbn [for_loop ret snd Nat.eqb negb].
    now rewrite andb_false_r.
  - cbn [for_loop]. rewrite bind_snd.
    set (s1 := snd ((v <- ReadAndSwap ;; WriteRegister E base v) s)).
    destruct (WriteRegister_regs base
                (load_and_swap32 (mem s) (read_ptr (reader s)))
                (set_reader (rb_AdvanceRead 4 (reader s)) s))
      as (Hregs & Hrd & Hmem).
    change (snd (WriteRegister E base
                   (load_and_swap32 (mem s) (read_ptr (reader s)))
                   (set_reader (rb_AdvanceRead 4 (reader s)) s)))
      with s1 in Hregs, Hrd, Hmem.
    cbn in Hregs, Hrd, Hmem.
    destruct (IH (i + 1) s1) as (IHm & IHr).
    split; [rewrite IHm; exact Hmem|].
    intros x. rewrite IHr, Hregs. unfold upd. cbn [Nat.eqb negb].
    rewrite andb_true_r.
    destruct (x =? base) eqn:Hx; cbn [andb]; [|reflexivity].
    destruct k as [|k]; cbn [Nat.eqb negb].
    + reflexivity.
    + replace (S (S k) - 1)%nat with (S (S k - 1)) by lia.
      cbn [payload_word].
      apply payload_word_ext; cbn; [exact Hrd|exact Hmem].
Qed.

End RangeWrites.

(** X7.  A Type-0 packet in range mode (bit 15 clear) with its payload in
    the ring returns [true] and stores payload word [i] in register
    [base + i], for every [i] below the declared count; registers outside
    the range keep their value. *)
Theorem ExecutePacketType0_range (E : Externals) (packet : Z) (s : CP) :
  Z.land (Z.shiftr packet 15) 1 = 0 ->
  4 * packet_count packet <= GetCurrentRingReadCount s ->
  let base := Z.land packet 0x7FFF in
  let s' := snd (ExecutePacketType0 E packet s) in
  fst (ExecutePacketType0 E packet s) = true /\
  (forall i, 0 <= i < packet_count packet ->
             regs s' (base + i) = payload_word (Z.to_nat i) s) /\
  (forall x, ~ (base <= x < base + packet_count packet) ->
             regs s' x = regs s x).
Proof.
  intros Hmode Hroom base s'. subst s'.
  pose proof (packet_count_range packet) as Hc.
  unfold ExecutePacketType0.
  replace (GetCurrentRingReadCount s <? packet_count packet * 4) with false
    by (symmetry; apply Z.ltb_ge; lia).
  rewrite Hmode. cbn [Z.eqb].
  rewrite !bind_fst, !bind_snd. cbn [ret fst snd].
  set (s1 := snd (WritePacketStart_here (1 + packet_count packet) s)).
  unfold WriteRegisterRangeFromRing.
  destruct (range_loop_regs E (Z.land packet 32767)
              (Z.to_nat (packet_count packet)) 0 s1) as (Hm & Hr).
  set (s2 := snd (for_loop (Z.to_nat (packet_count packet)) 0 _ s1)) in *.
  change (regs (snd (trace_write PacketEnd s2))) with (regs s2).
  split; [reflexivity|]. fold base in Hr. split.
  - intros i Hi. rewrite Hr.
    replace (base + 0 <=? base + i) with true
      by (symmetry; apply Z.leb_le; lia).
    replace (base + i <? base + 0 + Z.of_nat (Z.to_nat (packet_count packet)))
      with true by (symmetry; apply Z.ltb_lt; lia).
    cbn [andb]. replace (base + i - base - 0) with i by lia.
    apply payload_word_ext; reflexivity.
  - intros x Hx. rewrite Hr.
    destruct (base + 0 <=? x) eqn:H1; [|reflexivity].
    destruct (x <? base + 0 + Z.of_nat (Z.to_nat (packet_count packet)))
      eqn:H2; [|reflexivity].
    apply Z.leb_le in H1. apply Z.ltb_lt in H2. lia.
Qed.

(** X8.  A Type-0 packet in write-one mode (bit 15 set) with its payload in
    the ring returns [true] and leaves the last payload word in the single
    register [base]; no other register changes. *)
Theorem ExecutePacketType0_write_one (E : Externals) (packet : Z) (s : CP) :
  Z.land (Z.shiftr packet 15) 1 = 1 ->
  4 * packet_count packet <= GetCurrentRingReadCount s ->
  let base := Z.land packet 0x7FFF in
  let s' := snd (ExecutePacketType0 E packet s) in
  fst (ExecutePacketType0 E packet s) = true /\
  regs s' base = payload_word (Z.to_nat (packet_count packet - 1)) s /\
  (forall x, x <> base -> regs s' x = regs s x).
Proof.
  intros Hmode Hroom base s'. subst s'.
  pose proof (packet_count_range packet) as Hc.
  unfold ExecutePacketType0.
  replace (GetCurrentRingReadCount s <? packet_count packet * 4) with false
    by (symmetry; apply Z.ltb_ge; lia).
  rewrite Hmode. cbn [Z.eqb].
  rewrite !bind_fst, !bind_snd. cbn [ret fst snd].
  set (s1 := snd (WritePacketStart_here (1 + packet_count packet) s)).
  unfold WriteOneRegisterFromRing.
  destruct (one_loop_regs E (Z.land packet 32767)
              (Z.to_nat (packet_count packet)) 0 s1) as (Hm & Hr).
  set (s2 := snd (for_loop (Z.to_nat (packet_count packet)) 0 _ s1)) in *.
  change (regs (snd (trace_write PacketEnd s2))) with (regs s2).
  split; [reflexivity|]. fold base in Hr. split.
  - rewrite Hr, Z.eqb_refl.
    replace (Nat.eqb (Z.to_nat (packet_count packet)) 0) with false
      by (symmetry; apply Nat.eqb_neq; lia).
    cbn [andb negb].
    replace (Z.to_nat (packet_count packet) - 1)%nat
      with (Z.to_nat (packet_count packet - 1)) by lia.
    apply payload_word_ext; reflexivity.
  - intros x Hx. rewrite Hr. apply Z.eqb_neq in Hx. now rewrite Hx.
Qed.

(** X9.  A Type-1 packet returns [true], consumes two payload words without
    checking that the ring holds them, writes the second word to the
    register named by bits 11..21 and the first to the register named by
    bits 0..10; when both fields name one register the second word wins.
    No other register changes. *)
Theorem ExecutePacketType1_writes (E : Externals) (packet : Z) (s : CP) :
  let i1 := Z.land packet 0x7FF in
  let i2 := Z.land (Z.shiftr packet 11) 0x7FF in
  let s' := snd (ExecutePacketType1 E packet s) in
  fst (ExecutePacketType1 E packet s) = true /\
  reader s' = rb_AdvanceRead 8 (reader s) /\
  regs s' i2 = payload_word 1 s /\
  (i1 <> i2 -> regs s' i1 = payload_word 0 s) /\
  (forall x, x <> i1 -> x <> i2 -> regs s' x = regs s x).
Proof.
  cbv zeta. unfold ExecutePacketType1, WriteRegister. cbn.
  destruct (side_effecting E (Z.land packet 2047)),
           (side_effecting E (Z.land (Z.shiftr packet 11) 2047)); cbn;
    (split; [reflexivity|]);
    (split; [apply rb_AdvanceRead_add|]);
    unfold upd;
    (split; [now rewrite Z.eqb_refl|]);
    (split;
     [ intros Hne; apply Z.eqb_neq in Hne; now rewrite Hne, Z.eqb_refl
     | intros x H1 H2; apply Z.eqb_neq in H1, H2; now rewrite H1, H2 ]).
Qed.

(* ================================================================= *)
(** ** More on the Type-3 dispatcher *)

(** X10.  A dispatched Type-3 packet whose opcode has no handler returns
    [false] after skipping the declared payload; the trace gets the packet
    start and the packet end, and nothing else changes. *)
Theorem type3_unimplemented_opcode (E : Externals) (fuel : nat) (packet : Z)
        (s : CP) :
  opcode_of E (type3_opcode packet) = PM4_unimplemented ->
  type3_dispatches E packet s = true ->
  exists s',
    ExecutePacketType3 E fuel packet s = Some (false, s') /\
    reader s' = rb_AdvanceRead (4 * packet_count packet) (reader s) /\
    trace s' = trace s ++ [PacketStart (u32 (read_ptr (reader s) - 4))
                                       (1 + packet_count packet);
                           PacketEnd] /\
    same_except_reader_trace s s'.
Proof.
  intros Hop Hd. unfold type3_dispatches in Hd.
  apply andb_true_iff in Hd as [Hr Hp]. apply negb_true_iff in Hp.
  unfold ExecutePacketType3, ExecutePacketType3_in.
  rewrite Hr, Hop in *. cbn in Hp |- *. rewrite Hp. cbn.
  eexists. split; [reflexivity|]. cbn.
  rewrite <- app_assoc, (Z.mul_comm 4).
  unfold same_except_reader_trace. cbn. tauto.
Qed.

Lemma type3_case_packet_irrelevant (E : Externals)
      (indirect : Z -> Z -> CP -> option CP) (polls : nat)
      (op : Type3Opcode) (p p' count : Z) :
  type3_case E indirect polls op p count
  = type3_case E indirect polls op p' count.
Proof. destruct op; reflexivity. Qed.

(** X11.  The predicate bit changes nothing when some selected bin passes,
    except for [XE_SWAP]: with [(bin_select & bin_mask) <> 0], two headers
    that differ in bit 0 only are executed alike. *)
Theorem predicate_bit_ignored_when_bin_passes (E : Externals) (fuel : nat)
        (p p' : Z) (s : CP) :
  Z.shiftr p 1 = Z.shiftr p' 1 ->
  Z.land (bin_select s) (bin_mask s) <> 0 ->
  opcode_of E (type3_opcode p) <> PM4_XE_SWAP ->
  ExecutePacketType3 E fuel p s = ExecutePacketType3 E fuel p' s.
Proof.
  intros Hsh Hbin Hop.
  assert (H8 : Z.shiftr p 8 = Z.shiftr p' 8).
  { change 8 with (1 + 7).
    rewrite <- !Z.shiftr_shiftr by lia. now rewrite Hsh. }
  assert (H16 : Z.shiftr p 16 = Z.shiftr p' 16).
  { change 16 with (1 + 15).
    rewrite <- !Z.shiftr_shiftr by lia. now rewrite Hsh. }
  assert (Hopc : type3_opcode p = type3_opcode p')
    by (unfold type3_opcode; now rewrite H8).
  assert (Hcnt : packet_count p = packet_count p')
    by (unfold packet_count; now rewrite H16).
  unfold ExecutePacketType3, ExecutePacketType3_in.
  rewrite <- Hopc, <- Hcnt.
  destruct (GetCurrentRingReadCount s >=? packet_count p * 4);
    [|reflexivity].
  assert (Hx : Type3Opcode_eqb (opcode_of E (type3_opcode p)) PM4_XE_SWAP
               = false)
    by (destruct (opcode_of E (type3_opcode p)); try reflexivity;
        contradiction).
  apply Z.eqb_neq in Hbin.
  destruct (packet_start_frame
              (Type3Opcode_eqb (opcode_of E (type3_opcode p))
                               PM4_INDIRECT_BUFFER)
              2 (1 + packet_count p) s) as (_ & Hbs & Hbm).
  destruct ((if Type3Opcode_eqb (opcode_of E (type3_opcode p))
                                PM4_INDIRECT_BUFFER
             then WritePacketStart_here 2
             else WritePacketStart_here (1 + packet_count p)) s)
    as [u s1].
  cbn [snd] in Hbs, Hbm. rewrite Hbs, Hbm, Hbin, Hx. cbn [negb orb].
  rewrite !andb_false_r.
  destruct (opcode_of E (type3_opcode p));
    rewrite (type3_case_packet_irrelevant E _ _ _ p p'); reflexivity.
Qed.

(* ================================================================= *)
(** ** Single handlers *)

(** X12.  [INTERRUPT] returns [true] and calls the interrupt callback once
    for every bit set among bits 0..5 of its payload word, in ascending
    order, with source 1 and the bit number as the processor; higher bits
    are ignored. *)
Theorem INTERRUPT_dispatches_set_bits (packet count : Z) (s : CP) :
  let cpu_mask := payload_word 0 s in
  let r := ExecutePacketType3_INTERRUPT packet count s in
  fst r = true /\
  backend (snd r)
  = backend s
    ++ map (CallDispatchInterrupt 1)
           (filter (fun n => negb (Z.land cpu_mask (Z.shiftl 1 n) =? 0))
                   [0; 1; 2; 3; 4; 5]).
Proof.
  cbv zeta. unfold ExecutePacketType3_INTERRUPT. cbn.
  set (w := load_and_swap32 (mem s) (read_ptr (reader s))).
  destruct (Z.land w 1 =? 0), (Z.land w 2 =? 0), (Z.land w 4 =? 0),
           (Z.land w 8 =? 0), (Z.land w 16 =? 0), (Z.land w 32 =? 0);
    cbn; rewrite <- ?app_assoc; cbn; rewrite ?app_nil_r;
    split; reflexivity.
Qed.

Lemma read_words_spec (n : nat) (s : CP) :
  fst (read_words n s) = map (fun i => payload_word i s) (seq 0 n).
Proof.
  revert s. induction n as [|n IH]; intros s; [reflexivity|].
  cbn [read_words]. rewrite bind_fst, bind_fst. cbn [ret fst seq map].
  f_equal. rewrite IH, <- seq_shift, map_map. reflexivity.
Qed.

(** X13.  [ME_INIT] returns [true] and keeps exactly the declared payload
    as the micro-engine binary: [count] words, in ring order. *)
Theorem ME_INIT_keeps_payload (packet count : Z) (s : CP) :
  let r := ExecutePacketType3_ME_INIT packet count s in
  fst r = true /\
  me_bin (snd r)
  = map (fun i => payload_word i s) (seq 0 (Z.to_nat count)) /\
  length (me_bin (snd r)) = Z.to_nat count.
Proof.
  cbv zeta. unfold ExecutePacketType3_ME_INIT.
  rewrite !bind_fst, !bind_snd. cbn [modify ret fst snd].
  replace (me_bin (set_me_bin _ _))
    with (fst (read_words (Z.to_nat count) s)) by reflexivity.
  rewrite read_words_spec, length_map, length_seq. auto.
Qed.

Lemma testbit_one (k : Z) : Z.testbit 1 k = (k =? 0).
Proof. destruct k as [|k|k]; try reflexivity. Qed.

(** X14.  [VIZ_QUERY] with the end flag (bit 8) set marks query [id] as
    visible: it sets bit [id] of [PA_SC_VIZ_QUERY_STATUS_0] for an id below
    32, bit [id - 32] of [PA_SC_VIZ_QUERY_STATUS_1] otherwise, and changes
    no other bit of either status register. *)
Theorem VIZ_QUERY_end_sets_bit (E : Externals) (packet count : Z) (s : CP) :
  let dword0 := payload_word 0 s in
  let id := Z.land dword0 0x3F in
  let s' := snd (ExecutePacketType3_VIZ_QUERY E packet count s) in
  let st0 := XE_GPU_REG_PA_SC_VIZ_QUERY_STATUS_0 E in
  let st1 := XE_GPU_REG_PA_SC_VIZ_QUERY_STATUS_1 E in
  Z.land dword0 0x100 <> 0 ->
  st0 <> XE_GPU_REG_VGT_EVENT_INITIATOR E ->
  st1 <> XE_GPU_REG_VGT_EVENT_INITIATOR E ->
  st0 <> st1 ->
  forall j, 0 <= j ->
    Z.testbit (regs s' st0) j
    = (Z.testbit (regs s st0) j || ((id <? 32) && (j =? id))) /\
    Z.testbit (regs s' st1) j
    = (Z.testbit (regs s st1) j || (negb (id <? 32) && (j =? id - 32))).
Proof.
  cbv zeta. intros Hend H0 H1 H01 j Hj.
  change (payload_word 0 s)
    with (load_and_swap32 (mem s) (read_ptr (reader s))) in *.
  unfold ExecutePacketType3_VIZ_QUERY, WriteEventInitiator, set_reg_direct.
  cbn.
  set (w := load_and_swap32 (mem s) (read_ptr (reader s))) in *.
  apply Z.eqb_neq in Hend. rewrite Hend. cbn.
  assert (Hid : 0 <= Z.land w 63 < 64).
  { assert (Hm : Z.land w 63 = w mod 64)
      by (change 63 with (Z.ones 6); rewrite Z.land_ones by lia;
          reflexivity).
    rewrite Hm. apply Z.mod_pos_bound. lia. }
  apply Z.eqb_neq in H0, H1. pose proof H01 as H10.
  apply Z.eqb_neq in H01. apply not_eq_sym in H10. apply Z.eqb_neq in H10.
  destruct (Z.land w 63 <? 32) eqn:Hlt; cbn; unfold upd;
    rewrite ?Z.eqb_refl, ?H0, ?H1, ?H01, ?H10; cbn [andb negb].
  - rewrite Z.lor_spec, Z.shiftl_spec, testbit_one, orb_false_r by lia.
    split; [|reflexivity]. f_equal.
    destruct (j =? Z.land w 63) eqn:Hj1.
    + apply Z.eqb_eq in Hj1. apply Z.eqb_eq. lia.
    + apply Z.eqb_neq in Hj1. apply Z.eqb_neq. lia.
  - apply Z.ltb_ge in Hlt.
    rewrite Z.lor_spec, Z.shiftl_spec, testbit_one, orb_false_r by lia.
    split; [reflexivity|]. f_equal.
    destruct (j =? Z.land w 63 - 32) eqn:Hj1.
    + apply Z.eqb_eq in Hj1. apply Z.eqb_eq. lia.
    + apply Z.eqb_neq in Hj1. apply Z.eqb_neq. lia.
Qed.

(** X15.  [COND_WRITE] returns [true] and writes exactly when its
    comparison holds: when it fails, registers, memory and backend are as
    before; when it holds, the data word goes to the register named by the
    fifth payload word if bit 8 of the first is clear, and to guest memory
    otherwise. *)
Theorem COND_WRITE_writes_iff_matched (E : Externals) (packet count : Z)
        (s : CP) :
  let wait_info := payload_word 0 s in
  let write_reg_addr := payload_word 4 s in
  let write_data := payload_word 5 s in
  let r := ExecutePacketType3_COND_WRITE E packet count s in
  fst r = true /\
  (cond_write_matched E s = false ->
   regs (snd r) = regs s /\ mem (snd r) = mem s
   /\ backend (snd r) = backend s) /\
  (cond_write_matched E s = true -> Z.land wait_info 0x100 = 0 ->
   regs (snd r) = upd (regs s) write_reg_addr write_data
   /\ mem (snd r) = mem s) /\
  (cond_write_matched E s = true -> Z.land wait_info 0x100 <> 0 ->
   regs (snd r) = regs s /\
   mem (snd r)
   = store32 (mem s) (TranslatePhysical E (clear_low2 write_reg_addr))
             (GpuSwap E write_data (Z.land write_reg_addr 0x3))
   /\ backend (snd r) = backend s).
Proof.
  cbv zeta. unfold cond_write_matched, cond_write_polled.
  unfold ExecutePacketType3_COND_WRITE.
  cbn [payload_word].
  rewrite !bind_fst, !bind_snd.
  set (w0 := fst (ReadAndSwap s)). set (s1 := snd (ReadAndSwap s)).
  set (w1 := fst (ReadAndSwap s1)). set (s2 := snd (ReadAndSwap s1)).
  set (w2 := fst (ReadAndSwap s2)). set (s3 := snd (ReadAndSwap s2)).
  set (w3 := fst (ReadAndSwap s3)). set (s4 := snd (ReadAndSwap s3)).
  set (w4 := fst (ReadAndSwap s4)). set (s5 := snd (ReadAndSwap s4)).
  set (w5 := fst (ReadAndSwap s5)). set (s6 := snd (ReadAndSwap s5)).
  assert (Hm : mem s6 = mem s) by reflexivity.
  assert (Hr : regs s6 = regs s) by reflexivity.
  assert (Hb : backend s6 = backend s) by reflexivity.
  clearbody s6 w5 w4 w3 w2 w1 w0. clear s5 s4 s3 s2 s1.
  rewrite <- Hm, <- Hr, <- Hb. clear Hm Hr Hb.
  unfold WriteRegister, store_mem32, set_reg_direct, clear_low2,
    bind, gets, modify, ret, trace_write.
  destruct (negb (Z.land w0 16 =? 0)); cbn;
    match goal with
    | |- context [MatchValueAndRef ?a ?b ?c] =>
        destruct (MatchValueAndRef a b c)
    end;
    destruct (negb (Z.land w0 256 =? 0)) eqn:H8;
    try destruct (side_effecting E w4);
    cbn;
    repeat match goal with
           | |- _ /\ _ => split
           | |- _ -> _ => intro
           end;
    try reflexivity; try discriminate;
    try (apply negb_true_iff, Z.eqb_neq in H8; contradiction);
    try (apply negb_false_iff, Z.eqb_eq in H8; contradiction).
Qed.

(** X16.  A [WAIT_REG_MEM] on a register whose condition already holds
    returns [true] at the first poll: it consumes its five payload words
    and neither yields nor calls the backend. *)
Theorem WAIT_REG_MEM_already_matched (E : Externals) (n : nat)
        (packet count : Z) (s : CP) :
  let wait_info := payload_word 0 s in
  let poll_reg_addr := payload_word 1 s in
  Z.land wait_info 0x10 = 0 ->
  poll_reg_addr <> XE_GPU_REG_COHER_STATUS_HOST E ->
  MatchValueAndRef (Z.land (regs s poll_reg_addr) (payload_word 3 s))
                   (payload_word 2 s) wait_info = true ->
  ExecutePacketType3_WAIT_REG_MEM E (S n) packet count s
  = Some (true, set_reader (rb_AdvanceRead 20 (reader s)) s).
Proof.
  cbv zeta. intros Hreg Hco Hm. cbn in Hreg, Hco, Hm.
  unfold ExecutePacketType3_WAIT_REG_MEM. cbn.
  unfold wait_poll_value. rewrite Hreg. cbn.
  apply Z.eqb_neq in Hco. rewrite Hco. cbn. rewrite Hm.
  rewrite !rb_AdvanceRead_add. reflexivity.
Qed.

(** X17.  A [WAIT_REG_MEM] on a register whose condition does not hold,
    with a wait of at least [0x100], gives up when the worker has been
    stopped during the wait: it returns [false] after one poll, having
    bracketed the wait with [PrepareForWait] and [ReturnFromWait]. *)
Theorem WAIT_REG_MEM_cancelled (E : Externals) (n : nat)
        (packet count : Z) (s : CP) :
  let wait_info := payload_word 0 s in
  let poll_reg_addr := payload_word 1 s in
  Z.land wait_info 0x10 = 0 ->
  poll_reg_addr <> XE_GPU_REG_COHER_STATUS_HOST E ->
  MatchValueAndRef (Z.land (regs s poll_reg_addr) (payload_word 3 s))
                   (payload_word 2 s) wait_info = false ->
  0x100 <= payload_word 4 s ->
  yield_worker_running E (worker_running s) = false ->
  exists s',
    ExecutePacketType3_WAIT_REG_MEM E (S n) packet count s
      = Some (false, s') /\
    reader s' = rb_AdvanceRead 20 (reader s) /\
    backend s' = backend s ++ [CallPrepareForWait; CallReturnFromWait].
Proof.
  cbv zeta. intros Hreg Hco Hm Hw Hstop. cbn in Hreg, Hco, Hm, Hw.
  unfold ExecutePacketType3_WAIT_REG_MEM. cbn.
  unfold wait_poll_value. rewrite Hreg. cbn.
  apply Z.eqb_neq in Hco. rewrite Hco. cbn. rewrite Hm.
  match goal with
  | |- context [?w >=? 256] =>
      replace (w >=? 256) with true
        by (symmetry; rewrite Z.geb_leb; apply Z.leb_le; exact Hw)
  end.
  destruct (vsync E); cbn; rewrite Hstop; cbn;
    (eexists; split; [reflexivity|]); cbn;
    rewrite !rb_AdvanceRead_add, <- app_assoc; split; reflexivity.
Qed.

(** X18.  A draw whose index source is not DMA ([DRAW_INDX_2]) returns
    [true] and consumes the whole packet; it calls [IssueDraw], once and
    without index buffer, exactly when the source is auto-index and the viz
    query does not cull the draw; immediate and invalid sources draw
    nothing. *)
Theorem DRAW_INDX_2_without_index_buffer (E : Externals) (packet count : Z)
        (s : CP) :
  let v := payload_word 0 s in
  let vq := regs s (XE_GPU_REG_PA_SC_VIZ_QUERY E) in
  let r := ExecutePacketType3_DRAW_INDX_2 E packet count s in
  1 <= count ->
  draw_source_select E v <> kDMA ->
  XE_GPU_REG_PA_SC_VIZ_QUERY E <> XE_GPU_REG_VGT_DRAW_INITIATOR E ->
  fst r = true /\
  reader (snd r) = rb_AdvanceRead (4 * count) (reader s) /\
  backend (snd r)
  = backend s
    ++ match draw_source_select E v with
       | kAutoIndex =>
           if viz_query_ena E vq && kill_pix_post_hi_z E vq then []
           else [CallIssueDraw (draw_prim_type E v) (draw_num_indices E v)
                   None
                   (IsMajorModeExplicit E (draw_major_mode E v)
                                          (draw_prim_type E v))]
       | _ => []
       end.
Proof.
  cbv zeta. intros Hc Hsrc Hreg. cbn in Hsrc.
  unfold ExecutePacketType3_DRAW_INDX_2, ExecutePacketType3Draw.
  replace (count =? 0) with false by (symmetry; apply Z.eqb_neq; lia).
  unfold draw_tail, set_reg_direct. cbn.
  set (w := load_and_swap32 (mem s) (read_ptr (reader s))) in *.
  assert (Hvq : upd (regs s) (XE_GPU_REG_VGT_DRAW_INITIATOR E) w
                    (XE_GPU_REG_PA_SC_VIZ_QUERY E)
                = regs s (XE_GPU_REG_PA_SC_VIZ_QUERY E)).
  { unfold upd. apply Z.eqb_neq in Hreg. now rewrite Hreg. }
  assert (Hadv : rb_AdvanceRead ((count - 1) * 4)
                    (rb_AdvanceRead 4 (reader s))
                  = rb_AdvanceRead (4 * count) (reader s)).
  { rewrite rb_AdvanceRead_add. f_equal. lia. }
  destruct (draw_source_select E w); try contradiction;
    unfold bind, gets, ret, backend_call, modify; cbn;
    rewrite ?Hvq;
    try destruct (viz_query_ena E _ && kill_pix_post_hi_z E _); cbn;
    rewrite ?app_nil_r, Hadv; repeat split; reflexivity.
Qed.

(** X19.  An indexed (DMA) draw whose packet is too short to hold the
    index buffer base and size is refused: [DRAW_INDX_2] with fewer than
    three words returns [false] and calls nothing in the backend. *)
Theorem DRAW_INDX_2_dma_too_small (E : Externals) (packet count : Z)
        (s : CP) :
  let r := ExecutePacketType3_DRAW_INDX_2 E packet count s in
  draw_source_select E (payload_word 0 s) = kDMA ->
  0 <= count < 3 ->
  fst r = false /\ backend (snd r) = backend s.
Proof.
  cbv zeta. intros Hsrc Hc. cbn in Hsrc.
  unfold ExecutePacketType3_DRAW_INDX_2, ExecutePacketType3Draw.
  destruct (count =? 0) eqn:H0; [split; reflexivity|].
  apply Z.eqb_neq in H0.
  unfold set_reg_direct. cbn. rewrite Hsrc.
  destruct (count - 1 =? 0) eqn:H1; [split; reflexivity|].
  apply Z.eqb_neq in H1. cbn.
  replace (count - 1 - 1 =? 0) with true
    by (symmetry; apply Z.eqb_eq; lia).
  split; reflexivity.
Qed.

(** X20.  [IM_LOAD_IMMEDIATE] with a shader type that is neither vertex
    nor pixel returns [false] having read its two header words only: the
    embedded shader words are not skipped, the active shaders stay, and
    the shader loader has been called all the same. *)
Theorem IM_LOAD_IMMEDIATE_unknown_type (E : Externals) (packet count : Z)
        (s : CP) :
  let r := ExecutePacketType3_IM_LOAD_IMMEDIATE E packet count s in
  let here := read_ptr (rb_AdvanceRead 8 (reader s)) in
  let size_dwords := Z.land (payload_word 1 s) 0xFFFF in
  shader_type_of E (payload_word 0 s) = kShaderOther ->
  fst r = false /\
  reader (snd r) = rb_AdvanceRead 8 (reader s) /\
  active_vertex_shader (snd r) = active_vertex_shader s /\
  active_pixel_shader (snd r) = active_pixel_shader s /\
  backend (snd r)
  = backend s ++ [CallLoadShader (payload_word 0 s) (u32 here) here
                                 size_dwords].
Proof.
  cbv zeta. intros Hty. cbn in Hty.
  unfold ExecutePacketType3_IM_LOAD_IMMEDIATE, LoadShader. cbn.
  rewrite Hty. cbn. rewrite !rb_AdvanceRead_add. cbn.
  repeat split; reflexivity.
Qed.

(** X21.  [LOAD_ALU_CONSTANT] with a type field above 4 returns [true]
    after reading its three payload words and does nothing else: no
    register is written and no memory read is traced. *)
Theorem LOAD_ALU_CONSTANT_unknown_type (E : Externals) (packet count : Z)
        (s : CP) :
  4 < Z.land (Z.shiftr (payload_word 1 s) 16) 0xFF ->
  ExecutePacketType3_LOAD_ALU_CONSTANT E packet count s
  = (true, set_reader (rb_AdvanceRead 12 (reader s)) s).
Proof.
  intros H. cbn in H.
  unfold ExecutePacketType3_LOAD_ALU_CONSTANT. cbn.
  set (ty := Z.land (Z.shiftr _ 16) 255) in *.
  destruct (ty =? 0) eqn:E0; [apply Z.eqb_eq in E0; lia|].
  destruct (ty =? 1) eqn:E1; [apply Z.eqb_eq in E1; lia|].
  destruct (ty =? 2) eqn:E2; [apply Z.eqb_eq in E2; lia|].
  destruct (ty =? 3) eqn:E3; [apply Z.eqb_eq in E3; lia|].
  destruct (ty =? 4) eqn:E4; [apply Z.eqb_eq in E4; lia|].
  cbn. rewrite !rb_AdvanceRead_add. reflexivity.
Qed.

(* ================================================================= *)
(** ** [MEM_WRITE] *)

Lemma payload_ptr_next (n : nat) (s s1 : CP) :
  reader s1 = rb_AdvanceRead 4 (reader s) ->
  payload_ptr n s1 = payload_ptr (S n) s.
Proof.
  intros H. unfold payload_ptr. rewrite H, Nat.iter_succ_r. reflexivity.
Qed.

Lemma payload_word_at (n : nat) (s : CP) :
  payload_word n s = load_and_swap32 (mem s) (payload_ptr n s).
Proof.
  revert s. induction n as [|n IH]; intros s.
  - reflexivity.
  - cbn [payload_word]. rewrite IH.
    rewrite (payload_ptr_next n s) by reflexivity. reflexivity.
Qed.

Lemma payload_word_local (n : nat) (s1 s2 : CP) :
  reader s1 = reader s2 ->
  (forall b, 0 <= b < 4 ->
             mem s1 (payload_ptr n s1 + b) = mem s2 (payload_ptr n s1 + b)) ->
  payload_word n s1 = payload_word n s2.
Proof.
  intros Hr Hm. rewrite !payload_word_at.
  assert (Hp : payload_ptr n s2 = payload_ptr n s1)
    by (unfold payload_ptr; now rewrite Hr).
  rewrite Hp. unfold load_and_swap32.
  rewrite <- (Hm 1), <- (Hm 2), <- (Hm 3) by lia.
  pose proof (Hm 0 ltac:(lia)) as H0. rewrite Z.add_0_r in H0.
  now rewrite H0.
Qed.

Lemma load32_local (m1 m2 : Memory) (a : Z) :
  (forall b, 0 <= b < 4 -> m1 (a + b) = m2 (a + b)) ->
  load32 m1 a = load32 m2 a.
Proof.
  intros Hm. unfold load32.
  rewrite (Hm 1), (Hm 2), (Hm 3) by lia.
  pose proof (Hm 0 ltac:(lia)) as H0. rewrite Z.add_0_r in H0.
  now rewrite H0.
Qed.

Section MemWriteLoop.

Variable E : Externals.
Variable W : Z.

Local Abbreviation tgt i :=
  (TranslatePhysical E (clear_low2 (u32 (W + 4 * i)))).

Local Abbreviation body :=
  (fun i =>
     let write_addr := u32 (W + 4 * i) in
     write_data <- ReadAndSwap ;;
     let endianness := Z.land write_addr 0x3 in
     let addr := clear_low2 write_addr in
     let write_data := GpuSwap E write_data endianness in
     store_mem32 (TranslatePhysical E addr) write_data ;;;
     trace_write (MemoryWrite (CpuToGpu E addr) 4)).

Lemma mem_write_body (i : Z) (s : CP) :
  reader (snd (body i s)) = rb_AdvanceRead 4 (reader s) /\
  mem (snd (body i s))
  = store32 (mem s) (tgt i)
            (GpuSwap E (payload_word 0 s) (Z.land (u32 (W + 4 * i)) 0x3)).
Proof. split; reflexivity. Qed.

Lemma mem_write_loop (k : nat) :
  forall (i0 : Z) (s : CP),
    (forall d e, (d < k)%nat -> (e < k)%nat -> forall b, 0 <= b < 4 ->
       ~ (tgt (i0 + Z.of_nat d) <= payload_ptr e s + b
          < tgt (i0 + Z.of_nat d) + 4)) ->
    (forall d e, (d < e < k)%nat ->
       tgt (i0 + Z.of_nat d) + 4 <= tgt (i0 + Z.of_nat e)
       \/ tgt (i0 + Z.of_nat e) + 4 <= tgt (i0 + Z.of_nat d)) ->
    let s' := snd (for_loop k i0 body s) in
    (forall d, (d < k)%nat ->
       load32 (mem s') (tgt (i0 + Z.of_nat d))
       = u32 (GpuSwap E (payload_word d s)
                        (Z.land (u32 (W + 4 * (i0 + Z.of_nat d))) 0x3))) /\
    (forall x,
       (forall d, (d < k)%nat ->
          ~ (tgt (i0 + Z.of_nat d) <= x < tgt (i0 + Z.of_nat d) + 4)) ->
       mem s' x = mem s x).
Proof.
  induction k as [|k IH]; intros i0 s H1 H2; cbn zeta.
  - split; [intros d Hd; lia|]. intros x _. reflexivity.
  - cbn [for_loop]. rewrite bind_snd.
    destruct (mem_write_body i0 s) as (Hrd & Hmem).
    set (s1 := snd (body i0 s)) in *.
    assert (Hsh : forall d, i0 + 1 + Z.of_nat d = i0 + Z.of_nat (S d))
      by (intros; lia).
    destruct (IH (i0 + 1) s1) as (IHl & IHf).
    { intros d e Hd He b Hb. rewrite Hsh.
      rewrite (payload_ptr_next e s s1 Hrd). apply H1; lia. }
    { intros d e Hde. rewrite !Hsh. apply H2. lia. }
    assert (Hframe1 : forall x,
              ~ (tgt (i0 + Z.of_nat 0) <= x < tgt (i0 + Z.of_nat 0) + 4) ->
              mem s1 x = mem s x).
    { intros x Hx. rewrite Hmem. apply store32_other.
      replace (i0 + Z.of_nat 0) with i0 in Hx by lia. exact Hx. }
    split.
    + intros [|d] Hd.
      * rewrite (load32_local _ (mem s1)).
        -- rewrite Hmem. replace (i0 + Z.of_nat 0) with i0 by lia.
           apply load32_store32_same.
        -- intros b Hb. apply IHf. intros d Hd'. rewrite Hsh.
           destruct (H2 0%nat (S d) ltac:(lia)); lia.
      * rewrite <- Hsh, IHl by lia. rewrite Hsh. do 2 f_equal.
        cbn [payload_word].
        apply payload_word_local; [exact Hrd|].
        intros b Hb. cbn [ReadAndSwap snd mem set_reader].
        apply Hframe1.
        rewrite (payload_ptr_next d s s1 Hrd). apply H1; lia.
    + intros x Hx. rewrite IHf.
      * apply Hframe1. apply Hx. lia.
      * intros d Hd. rewrite Hsh. apply Hx. lia.
Qed.

End MemWriteLoop.

(** X22.  [MEM_WRITE] lands its data words at consecutive guest words:
    when the target words overlap neither the payload still to be read nor
    each other, the [i]-th data word, swapped as the low two bits of its
    address say, is what memory holds afterwards at the [i]-th target. *)
Theorem MEM_WRITE_stores_payload (E : Externals) (packet count : Z)
        (s : CP) :
  let n := Z.to_nat (u32 (count - 1)) in
  let s' := snd (ExecutePacketType3_MEM_WRITE E packet count s) in
  (forall i j, (i < n)%nat -> (j < n)%nat -> forall b, 0 <= b < 4 ->
     ~ (mem_write_target E s i <= payload_ptr (S j) s + b
        < mem_write_target E s i + 4)) ->
  (forall i j, (i < j < n)%nat ->
     mem_write_target E s i + 4 <= mem_write_target E s j
     \/ mem_write_target E s j + 4 <= mem_write_target E s i) ->
  forall i, (i < n)%nat ->
    load32 (mem s') (mem_write_target E s i)
    = u32 (GpuSwap E (payload_word (S i) s)
                     (Z.land (mem_write_addr s i) 0x3)).
Proof.
  cbv zeta. intros H1 H2 i Hi.
  unfold ExecutePacketType3_MEM_WRITE.
  rewrite bind_snd, bind_snd.
  cbn [ReadAndSwap fst snd ret].
  set (W := load_and_swap32 (mem s) (read_ptr (reader s))).
  set (s0 := set_reader (rb_AdvanceRead 4 (reader s)) s).
  destruct (mem_write_loop E W (Z.to_nat (u32 (count - 1))) 0 s0)
    as (Hl & _).
  - intros d e Hd He b Hb.
    rewrite (payload_ptr_next e s s0) by reflexivity.
    exact (H1 d e Hd He b Hb).
  - intros d e Hde. exact (H2 d e Hde).
  - exact (Hl i Hi).
Qed.

(* ================================================================= *)
(** ** Packets that always return *)


(* ================================================================= *)
(** ** [EVENT_WRITE_EXT], [SET_CONSTANT2] and the memory poll *)

Lemma byte_swap16_bytes (v : Z) :
  0 <= v < 2 ^ 16 ->
  byte_swap16 v mod 256 = v / 256
  /\ Z.shiftr (byte_swap16 v) 8 mod 256 = v mod 256.
Proof.
  intros Hv. unfold byte_swap16.
  set (A := Z.shiftl (Z.land v 255) 8).
  set (B := Z.land (Z.shiftr v 8) 255).
  assert (HA : A = (v mod 256) * 256).
  { unfold A. rewrite Z.shiftl_mul_pow2 by lia.
    change 255 with (Z.ones 8). rewrite Z.land_ones by lia. reflexivity. }
  assert (HB : B = (v / 256) mod 256).
  { unfold B. change 255 with (Z.ones 8). rewrite Z.land_ones by lia.
    rewrite Z.shiftr_div_pow2 by lia. reflexivity. }
  assert (Hdis : Z.land A B = 0).
  { unfold B. rewrite (Z.land_comm (Z.shiftr v 8)), Z.land_assoc.
    change 255 with (Z.ones 8). rewrite (Z.land_ones A) by lia.
    rewrite HA. change (2 ^ 8) with 256. rewrite Z.mod_mul by lia.
    apply Z.land_0_l. }
  pose proof (Z.add_lor_land A B) as Hadd. rewrite Hdis, Z.add_0_r in Hadd.
  rewrite Hadd, Z.shiftr_div_pow2 by lia. rewrite HA, HB.
  change (2 ^ 8) with 256. change (2 ^ 16) with 65536 in Hv.
  split; Z.div_mod_to_equations; lia.
Qed.

Lemma load_and_swap16_store16 (m : Memory) (a v : Z) :
  0 <= v < 2 ^ 16 ->
  load_and_swap16 (store16 m a (byte_swap16 v)) a = v.
Proof.
  intros Hv. unfold load_and_swap16, store16.
  rewrite (store8_other _ (a + 1) _ a) by lia.
  rewrite !store8_same, !Zmod_mod.
  destruct (byte_swap16_bytes v Hv) as (H0 & H1). rewrite H0, H1.
  change (2 ^ 8) with 256. change (2 ^ 16) with 65536 in Hv.
  Z.div_mod_to_equations. lia.
Qed.

Lemma store16_other (m : Memory) (a v x : Z) :
  ~ (a <= x < a + 2) -> store16 m a v x = m x.
Proof.
  intros H. unfold store16. rewrite !store8_other by lia. reflexivity.
Qed.

Lemma load_and_swap16_other (m : Memory) (a b v : Z) :
  a + 2 <= b \/ b + 2 <= a ->
  load_and_swap16 (store16 m b v) a = load_and_swap16 m a.
Proof.
  intros H. unfold load_and_swap16.
  rewrite !store16_other by lia. reflexivity.
Qed.

(** X24.  [EVENT_WRITE_EXT] leaves the six screen extents at the target in
    guest byte order, whatever the low two bits of the address say: read
    as big-endian half-words they are 0, max, 0, max, 0, 1, with [max] the
    largest texture size divided by 8; memory outside the twelve bytes is
    untouched. *)
Theorem EVENT_WRITE_EXT_extents (E : Externals) (packet count : Z)
        (s : CP) :
  let destination := TranslatePhysical E (clear_low2 (payload_word 1 s)) in
  let s' := snd (ExecutePacketType3_EVENT_WRITE_EXT E packet count s) in
  let max := Z.shiftr (kTexture2DCubeMaxWidthHeight E) 3 in
  0 <= max < 2 ^ 16 ->
  map (fun i => load_and_swap16 (mem s') (destination + 2 * i))
      [0; 1; 2; 3; 4; 5]
  = [0; max; 0; max; 0; 1]
  /\ (forall x, ~ (destination <= x < destination + 12) ->
                mem s' x = mem s x).
Proof.
  cbv zeta. intros Hmax.
  set (d := TranslatePhysical E (clear_low2 (payload_word 1 s))).
  set (mx := Z.shiftr (kTexture2DCubeMaxWidthHeight E) 3) in *.
  assert (Hmem :
    mem (snd (ExecutePacketType3_EVENT_WRITE_EXT E packet count s))
    = store16 (store16 (store16 (store16 (store16 (store16 (mem s)
        (d + 2 * 0) (byte_swap16 0)) (d + 2 * 1) (byte_swap16 mx))
        (d + 2 * 2) (byte_swap16 0)) (d + 2 * 3) (byte_swap16 mx))
        (d + 2 * 4) (byte_swap16 0)) (d + 2 * 5) (byte_swap16 1))
    by reflexivity.
  rewrite Hmem. clear Hmem.
  assert (H0 : 0 <= 0 < 2 ^ 16) by lia.
  assert (H1 : 0 <= 1 < 2 ^ 16) by lia.
  split.
  - cbn [map].
    repeat match goal with
           | |- _ :: _ = _ :: _ => f_equal
           end;
      repeat first
        [ rewrite load_and_swap16_store16 by assumption; reflexivity
        | rewrite load_and_swap16_other by lia ].
  - intros x Hx. rewrite !store16_other by lia. reflexivity.
Qed.

(** X25.  [SET_CONSTANT2] writes its data words to consecutive registers:
    word [i + 1] of the payload goes to register [index + i], with [index]
    the low 16 bits of the first word, for every [i] below [count - 1];
    the other registers keep their value, and nothing checks the index
    against the size of the register file.  [SET_SHADER_CONSTANTS] is the
    same function. *)
Theorem SET_CONSTANT2_range (E : Externals) (packet count : Z) (s : CP) :
  1 <= count <= 2 ^ 32 ->
  let index := Z.land (payload_word 0 s) 0xFFFF in
  let r := ExecutePacketType3_SET_CONSTANT2 E packet count s in
  ExecutePacketType3_SET_SHADER_CONSTANTS E packet count s = r /\
  fst r = true /\
  (forall i, 0 <= i < count - 1 ->
             regs (snd r) (index + i) = payload_word (S (Z.to_nat i)) s) /\
  (forall x, ~ (index <= x < index + (count - 1)) ->
             regs (snd r) x = regs s x).
Proof.
  intros Hc index r. subst r.
  split; [reflexivity|].
  unfold ExecutePacketType3_SET_CONSTANT2.
  rewrite !bind_fst, !bind_snd. cbn [ReadAndSwap ret fst snd].
  fold index.
  set (s1 := set_reader (rb_AdvanceRead 4 (reader s)) s).
  unfold WriteRegisterRangeFromRing.
  assert (Hu : u32 (count - 1) = count - 1)
    by (apply u32_small; lia).
  rewrite Hu.
  destruct (range_loop_regs E index (Z.to_nat (count - 1)) 0 s1)
    as (Hm & Hr).
  split; [reflexivity|]. split.
  - intros i Hi. rewrite Hr.
    replace (index + 0 <=? index + i) with true
      by (symmetry; apply Z.leb_le; lia).
    replace (index + i <? index + 0 + Z.of_nat (Z.to_nat (count - 1)))
      with true by (symmetry; apply Z.ltb_lt; lia).
    cbn [andb]. replace (index + i - index - 0) with i by lia.
    reflexivity.
  - intros x Hx. rewrite Hr.
    destruct (index + 0 <=? x) eqn:H1; [|reflexivity].
    destruct (x <? index + 0 + Z.of_nat (Z.to_nat (count - 1)))
      eqn:H2; [|reflexivity].
    apply Z.leb_le in H1. apply Z.ltb_lt in H2. lia.
Qed.

#[local] Arguments clear_low2 : simpl never.

Lemma clear_low2_low_bits (x : Z) : Z.land (clear_low2 x) 0x3 = 0.
Proof.
  unfold clear_low2. rewrite <- Z.land_assoc. apply Z.land_0_r.
Qed.

Lemma clear_low2_idem (x : Z) : clear_low2 (clear_low2 x) = clear_low2 x.
Proof.
  unfold clear_low2. rewrite <- Z.land_assoc. reflexivity.
Qed.

(** X26.  A [WAIT_REG_MEM] on memory honours the endianness bits of the
    address at the first poll only: the address is stripped of them in
    place, so from the second poll on the word is read with endianness 0.
    Here the first poll fails, the short wait yields, and the second poll,
    swapped as endianness 0, matches. *)
Theorem WAIT_REG_MEM_memory_second_poll (E : Externals) (n : nat)
        (packet count : Z) (s : CP) :
  let wait_info := payload_word 0 s in
  let poll_addr := clear_low2 (payload_word 1 s) in
  let ref := payload_word 2 s in
  let mask := payload_word 3 s in
  let host := TranslatePhysical E poll_addr in
  Z.land wait_info 0x10 <> 0 ->
  MatchValueAndRef
    (Z.land (GpuSwap E (load32 (mem s) host)
                       (Z.land (payload_word 1 s) 0x3)) mask)
    ref wait_info = false ->
  payload_word 4 s < 0x100 ->
  MatchValueAndRef
    (Z.land (GpuSwap E (load32 (yield_mem E (mem s)) host) 0) mask)
    ref wait_info = true ->
  exists s',
    ExecutePacketType3_WAIT_REG_MEM E (S (S n)) packet count s
      = Some (true, s') /\
    trace s' = trace s ++ [MemoryRead (CpuToGpu E poll_addr) 4;
                           MemoryRead (CpuToGpu E poll_addr) 4] /\
    backend s' = backend s.
Proof.
  cbv zeta. intros Hmem Hm1 Hw Hm2. cbn in Hmem, Hm1, Hw, Hm2.
  apply Z.eqb_neq in Hmem.
  unfold ExecutePacketType3_WAIT_REG_MEM. cbn.
  unfold wait_poll_value. rewrite Hmem. cbn. rewrite Hm1.
  match goal with
  | |- context [?w >=? 256] =>
      replace (w >=? 256) with false
        by (symmetry; rewrite Z.geb_leb; apply Z.leb_gt; exact Hw)
  end.
  cbn.
  rewrite clear_low2_low_bits, clear_low2_idem, Hm2.
  eexists. split; [reflexivity|]. cbn.
  rewrite <- app_assoc. split; reflexivity.
Qed.

(* ================================================================= *)
(** ** More runs on concrete rings *)


(** X2, witness: after an unpredicated [NOP] of three words the asserted
    condition holds. *)
Lemma type3_offset_assertion_holds_witness :
  type3_offset_assertion (read_offset (reader plain_nop_state))
                         (packet_count plain_nop) plain_nop_after = true.
Proof.
  assert (Hret : match ExecutePacketType3 E_sample 0 plain_nop
                         plain_nop_state with
                 | Some _ => true
                 | None => false
                 end = true) by (vm_compute; reflexivity).
  unfold plain_nop_after.
  destruct (ExecutePacketType3 E_sample 0 plain_nop plain_nop_state)
    as [[r s']|] eqn:H; [|discriminate Hret].
  apply (type3_offset_assertion_holds E_sample 0 plain_nop plain_nop_state
           r s'); [vm_compute; reflexivity | | exact H].
  vm_compute. reflexivity.
Defined.

(** X3, witness: an [INDIRECT_BUFFER] packet that runs two packets, one of
    them unimplemented. *)
Lemma packet_marks_balanced_witness :
  packet_starts (trace indirect_ring_after)
  - packet_starts (trace indirect_ring_state)
  = packet_ends (trace indirect_ring_after)
    - packet_ends (trace indirect_ring_state).
Proof.
  assert (Hret : match ExecutePacket E_sample 3 indirect_ring_state with
                 | Some _ => true
                 | None => false
                 end = true) by (vm_compute; reflexivity).
  unfold indirect_ring_after.
  destruct (ExecutePacket E_sample 3 indirect_ring_state)
    as [[r s']|] eqn:H; [|discriminate Hret].
  exact (packet_marks_balanced E_sample 3 indirect_ring_state r s' H).
Defined.

(** X4, witness: one [XE_SWAP] packet. *)
Lemma frame_counter_counts_swaps_witness :
  u32 (counter swap_after - counter swap_state)
  = u32 (swaps_issued (backend swap_after)
         - swaps_issued (backend swap_state)).
Proof.
  assert (Hret : match ExecutePacket E_sample 0 swap_state with
                 | Some _ => true
                 | None => false
                 end = true) by (vm_compute; reflexivity).
  unfold swap_after.
  destruct (ExecutePacket E_sample 0 swap_state)
    as [[r s']|] eqn:H; [|discriminate Hret].
  exact (frame_counter_counts_swaps E_sample 0 swap_state r s' H).
Defined.

(** X5, witness: a ring that starts with [0x80000000]. *)
Lemma ExecutePacket_type2_witness :
  exists s',
    ExecutePacket E_sample 0 type2_state = Some (true, s') /\
    reader s' = rb_AdvanceRead 4 (reader type2_state) /\
    trace s' = trace type2_state
               ++ [PacketStart (u32 (read_ptr (reader s') - 4)) 1;
                   PacketEnd] /\
    same_except_reader_trace type2_state s'.
Proof.
  apply (ExecutePacket_type2 E_sample 0 type2_state).
  vm_compute. reflexivity.
Defined.

(** X6, witness: three words declared, one in the ring. *)
Lemma ExecutePacketType0_overflow_witness :
  ExecutePacketType0 E_sample type0_truncated type0_truncated_state
  = (false, type0_truncated_state).
Proof.
  apply (ExecutePacketType0_overflow E_sample type0_truncated
           type0_truncated_state).
  vm_compute. reflexivity.
Defined.

(** X7, witness: [0xAAAA] and [0xBBBB] go to registers [0x100] and
    [0x101]. *)
Lemma ExecutePacketType0_range_witness :
  regs (snd (ExecutePacketType0 E_sample type0_range type0_range_state))
       (0x100 + 1)
  = payload_word 1 type0_range_state.
Proof.
  pose proof (ExecutePacketType0_range E_sample type0_range
                type0_range_state
                ltac:(vm_compute; reflexivity)
                ltac:(vm_compute; discriminate)) as H.
  cbv zeta in H. destruct H as (_ & H & _).
  apply (H 1). vm_compute. split; [discriminate | reflexivity].
Defined.

(** X8, witness: of [0xAAAA] and [0xBBBB] written to register [0x100],
    the second stays. *)
Lemma ExecutePacketType0_write_one_witness :
  regs (snd (ExecutePacketType0 E_sample type0_one type0_one_state)) 0x100
  = payload_word 1 type0_one_state.
Proof.
  pose proof (ExecutePacketType0_write_one E_sample type0_one
                type0_one_state
                ltac:(vm_compute; reflexivity)
                ltac:(vm_compute; discriminate)) as H.
  cbv zeta in H. destruct H as (_ & H & _).
  exact H.
Defined.

(** X9, witness: registers [0x100] and [0x101] differ, so the first word
    stays in [0x100]. *)
Lemma ExecutePacketType1_writes_witness :
  regs (snd (ExecutePacketType1 E_sample type1_packet type1_state)) 0x100
  = payload_word 0 type1_state.
Proof.
  pose proof (ExecutePacketType1_writes E_sample type1_packet type1_state)
    as H.
  cbv zeta in H. destruct H as (_ & _ & _ & H & _).
  apply H. vm_compute. discriminate.
Defined.

(** X10, witness: opcode 1 has no handler. *)
Lemma type3_unimplemented_opcode_witness :
  exists s',
    ExecutePacketType3 E_sample 0 unimplemented_packet unimplemented_state
      = Some (false, s') /\
    reader s' = rb_AdvanceRead (4 * packet_count unimplemented_packet)
                               (reader unimplemented_state) /\
    trace s' = trace unimplemented_state
               ++ [PacketStart (u32 (read_ptr (reader unimplemented_state) - 4))
                               (1 + packet_count unimplemented_packet);
                   PacketEnd] /\
    same_except_reader_trace unimplemented_state s'.
Proof.
  apply (type3_unimplemented_opcode E_sample 0 unimplemented_packet
           unimplemented_state);
    vm_compute; reflexivity.
Defined.

(** X11, witness: a [NOP] with and without the predicate bit, bin 0
    selected and passing. *)
Lemma predicate_bit_ignored_when_bin_passes_witness :
  ExecutePacketType3 E_sample 0 plain_nop passing_bin_state
  = ExecutePacketType3 E_sample 0 predicated_nop passing_bin_state.
Proof.
  apply (predicate_bit_ignored_when_bin_passes E_sample 0 plain_nop
           predicated_nop passing_bin_state).
  - vm_compute. reflexivity.
  - vm_compute. discriminate.
  - vm_compute. discriminate.
Defined.

(** X14, witness: the end of query 5 sets bit 5 of the first status
    register. *)
Lemma VIZ_QUERY_end_sets_bit_witness :
  Z.testbit
    (regs (snd (ExecutePacketType3_VIZ_QUERY E_sample 0xC0002300 1
                  viz_end_state))
          (XE_GPU_REG_PA_SC_VIZ_QUERY_STATUS_0 E_sample)) 5
  = (Z.testbit (regs viz_end_state
                     (XE_GPU_REG_PA_SC_VIZ_QUERY_STATUS_0 E_sample)) 5
     || ((Z.land (payload_word 0 viz_end_state) 0x3F <? 32)
         && (5 =? Z.land (payload_word 0 viz_end_state) 0x3F))).
Proof.
  pose proof (VIZ_QUERY_end_sets_bit E_sample 0xC0002300 1 viz_end_state)
    as H.
  cbv zeta in H.
  destruct (H ltac:(vm_compute; discriminate)
              ltac:(vm_compute; discriminate)
              ltac:(vm_compute; discriminate)
              ltac:(vm_compute; discriminate)
              5 ltac:(lia)) as (H5 & _).
  exact H5.
Defined.

(** X15, witness: the comparison holds and the target is a register. *)
Lemma COND_WRITE_writes_iff_matched_witness :
  regs (snd (ExecutePacketType3_COND_WRITE E_sample 0xC0054500 6
               cond_write_state))
  = upd (regs cond_write_state) (payload_word 4 cond_write_state)
        (payload_word 5 cond_write_state).
Proof.
  pose proof (COND_WRITE_writes_iff_matched E_sample 0xC0054500 6
                cond_write_state) as H.
  cbv zeta in H. destruct H as (_ & _ & H & _).
  destruct (H ltac:(vm_compute; reflexivity) ltac:(vm_compute; reflexivity))
    as (Hr & _).
  exact Hr.
Defined.

(** X16, witness: register [0x10] holds 0, the value waited for. *)
Lemma WAIT_REG_MEM_already_matched_witness :
  ExecutePacketType3_WAIT_REG_MEM E_sample 1 0xC0043C00 5 wait_matched_state
  = Some (true,
          set_reader (rb_AdvanceRead 20 (reader wait_matched_state))
                     wait_matched_state).
Proof.
  apply (WAIT_REG_MEM_already_matched E_sample 0 0xC0043C00 5
           wait_matched_state).
  - vm_compute. reflexivity.
  - vm_compute. discriminate.
  - vm_compute. reflexivity.
Defined.

(** X17, witness: register [0x10] never holds 1 and the worker is
    stopped. *)
Lemma WAIT_REG_MEM_cancelled_witness :
  exists s',
    ExecutePacketType3_WAIT_REG_MEM E_sample 1 0xC0043C00 5
      wait_stopped_state = Some (false, s') /\
    reader s' = rb_AdvanceRead 20 (reader wait_stopped_state) /\
    backend s' = backend wait_stopped_state
                 ++ [CallPrepareForWait; CallReturnFromWait].
Proof.
  apply (WAIT_REG_MEM_cancelled E_sample 0 0xC0043C00 5 wait_stopped_state).
  - vm_compute. reflexivity.
  - vm_compute. discriminate.
  - vm_compute. reflexivity.
  - vm_compute. discriminate.
  - vm_compute. reflexivity.
Defined.

(** X18, witness: three auto-generated indices are drawn. *)
Lemma DRAW_INDX_2_without_index_buffer_witness :
  fst (ExecutePacketType3_DRAW_INDX_2 E_sample 0xC0003600 1 draw_auto_state)
  = true.
Proof.
  pose proof (DRAW_INDX_2_without_index_buffer E_sample 0xC0003600 1
                draw_auto_state) as H.
  cbv zeta in H.
  destruct (H ltac:(lia) ltac:(vm_compute; discriminate)
              ltac:(vm_compute; discriminate)) as (Ht & _).
  exact Ht.
Defined.

(** X19, witness: an indexed draw of one word. *)
Lemma DRAW_INDX_2_dma_too_small_witness :
  fst (ExecutePacketType3_DRAW_INDX_2 E_sample 0xC0003600 1 draw_dma_state)
  = false
  /\ backend (snd (ExecutePacketType3_DRAW_INDX_2 E_sample 0xC0003600 1
                     draw_dma_state))
     = backend draw_dma_state.
Proof.
  apply (DRAW_INDX_2_dma_too_small E_sample 0xC0003600 1 draw_dma_state).
  - vm_compute. reflexivity.
  - lia.
Defined.

(** X20, witness: a shader of type 2. *)
Lemma IM_LOAD_IMMEDIATE_unknown_type_witness :
  fst (ExecutePacketType3_IM_LOAD_IMMEDIATE E_sample 0xC0022B00 3
         im_load_immediate_state) = false.
Proof.
  pose proof (IM_LOAD_IMMEDIATE_unknown_type E_sample 0xC0022B00 3
                im_load_immediate_state) as H.
  cbv zeta in H.
  destruct (H ltac:(vm_compute; reflexivity)) as (Hf & _).
  exact Hf.
Defined.

(** X21, witness: a load of type 5. *)
Lemma LOAD_ALU_CONSTANT_unknown_type_witness :
  ExecutePacketType3_LOAD_ALU_CONSTANT E_sample 0xC0022F00 3 load_alu_state
  = (true, set_reader (rb_AdvanceRead 12 (reader load_alu_state))
                      load_alu_state).
Proof.
  apply (LOAD_ALU_CONSTANT_unknown_type E_sample 0xC0022F00 3
           load_alu_state).
  vm_compute. reflexivity.
Defined.

(** X22, witness: [0x11] and [0x22] written to [0x4000] and [0x4004], far
    from the ring at [0x1000]. *)
Lemma MEM_WRITE_stores_payload_witness :
  load32 (mem (snd (ExecutePacketType3_MEM_WRITE E_sample 0xC0023D00 3
                      mem_write_state)))
         (mem_write_target E_sample mem_write_state 1)
  = u32 (GpuSwap E_sample (payload_word 2 mem_write_state)
                 (Z.land (mem_write_addr mem_write_state 1) 0x3)).
Proof.
  apply (fun H1 H2 =>
           MEM_WRITE_stores_payload E_sample 0xC0023D00 3 mem_write_state
             H1 H2 1%nat).
  - intros [|[|i]] [|[|j]] Hi Hj b Hb;
      try (exfalso; vm_compute in Hi; lia);
      try (exfalso; vm_compute in Hj; lia);
      vm_compute mem_write_target; vm_compute payload_ptr; lia.
  - intros [|[|i]] [|[|j]] Hij;
      try (exfalso; vm_compute in Hij; lia);
      vm_compute; left; discriminate.
  - vm_compute. lia.
Defined.


(** X24, witness: the largest texture size is 8192, so [max] is 1024. *)
Lemma EVENT_WRITE_EXT_extents_witness :
  map (fun i =>
         load_and_swap16
           (mem (snd (ExecutePacketType3_EVENT_WRITE_EXT E_sample 0xC0015A00
                        2 event_ext_state)))
           (TranslatePhysical E_sample
              (clear_low2 (payload_word 1 event_ext_state)) + 2 * i))
      [0; 1; 2; 3; 4; 5]
  = [0; Z.shiftr (kTexture2DCubeMaxWidthHeight E_sample) 3; 0;
     Z.shiftr (kTexture2DCubeMaxWidthHeight E_sample) 3; 0; 1].
Proof.
  pose proof (EVENT_WRITE_EXT_extents E_sample 0xC0015A00 2 event_ext_state)
    as H.
  cbv zeta in H.
  destruct (H ltac:(vm_compute; split; [discriminate|reflexivity]))
    as (Hx & _).
  exact Hx.
Defined.

(** X25, witness: [0x11] and [0x22] go to registers [0x2100] and
    [0x2101]. *)
Lemma SET_CONSTANT2_range_witness :
  regs (snd (ExecutePacketType3_SET_CONSTANT2 E_sample 0xC0025500 3
               set_constant2_state))
       (Z.land (payload_word 0 set_constant2_state) 0xFFFF + 1)
  = payload_word 2 set_constant2_state.
Proof.
  pose proof (SET_CONSTANT2_range E_sample 0xC0025500 3 set_constant2_state
                ltac:(lia)) as H.
  cbv zeta in H. destruct H as (_ & _ & H & _).
  apply (H 1). lia.
Defined.

(** X26, witness: the word at [0x5000] is 1 in host order; polled with
    endianness 2 it reads [0x01000000], polled again it reads 1. *)
Lemma WAIT_REG_MEM_memory_second_poll_witness :
  exists s',
    ExecutePacketType3_WAIT_REG_MEM E_sample 2 0xC0043C00 5 wait_mem_state
      = Some (true, s') /\
    trace s' = trace wait_mem_state
               ++ [MemoryRead
                     (CpuToGpu E_sample
                        (clear_low2 (payload_word 1 wait_mem_state))) 4;
                   MemoryRead
                     (CpuToGpu E_sample
                        (clear_low2 (payload_word 1 wait_mem_state))) 4] /\
    backend s' = backend wait_mem_state.
Proof.
  apply (WAIT_REG_MEM_memory_second_poll E_sample 0 0xC0043C00 5
           wait_mem_state).
  - vm_compute. discriminate.
  - vm_compute. reflexivity.
  - vm_compute. reflexivity.
  - vm_compute. reflexivity.
Defined.
